(** * Chat streaming backend: a shallow embedding of the chat service

    The development follows the Python back end of the repository:
    - [app/chat/models.py]   (MessageRole, Conversation, Message),
    - [app/chat/schemas.py]  (MessageCreate, ChatRequest),
    - [app/chat/services.py] (class ChatService),
    - [app/chat/router.py]   (stream_chat_response and its generator).

    Python text is a [string] whose characters are code points below 256.
    Coroutines and asynchronous generators are run in a small monad [G]
    that threads the store, records the yielded items and carries raised
    exceptions.  External collaborators (search, market data, generation
    back ends, the tokenizer, the database engine) are fields of the
    records [ChatService] and [AsyncSession]: the code only calls them. *)

From Stdlib Require Import String Ascii List Arith Lia Bool.
From stdpp Require Import base option list strings gmap pretty.
Import ListNotations.
Open Scope string_scope.
Open Scope list_scope.

(** ** Python strings *)

Module Py.

Definition nl : string := String "010"%char EmptyString.
Definition dquote : string := String "034"%char EmptyString.
Definition backslash : string := String "092"%char EmptyString.

(** [str.lower] on code points below 256: A-Z and the Latin-1 capitals
    (192-222 without the multiplication sign 215) move up by 32. *)
Definition lower_char (c : ascii) : ascii :=
  let n := nat_of_ascii c in
  if (((65 <=? n) && (n <=? 90)) ||
      ((192 <=? n) && (n <=? 222) && negb (n =? 215)))%nat
  then ascii_of_nat (n + 32) else c.

Fixpoint lower (s : string) : string :=
  match s with
  | EmptyString => EmptyString
  | String c s' => String (lower_char c) (lower s')
  end.

(** [s.startswith(p)] *)
Definition startswith (s p : string) : bool := String.prefix p s.

(** [kw in s] for two strings: [kw] occurs in [s] at some offset. *)
Fixpoint contains (kw s : string) : bool :=
  String.prefix kw s ||
  match s with
  | EmptyString => false
  | String _ s' => contains kw s'
  end.

(** [any(p(x) for x in xs)] *)
Definition any {A} (p : A -> bool) (xs : list A) : bool := existsb p xs.

(** Truthiness of a string: the empty string is falsy. *)
Definition truthy (s : string) : bool :=
  match s with EmptyString => false | _ => true end.

(** [l[-n:]] for [n > 0]: the last [n] items, the whole list when it
    is shorter. *)
Definition last_n {A} (n : nat) (l : list A) : list A :=
  drop (length l - n) l.

(** [sum(...)] *)
Definition sum (l : list nat) : nat := fold_right Nat.add 0 l.

Fixpoint concat_str (l : list string) : string :=
  match l with
  | [] => EmptyString
  | s :: l' => s +:+ concat_str l'
  end.

End Py.

(** ** The [json] module, as far as the router uses it *)

Module Json.

Definition hex_digit (n : nat) : ascii :=
  if (n <? 10)%nat then ascii_of_nat (48 + n) else ascii_of_nat (87 + n).

(** One character of a JSON string literal under [ensure_ascii]. *)
Definition escape_char (c : ascii) : string :=
  let n := nat_of_ascii c in
  if (n =? 34)%nat then Py.backslash +:+ Py.dquote
  else if (n =? 92)%nat then Py.backslash +:+ Py.backslash
  else if (n =? 8)%nat then Py.backslash +:+ "b"
  else if (n =? 12)%nat then Py.backslash +:+ "f"
  else if (n =? 10)%nat then Py.backslash +:+ "n"
  else if (n =? 13)%nat then Py.backslash +:+ "r"
  else if (n =? 9)%nat then Py.backslash +:+ "t"
  else if ((32 <=? n) && (n <=? 126))%nat then String c EmptyString
  else Py.backslash +:+ "u00" +:+
       String (hex_digit (n / 16)) (String (hex_digit (n mod 16)) EmptyString).

Fixpoint escape (s : string) : string :=
  match s with
  | EmptyString => EmptyString
  | String c s' => escape_char c +:+ escape s'
  end.

(** [json.dumps(s)] for a string [s]. *)
Definition dumps_str (s : string) : string :=
  Py.dquote +:+ escape s +:+ Py.dquote.

(** [json.dumps({key: value})] for one string key and one string value. *)
Definition dumps (key value : string) : string :=
  "{" +:+ dumps_str key +:+ ": " +:+ dumps_str value +:+ "}".

End Json.

(** ** Data model ([app/chat/models.py], [app/chat/schemas.py]) *)

Inductive MessageRole := USER | ASSISTANT | SYSTEM.

Definition role_value (r : MessageRole) : string :=
  match r with
  | USER => "user"
  | ASSISTANT => "assistant"
  | SYSTEM => "system"
  end.

Definition UUID := nat.
Definition datetime := nat.

Record Conversation := {
  conversation_id_ : UUID;
  conversation_title : string;
  conversation_user_id : UUID;
  conversation_model_id : string;
  conversation_created_at : datetime;
  conversation_updated_at : datetime
}.

Record Message := {
  message_id : UUID;
  message_content : string;
  message_role : MessageRole;
  message_conversation_id : UUID;
  message_model_id : option string;
  message_token_count : option string;
  message_created_at : datetime
}.

Record MessageCreate := {
  content : string;
  role : MessageRole;
  model_id : option string
}.

Record ChatRequest := {
  request_message : string;
  request_conversation_id : UUID;
  request_model_id : string
}.

(** What a chat message holds under its role key: a string, or a member
    of [MessageRole] as the models module declares it, a plain [Enum],
    which is what a stored row carries in [msg.role]. *)
Inductive Role :=
| Text (s : string)
| Member (r : MessageRole).

Coercion Text : string >-> Role.

(** [role == text] for a string [text]: a member of a plain [Enum] is
    equal to no string. *)
Definition role_eq (role : Role) (text : string) : bool :=
  match role with
  | Text s => String.eqb s text
  | Member _ => false
  end.

(** A chat message as sent to a generation back end:
    [{"role": ..., "content": ...}]. *)
Record ChatMsg := { msg_role : Role; msg_content : string }.

(** ** Exceptions and results *)

Inductive Exn := Exception (msg : string).

(** [str(e)] *)
Definition str (e : Exn) : string := let 'Exception m := e in m.

Inductive result (A : Type) :=
| Ok (a : A)
| Raise (e : Exn).
Arguments Ok {A} a.
Arguments Raise {A} e.

(** ** Collaborator data *)

(** One web search result, a dictionary read with [result.get(key, '')]. *)
Record SearchResult := {
  title : option string;
  description : option string;
  url : option string;
  published : option string;
  source : option string
}.

(** One market entry, a dictionary read with [data.get(key, 'N/A')]; a
    field holds the text that [str] gives for its value. *)
Record MarketData := {
  price : option string;
  change : option string;
  volume : option string;
  high : option string;
  low : option string;
  open : option string
}.

(** The enrichment dictionary of [_get_enhanced_context]: its two keys
    are absent ([None]) or bound.  [crypto_data] keeps insertion order,
    which [.items()] follows. *)
Record Context := {
  web_search : option (list SearchResult);
  crypto_data : option (list (string * MarketData))
}.

Definition empty_context : Context :=
  {| web_search := None; crypto_data := None |}.

(** Keyword arguments of a [create(...)] call on a generation client. *)
Record CreateRequest := {
  model : string;
  messages : list ChatMsg;
  system : option string;
  stream : bool;
  temperature : option string;
  max_tokens : nat;
  top_p : option string
}.

(** A provider's event stream: the events it delivers, then a normal end
    ([None]) or an exception raised while awaiting the next event. *)
Record Stream (C : Type) := { events : list C; failure : option Exn }.
Arguments events {C} s.
Arguments failure {C} s.

(** OpenAI and Groq events: [chunk.choices[0].delta.content]. *)
Record Choice := { delta_content : option string }.
Record CompletionChunk := { choices : list Choice }.

(** Anthropic events: [chunk.type] and [chunk.delta.text]. *)
Record AnthropicEvent := { event_type : string; delta_text : string }.

Inductive Provider := OpenAI | Anthropic | Groq.

(** ** The store and the world a request runs in *)

Record Store := {
  conversations : list Conversation;
  stored_messages : list Message
}.

(** What a run does to the outside, in order. *)
Inductive Effect :=
| Committed (m : Message)
| Selected (conversation_id : UUID)
| Printed (line : string)
| SearchCalled (query : string) (count : nat)
| MarketDataCalled
| StreamCreated (family : Provider) (request : CreateRequest).

Record World := {
  store : Store;
  utcnow : datetime;
  uuid4 : UUID;
  trace : list Effect
}.

(** The database session [db]: the engine may refuse a commit, and may
    fail when the committed row is read back. *)
Record AsyncSession := {
  commit_fault : Store -> Message -> option Exn;
  refresh_fault : Store -> Message -> option Exn
}.

(** [self]: the clients built in [ChatService.__init__], and the method
    [get_conversation_with_messages], which the service calls and the
    repository does not define. *)
Record ChatService := {
  openai_client : CreateRequest -> result (Stream CompletionChunk);
  anthropic_client : CreateRequest -> result (Stream AnthropicEvent);
  groq_client : CreateRequest -> result (Stream CompletionChunk);
  brave_search : string -> nat -> result (list SearchResult);
  binance_service : result (list (string * MarketData));
  encoding : string -> list nat;
  get_conversation_with_messages :
    Store -> UUID -> result (Conversation * list Message)
}.

(** ** Coroutines and generators *)

(** A run from a world: the items yielded, how it ended, the world left. *)
Record Run (Y A : Type) := MkRun {
  yielded : list Y;
  outcome : result A;
  final : World
}.
Arguments MkRun {Y A} yielded outcome final.
Arguments yielded {Y A} r.
Arguments outcome {Y A} r.
Arguments final {Y A} r.

Definition G (Y A : Type) : Type := World -> Run Y A.

Definition ret {Y A} (a : A) : G Y A := fun w => MkRun [] (Ok a) w.

Definition raise {Y A} (e : Exn) : G Y A := fun w => MkRun [] (Raise e) w.

Definition yield {Y} (y : Y) : G Y unit := fun w => MkRun [y] (Ok tt) w.

Definition bind {Y A B} (m : G Y A) (k : A -> G Y B) : G Y B :=
  fun w =>
    let r := m w in
    match outcome r with
    | Ok a =>
        let r' := k a (final r) in
        MkRun (yielded r ++ yielded r') (outcome r') (final r')
    | Raise e => MkRun (yielded r) (Raise e) (final r)
    end.

Declare Scope py_scope.
Delimit Scope py_scope with py.
Notation "x <- c ;; k" := (bind c (fun x => k))
  (at level 100, c at next level, right associativity) : py_scope.
Notation "c ;; k" := (bind c (fun _ => k))
  (at level 100, right associativity) : py_scope.
Open Scope py_scope.

(** [try: body  except Exception as e: handler(e)] *)
Definition try_except {Y A} (body : G Y A) (handler : Exn -> G Y A) : G Y A :=
  fun w =>
    let r := body w in
    match outcome r with
    | Ok _ => r
    | Raise e =>
        let r' := handler e (final r) in
        MkRun (yielded r ++ yielded r') (outcome r') (final r')
    end.

(** Await a value that a collaborator returns or raises. *)
Definition await {Y A} (r : result A) : G Y A :=
  match r with
  | Ok a => ret a
  | Raise e => raise e
  end.

Definition get_world {Y} : G Y World := fun w => MkRun [] (Ok w) w.

Definition log {Y} (e : Effect) : G Y unit :=
  fun w =>
    MkRun [] (Ok tt)
      {| store := store w; utcnow := utcnow w; uuid4 := uuid4 w;
         trace := trace w ++ [e] |}.

(** The loop body run on each item in turn, with the loop's local
    variables [s]; a raising body ends the loop. *)
Fixpoint for_each {Y Z S} (items : list Y) (s : S) (body : S -> Y -> G Z S)
  : G Z S :=
  match items with
  | [] => ret s
  | y :: ys => s' <- body s y ;; for_each ys s' body
  end.

(** [async for y in gen: body].  The producer's effects on the world are
    placed before the bodies'; every loop of the service has a body that
    leaves the world alone.  When the producer ends by raising, the
    exception surfaces after the bodies of the items it yielded. *)
Definition async_for {Y Z S} (gen : G Y unit) (s : S) (body : S -> Y -> G Z S)
  : G Z S :=
  fun w =>
    let r := gen w in
    let r' := for_each (yielded r) s body (final r) in
    match outcome r', outcome r with
    | Ok _, Raise e => MkRun (yielded r') (Raise e) (final r')
    | _, _ => r'
    end.

(** Iterating a provider's event stream. *)
Definition iterate {C} (s : Stream C) : G C unit :=
  fun w =>
    MkRun (events s)
          (match failure s with None => Ok tt | Some e => Raise e end) w.

(** ** [ChatService] ([app/chat/services.py]) *)

(** [db.add(message); await db.commit()]: the row is inserted, or the
    engine raises and nothing is stored. *)
Definition commit {Y} (db : AsyncSession) (message : Message) : G Y unit :=
  fun w =>
    match commit_fault db (store w) message with
    | Some e => MkRun [] (Raise e) w
    | None =>
        MkRun [] (Ok tt)
          {| store := {| conversations := conversations (store w);
                         stored_messages := stored_messages (store w) ++ [message] |};
             utcnow := utcnow w;
             uuid4 := S (uuid4 w);
             trace := trace w ++ [Committed message] |}
    end.

(** [await db.refresh(message)]: the row is read back, or the engine
    raises. *)
Definition refresh {Y} (db : AsyncSession) (message : Message) : G Y unit :=
  fun w =>
    match refresh_fault db (store w) message with
    | Some e => MkRun [] (Raise e) w
    | None => MkRun [] (Ok tt) w
    end.

Definition add_message {Y} (db : AsyncSession) (conversation_id : UUID)
    (message_data : MessageCreate) : G Y Message :=
  w <- get_world ;;
  let message :=
    {| message_id := uuid4 w;
       message_content := content message_data;
       message_role := role message_data;
       message_conversation_id := conversation_id;
       message_model_id := model_id message_data;
       message_token_count := None;
       message_created_at := utcnow w |} in
  commit db message ;;
  refresh db message ;;
  ret message.

Definition freshness_keywords : list string :=
  ["latest"; "current"; "news"; "today"; "recent"; "what's happening"; "update"].

Definition market_keywords : list string :=
  ["bitcoin"; "btc"; "ethereum"; "eth"; "crypto"; "cryptocurrency";
   "binance"; "trading"; "price"; "market"; "coin"].

(** [any(keyword in user_message.lower() for keyword in keywords)] *)
Definition mentions (keywords : list string) (user_message : string) : bool :=
  Py.any (fun keyword => Py.contains keyword (Py.lower user_message)) keywords.

(** [await self.brave_search.search(user_message, count=3)] *)
Definition search {Y} (self : ChatService) (query : string) (count : nat)
  : G Y (list SearchResult) :=
  log (SearchCalled query count) ;; await (brave_search self query count).

(** [await self.binance_service.get_market_data()] *)
Definition get_market_data {Y} (self : ChatService)
  : G Y (list (string * MarketData)) :=
  log MarketDataCalled ;; await (binance_service self).

Definition _get_enhanced_context {Y} (self : ChatService) (user_message : string)
  : G Y Context :=
  let context := empty_context in
  context <-
    (if mentions freshness_keywords user_message then
       try_except
         (search_results <- search self user_message 3 ;;
          ret {| web_search := Some search_results;
                 crypto_data := crypto_data context |})
         (fun e =>
            log (Printed ("Web search failed: " +:+ str e)) ;; ret context)
     else ret context) ;;
  context <-
    (if mentions market_keywords user_message then
       try_except
         (crypto <- get_market_data self ;;
          ret {| web_search := web_search context;
                 crypto_data := Some crypto |})
         (fun e =>
            log (Printed ("Crypto data fetch failed: " +:+ str e)) ;; ret context)
     else ret context) ;;
  ret context.

Definition base_instruction : string :=
  "You are a helpful AI assistant with access to real-time information.".

Definition web_search_header : string :=
  Py.nl +:+ Py.nl +:+ "Current web search results:" +:+ Py.nl.

Definition crypto_header : string :=
  Py.nl +:+ Py.nl +:+ "Current cryptocurrency market data:" +:+ Py.nl.

Definition search_line (result : SearchResult) : string :=
  "- " +:+ default "" (title result) +:+ ": " +:+
  default "" (description result) +:+ Py.nl.

Definition crypto_line (item : string * MarketData) : string :=
  "- " +:+ fst item +:+ ": $" +:+ default "N/A" (price (snd item)) +:+
  " (24h change: " +:+ default "N/A" (change (snd item)) +:+ "%)" +:+ Py.nl.

(** The system text of [_prepare_messages]; a section is added when its
    key is bound to a non-empty value ([if context.get(key):]). *)
Definition system_content (context : Context) : string :=
  let system_content := base_instruction in
  let system_content :=
    match web_search context with
    | Some ((_ :: _) as results) =>
        let search_info :=
          fold_left (fun search_info result => search_info +:+ search_line result)
                    results web_search_header in
        system_content +:+ search_info
    | _ => system_content
    end in
  let system_content :=
    match crypto_data context with
    | Some ((_ :: _) as items) =>
        let crypto_info :=
          fold_left (fun crypto_info item => crypto_info +:+ crypto_line item)
                    items crypto_header in
        system_content +:+ crypto_info
    | _ => system_content
    end in
  system_content.

(** [{"role": msg.role, "content": msg.content}] for a stored row. *)
Definition history_entry (msg : Message) : ChatMsg :=
  {| msg_role := Member (message_role msg);
     msg_content := message_content msg |}.

Definition _prepare_messages (conversation_messages : list Message)
    (new_message : string) (context : Context) : list ChatMsg :=
  let messages := [{| msg_role := "system"; msg_content := system_content context |}] in
  let messages :=
    fold_left (fun messages msg => messages ++ [history_entry msg])
              (Py.last_n 10 conversation_messages) messages in
  let messages :=
    messages ++ [{| msg_role := "user"; msg_content := new_message |}] in
  messages.

Definition count_tokens (self : ChatService) (text : string) : nat :=
  length (encoding self text).

(** [await client.create(...)]: the call is made, then the client
    hands back a stream or raises. *)
Definition create {Y C} (family : Provider)
    (client : CreateRequest -> result (Stream C)) (request : CreateRequest)
  : G Y (Stream C) :=
  log (StreamCreated family request) ;; await (client request).

(** [chunk.choices[0]] *)
Definition first_choice {Y} (chunk : CompletionChunk) : G Y Choice :=
  match choices chunk with
  | c :: _ => ret c
  | [] => raise (Exception "list index out of range")
  end.

(** The loop shared by the OpenAI and Groq generators:
    [if chunk.choices[0].delta.content: yield chunk.choices[0].delta.content] *)
Definition yield_delta_content (chunk : CompletionChunk) : G string unit :=
  choice <- first_choice chunk ;;
  match delta_content choice with
  | Some text => if Py.truthy text then yield text else ret tt
  | None => ret tt
  end.

Definition groq_model_map : gmap string string :=
  <["groq-llama-3.1-70b" := "llama-3.1-70b-versatile"]>
  (<["groq-llama-3.1-8b" := "llama-3.1-8b-instant"]>
  (<["groq-mixtral" := "mixtral-8x7b-32768"]>
  (<["groq-gemma" := "gemma-7b-it"]> ∅))).

Definition _generate_groq_response (self : ChatService)
    (messages : list ChatMsg) (model_id : string) : G string unit :=
  try_except
    (let actual_model :=
       default "llama-3.1-70b-versatile" (groq_model_map !! model_id) in
     stream <- create Groq (groq_client self)
                 {| model := actual_model; messages := messages;
                    system := None; stream := true;
                    temperature := Some "0.7"; max_tokens := 2000;
                    top_p := Some "0.9" |} ;;
     async_for (iterate stream) tt (fun _ chunk => yield_delta_content chunk))
    (fun e => yield ("Error with Groq API: " +:+ str e)).

Definition _generate_openai_response (self : ChatService)
    (messages : list ChatMsg) (model_id : string) : G string unit :=
  try_except
    (stream <- create OpenAI (openai_client self)
                 {| model := model_id; messages := messages;
                    system := None; stream := true;
                    temperature := Some "0.7"; max_tokens := 2000;
                    top_p := None |} ;;
     async_for (iterate stream) tt (fun _ chunk => yield_delta_content chunk))
    (fun e => yield ("Error: " +:+ str e)).

(** The conversion loop of the Anthropic generator: the last message
    whose role is the string system becomes [system_message], the others
    are kept in order. *)
Definition to_anthropic (messages : list ChatMsg) : string * list ChatMsg :=
  fold_left
    (fun '(system_message, anthropic_messages) msg =>
       if role_eq (msg_role msg) "system"
       then (msg_content msg, anthropic_messages)
       else (system_message,
             anthropic_messages ++
             [{| msg_role := msg_role msg; msg_content := msg_content msg |}]))
    messages ("", []).

Definition _generate_anthropic_response (self : ChatService)
    (messages : list ChatMsg) (model_id : string) : G string unit :=
  try_except
    (let '(system_message, anthropic_messages) := to_anthropic messages in
     stream <- create Anthropic (anthropic_client self)
                 {| model := model_id; messages := anthropic_messages;
                    system := Some system_message; stream := true;
                    temperature := None; max_tokens := 2000;
                    top_p := None |} ;;
     async_for (iterate stream) tt
       (fun _ chunk =>
          if String.eqb (event_type chunk) "content_block_delta"
          then yield (delta_text chunk) else ret tt))
    (fun e => yield ("Error: " +:+ str e)).

(** [await self.get_conversation_with_messages(db, conversation_id)] *)
Definition select_conversation {Y} (self : ChatService) (conversation_id : UUID)
  : G Y (Conversation * list Message) :=
  log (Selected conversation_id) ;;
  w <- get_world ;;
  await (get_conversation_with_messages self (store w) conversation_id).

(** [async for chunk in inner: yield chunk] *)
Definition relay (inner : G string unit) : G string unit :=
  async_for inner tt (fun _ chunk => yield chunk).

Definition generate_ai_response (self : ChatService) (conversation_id : UUID)
    (user_message : string) (model_id : string) : G string unit :=
  conversation <- select_conversation self conversation_id ;;
  enhanced_context <- _get_enhanced_context self user_message ;;
  let messages :=
    _prepare_messages (snd conversation) user_message enhanced_context in
  if Py.startswith model_id "gpt" then
    relay (_generate_openai_response self messages model_id)
  else if Py.startswith model_id "claude" then
    relay (_generate_anthropic_response self messages model_id)
  else if Py.startswith model_id "groq" || Py.contains "llama" (Py.lower model_id) then
    relay (_generate_groq_response self messages model_id)
  else ret tt.

(** ** The streaming endpoint ([app/chat/router.py]) *)

Definition sse_content (chunk : string) : string :=
  "data: " +:+ Json.dumps "content" chunk +:+ Py.nl +:+ Py.nl.

Definition sse_error (error_msg : string) : string :=
  "data: " +:+ Json.dumps "error" error_msg +:+ Py.nl +:+ Py.nl.

Definition sse_done : string := "data: [DONE]" +:+ Py.nl +:+ Py.nl.

Definition generate_stream (self : ChatService) (db : AsyncSession)
    (chat_request : ChatRequest) : G string unit :=
  try_except
    (let user_message :=
       {| content := request_message chat_request;
          role := USER;
          model_id := Some (request_model_id chat_request) |} in
     add_message db (request_conversation_id chat_request) user_message ;;
     full_content <-
       async_for
         (generate_ai_response self
            (request_conversation_id chat_request)
            (request_message chat_request)
            (request_model_id chat_request))
         ""
         (fun full_content chunk =>
            let full_content := full_content +:+ chunk in
            yield (sse_content chunk) ;;
            ret full_content) ;;
     let ai_message :=
       {| content := full_content;
          role := ASSISTANT;
          model_id := Some (request_model_id chat_request) |} in
     add_message db (request_conversation_id chat_request) ai_message ;;
     yield sse_done)
    (fun e =>
       let error_msg := "Error: " +:+ str e in
       yield (sse_error error_msg)).


(** ** Rows, worlds and sections named for the statements below *)

(** The row that [add_message] builds in world [w]. *)
Definition new_row (conversation_id : UUID) (message_data : MessageCreate)
    (w : World) : Message :=
  {| message_id := uuid4 w;
     message_content := content message_data;
     message_role := role message_data;
     message_conversation_id := conversation_id;
     message_model_id := model_id message_data;
     message_token_count := None;
     message_created_at := utcnow w |}.

(** The world after [message] was committed. *)
Definition inserted (message : Message) (w : World) : World :=
  {| store := {| conversations := conversations (store w);
                 stored_messages := stored_messages (store w) ++ [message] |};
     utcnow := utcnow w;
     uuid4 := S (uuid4 w);
     trace := trace w ++ [Committed message] |}.

(** The user message and the assistant message of a stream request. *)
Definition user_data (chat_request : ChatRequest) : MessageCreate :=
  {| content := request_message chat_request;
     role := USER;
     model_id := Some (request_model_id chat_request) |}.

Definition assistant_data (chat_request : ChatRequest) (full_content : string)
  : MessageCreate :=
  {| content := full_content;
     role := ASSISTANT;
     model_id := Some (request_model_id chat_request) |}.

(** [full_content] after the chunks were added one by one. *)
Definition accumulated (chunks : list string) : string :=
  fold_left (fun full_content chunk => full_content +:+ chunk) chunks "".

(** The generator run that the endpoint consumes, started in [w]. *)
Definition response_run (self : ChatService) (chat_request : ChatRequest)
    (w : World) : Run string unit :=
  generate_ai_response self
    (request_conversation_id chat_request)
    (request_message chat_request)
    (request_model_id chat_request) w.

(** The two optional sections of the system text. *)
Definition web_section (context : Context) : string :=
  match web_search context with
  | Some ((_ :: _) as results) =>
      fold_left (fun search_info result => search_info +:+ search_line result)
                results web_search_header
  | _ => ""
  end.

Definition crypto_section (context : Context) : string :=
  match crypto_data context with
  | Some ((_ :: _) as items) =>
      fold_left (fun crypto_info item => crypto_info +:+ crypto_line item)
                items crypto_header
  | _ => ""
  end.

(** A session whose engine accepts every commit and every read-back. *)
Definition healthy (db : AsyncSession) : Prop :=
  forall st m, commit_fault db st m = None /\ refresh_fault db st m = None.

(** Calls that leave the process: search, market data, generation. *)
Definition is_external_call (e : Effect) : bool :=
  match e with
  | SearchCalled _ _ | MarketDataCalled | StreamCreated _ _ => true
  | _ => false
  end.

Definition is_provider_call (e : Effect) : bool :=
  match e with
  | StreamCreated _ _ => true
  | _ => false
  end.

(** The text deltas that the OpenAI and Groq loops yield for a list of
    events, up to the first event without a choice. *)
Fixpoint deltas (chunks : list CompletionChunk) : list string :=
  match chunks with
  | [] => []
  | chunk :: rest =>
      match choices chunk with
      | [] => []
      | choice :: _ =>
          match delta_content choice with
          | Some text => if Py.truthy text then text :: deltas rest else deltas rest
          | None => deltas rest
          end
      end
  end.

Definition has_choice (chunk : CompletionChunk) : bool :=
  match choices chunk with [] => false | _ => true end.

(** The keyword arguments of the OpenAI and the Groq call. *)
Definition openai_request (model_id : string) (messages : list ChatMsg)
  : CreateRequest :=
  {| model := model_id; messages := messages; system := None; stream := true;
     temperature := Some "0.7"; max_tokens := 2000; top_p := None |}.

Definition groq_request (actual_model : string) (messages : list ChatMsg)
  : CreateRequest :=
  {| model := actual_model; messages := messages; system := None; stream := true;
     temperature := Some "0.7"; max_tokens := 2000; top_p := Some "0.9" |}.


(** ** Worlds that differ by logged effects only *)

(** [w'] has the store, clock and identifier supply of [w], and the
    trace of [w] followed by the effects [added]. *)
Definition extends_by (added : list Effect) (w w' : World) : Prop :=
  store w' = store w /\ utcnow w' = utcnow w /\ uuid4 w' = uuid4 w /\
  trace w' = trace w ++ added.

(** A computation that only adds effects satisfying [allowed] to the
    trace. *)
Definition only_logs {Y A} (allowed : Effect -> bool) (m : G Y A) : Prop :=
  forall w, exists added,
    extends_by added w (final (m w)) /\ forallb allowed added = true.

Definition any_effect (e : Effect) : bool := true.

(** What enrichment may do to the outside. *)
Definition is_enrichment_effect (e : Effect) : bool :=
  match e with
  | SearchCalled _ _ | MarketDataCalled | Printed _ => true
  | _ => false
  end.

(** Reading the store and enrichment: everything before dispatch. *)
Definition is_predispatch_effect (e : Effect) : bool :=
  match e with
  | Selected _ => true
  | _ => is_enrichment_effect e
  end.

(** The world after the effect [e] was logged. *)
Definition logged (e : Effect) (w : World) : World :=
  {| store := store w; utcnow := utcnow w; uuid4 := uuid4 w;
     trace := trace w ++ [e] |}.

(** How the OpenAI and Groq loops end: with the stream's own failure, or
    with the index error of the first event that has no choice. *)
Definition loop_failure (chunks : list CompletionChunk) (failure : option Exn)
  : option Exn :=
  if forallb has_choice chunks then failure
  else Some (Exception "list index out of range").

(** The branch of [generate_ai_response] that picks the generator, once
    the messages are prepared. *)
Definition dispatch (self : ChatService) (messages : list ChatMsg)
    (model_id : string) : G string unit :=
  if Py.startswith model_id "gpt" then
    relay (_generate_openai_response self messages model_id)
  else if Py.startswith model_id "claude" then
    relay (_generate_anthropic_response self messages model_id)
  else if Py.startswith model_id "groq" || Py.contains "llama" (Py.lower model_id) then
    relay (_generate_groq_response self messages model_id)
  else ret tt.

(** [generate_stream] resumed after its first [await]: the rest of the
    generator once the user message is saved. *)
Definition generation_phase (self : ChatService) (db : AsyncSession)
    (chat_request : ChatRequest) : G string unit :=
  try_except
    (full_content <-
       async_for
         (generate_ai_response self
            (request_conversation_id chat_request)
            (request_message chat_request)
            (request_model_id chat_request))
         ""
         (fun full_content chunk =>
            let full_content := full_content +:+ chunk in
            yield (sse_content chunk) ;;
            ret full_content) ;;
     let ai_message :=
       {| content := full_content;
          role := ASSISTANT;
          model_id := Some (request_model_id chat_request) |} in
     add_message db (request_conversation_id chat_request) ai_message ;;
     yield sse_done)
    (fun e =>
       let error_msg := "Error: " +:+ str e in
       yield (sse_error error_msg)).

(** ** The three provider families seen alike *)

(** The family that the branches of [generate_ai_response] pick for a
    model id, if any. *)
Definition routed (model_id : string) : option Provider :=
  if Py.startswith model_id "gpt" then Some OpenAI
  else if Py.startswith model_id "claude" then Some Anthropic
  else if Py.startswith model_id "groq" || Py.contains "llama" (Py.lower model_id)
  then Some Groq
  else None.

(** The text that a generator puts before the message of an exception. *)
Definition error_prefix (family : Provider) : string :=
  match family with
  | Groq => "Error with Groq API: "
  | OpenAI | Anthropic => "Error: "
  end.

(** The text deltas that the Anthropic loop yields for a list of events. *)
Fixpoint anthropic_deltas (chunks : list AnthropicEvent) : list string :=
  match chunks with
  | [] => []
  | chunk :: rest =>
      if String.eqb (event_type chunk) "content_block_delta"
      then delta_text chunk :: anthropic_deltas rest
      else anthropic_deltas rest
  end.

(** The keyword arguments of the Anthropic call. *)
Definition anthropic_request (model_id : string) (messages : list ChatMsg)
  : CreateRequest :=
  {| model := model_id; messages := snd (to_anthropic messages);
     system := Some (fst (to_anthropic messages)); stream := true;
     temperature := None; max_tokens := 2000; top_p := None |}.

(** What the generator of a family gets out of its back end for a
    request: the text deltas it yields, and the exception that ends the
    generation, if any (raised by the call, by the stream, or by the
    loop on an event without a choice). *)
Definition delivered (self : ChatService) (family : Provider)
    (request : CreateRequest) : list string * option Exn :=
  match family with
  | OpenAI =>
      match openai_client self request with
      | Raise e => ([], Some e)
      | Ok s => (deltas (events s), loop_failure (events s) (failure s))
      end
  | Groq =>
      match groq_client self request with
      | Raise e => ([], Some e)
      | Ok s => (deltas (events s), loop_failure (events s) (failure s))
      end
  | Anthropic =>
      match anthropic_client self request with
      | Raise e => ([], Some e)
      | Ok s => (anthropic_deltas (events s), failure s)
      end
  end.

(** ** Sample collaborators, used to run the service on concrete inputs *)

Module Sample.

(** A tokenizer that never merges: one token per character. *)
Definition char_encoding (text : string) : list nat :=
  map nat_of_ascii (list_ascii_of_string text).

(** A reading of the store for [get_conversation_with_messages]. *)
Definition select_rows (s : Store) (conversation_id : UUID)
  : result (Conversation * list Message) :=
  match find (fun c => Nat.eqb (conversation_id_ c) conversation_id)
             (conversations s) with
  | Some c =>
      Ok (c, filter (fun m => message_conversation_id m = conversation_id)
                    (stored_messages s))
  | None => Raise (Exception "conversation not found")
  end.

Definition text_chunk (text : string) : CompletionChunk :=
  {| choices := [ {| delta_content := Some text |} ] |}.

Definition one_result : SearchResult :=
  {| title := Some "Bitcoin today"; description := Some "Markets";
     url := None; published := None; source := None |}.

Definition btc : string * MarketData :=
  ("BTCUSDT",
   {| price := Some "64000.0"; change := Some "1.5"; volume := None;
      high := None; low := None; open := None |}).

(** A service whose generation clients all deliver [s]. *)
Definition service (s : Stream CompletionChunk) : ChatService :=
  {| openai_client := fun _ => Ok s;
     anthropic_client := fun _ => Raise (Exception "no anthropic key");
     groq_client := fun _ => Ok s;
     brave_search := fun _ _ => Ok [one_result];
     binance_service := Ok [btc];
     encoding := char_encoding;
     get_conversation_with_messages := select_rows |}.

Definition hello_there : Stream CompletionChunk :=
  {| events := [text_chunk "Hello"; text_chunk " there"]; failure := None |}.

Definition hello_there_then_error : Stream CompletionChunk :=
  {| events := [text_chunk "Hello"; text_chunk " there"];
     failure := Some (Exception "connection reset") |}.

Definition healthy_db : AsyncSession :=
  {| commit_fault := fun _ _ => None; refresh_fault := fun _ _ => None |}.

Definition conversation1 : Conversation :=
  {| conversation_id_ := 1; conversation_title := "Prices";
     conversation_user_id := 7; conversation_model_id := "gpt-4";
     conversation_created_at := 1; conversation_updated_at := 1 |}.

Definition world0 : World :=
  {| store := {| conversations := [conversation1]; stored_messages := [] |};
     utcnow := 5; uuid4 := 100; trace := [] |}.

Definition request (text model : string) : ChatRequest :=
  {| request_message := text; request_conversation_id := 1;
     request_model_id := model |}.

Definition past_message (n : nat) (r : MessageRole) (text : string) : Message :=
  {| message_id := n; message_content := text; message_role := r;
     message_conversation_id := 1; message_model_id := Some "gpt-4";
     message_token_count := None; message_created_at := 2 |}.

Definition long_history : list Message :=
  map (fun n => past_message n (if Nat.even n then USER else ASSISTANT)
                  "Tell me more about the history of the Roman empire.")
      (seq 0 12).

(** A stream that fails before its first event. *)
Definition error_at_once : Stream CompletionChunk :=
  {| events := []; failure := Some (Exception "connection reset") |}.



(** A completion stream whose second event has no choice. *)
Definition stream_with_empty_choices : Stream CompletionChunk :=
  {| events := [ {| choices := [ {| delta_content := Some "Hello" |} ] |};
                 {| choices := [] |};
                 {| choices := [ {| delta_content := Some " there" |} ] |} ];
     failure := None |}.

End Sample.


(** ** What one request does to the outside, spelled out *)

(** The context that [_get_enhanced_context] returns for a message. *)
Definition enriched_context (self : ChatService) (user_message : string)
  : Context :=
  {| web_search :=
       if mentions freshness_keywords user_message then
         match brave_search self user_message 3 with
         | Ok search_results => Some search_results
         | Raise _ => None
         end
       else None;
     crypto_data :=
       if mentions market_keywords user_message then
         match binance_service self with
         | Ok crypto => Some crypto
         | Raise _ => None
         end
       else None |}.

(** The effects of [_get_enhanced_context], in order. *)
Definition enrichment_effects (self : ChatService) (user_message : string)
  : list Effect :=
  (if mentions freshness_keywords user_message then
     SearchCalled user_message 3 ::
     match brave_search self user_message 3 with
     | Ok _ => []
     | Raise e => [Printed ("Web search failed: " +:+ str e)]
     end
   else []) ++
  (if mentions market_keywords user_message then
     MarketDataCalled ::
     match binance_service self with
     | Ok _ => []
     | Raise e => [Printed ("Crypto data fetch failed: " +:+ str e)]
     end
   else []).

(** The keyword arguments of the call that the generator of a family
    makes for a model id and a list of prepared messages. *)
Definition family_request (family : Provider) (model_id : string)
    (messages : list ChatMsg) : CreateRequest :=
  match family with
  | OpenAI => openai_request model_id messages
  | Anthropic => anthropic_request model_id messages
  | Groq =>
      groq_request
        (default "llama-3.1-70b-versatile" (groq_model_map !! model_id))
        messages
  end.

(** A message of the system role, as [msg["role"] == "system"] tests it. *)
Definition is_system (msg : ChatMsg) : bool := role_eq (msg_role msg) "system".


(** Text made of the characters U+0020 to U+007E only. *)
Fixpoint printable_ascii (s : string) : bool :=
  match s with
  | EmptyString => true
  | String c s' =>
      let n := nat_of_ascii c in
      (32 <=? n)%nat && (n <=? 126)%nat && printable_ascii s'
  end.


(** * The browser side ([lib/api-client.ts], [hooks/useChat.ts]) *)

Module Js.

(** The values that [JSON.parse] builds, and [undefined].  A number is
    kept as the text that [String] gives for it. *)
#[warnings="-register-all"]
Inductive Value :=
| Undefined
| Null
| Bool (b : bool)
| Number (text : string)
| Str (s : string)
| Array (items : list Value)
| Object (entries : list (string * Value)).

(** [s.split(sep)] for a separator of one character. *)
Fixpoint split (sep : ascii) (s : string) : list string :=
  match s with
  | EmptyString => [EmptyString]
  | String c s' =>
      if Ascii.eqb c sep then EmptyString :: split sep s'
      else
        match split sep s' with
        | line :: lines => String c line :: lines
        | [] => [String c EmptyString]
        end
  end.

(** [s.slice(n)] *)
Fixpoint slice (n : nat) (s : string) : string :=
  match n, s with
  | O, _ => s
  | S _, EmptyString => EmptyString
  | S n', String _ s' => slice n' s'
  end.

(** [s.startsWith(p)] *)
Definition startsWith (s p : string) : bool := String.prefix p s.

(** [entries[key]] of a plain object. *)
Fixpoint property (key : string) (entries : list (string * Value)) : Value :=
  match entries with
  | [] => Undefined
  | (k, v) :: entries' => if String.eqb k key then v else property key entries'
  end.

(** [parsed.content]: a [TypeError] on [null] and [undefined], the
    property of an object, [undefined] on every other parsed value. *)
Definition content_of (parsed : Value) : result Value :=
  match parsed with
  | Undefined =>
      Raise (Exception
               "Cannot read properties of undefined (reading 'content')")
  | Null =>
      Raise (Exception "Cannot read properties of null (reading 'content')")
  | Object entries => Ok (property "content" entries)
  | _ => Ok Undefined
  end.

(** [String(v)], which [+=] applies to its right operand: an array
    joins its items with commas, [null] and [undefined] items as empty
    text; a plain object reads [[object Object]]. *)
Fixpoint to_string (v : Value) : string :=
  match v with
  | Undefined => "undefined"
  | Null => "null"
  | Bool true => "true"
  | Bool false => "false"
  | Number text => text
  | Str s => s
  | Array items =>
      String.concat ","
        (map (fun item =>
                match item with
                | Undefined | Null => ""
                | _ => to_string item
                end)
             items)
  | Object _ => "[object Object]"
  end.

End Js.

(** The response of [fetch]: [response.ok], [response.status], and the
    reads of [response.body] if there is one; a read holds text, the
    frames on the wire being ASCII. *)
Record Response := {
  response_ok : bool;
  response_status : nat;
  response_body : option (Stream string)
}.

(** What [streamChatResponse] does, in order. *)
Inductive ClientEvent :=
| Yielded (chunk : Js.Value)
| ConsoleError (e : Exn).

(** A run of [streamChatResponse]: its events, the error it threw if
    any, and whether the reader's lock was released. *)
Record ClientRun := {
  client_events : list ClientEvent;
  thrown : option Exn;
  released : bool
}.

Section StreamChatResponse.

Variable JSON_parse : string -> result Js.Value.

(** The body of [for (const line of lines)]: what it does, and whether
    it returned from the generator. *)
Definition on_line (line : string) : list ClientEvent * bool :=
  if Js.startsWith line "data: " then
    let data := Js.slice 6 line in
    if String.eqb data "[DONE]" then ([], true)
    else
      match JSON_parse data with
      | Ok parsed =>
          match Js.content_of parsed with
          | Ok chunk => ([Yielded chunk], false)
          | Raise e => ([ConsoleError e], false)
          end
      | Raise e => ([ConsoleError e], false)
      end
  else ([], false).

Fixpoint for_lines (lines : list string) : list ClientEvent * bool :=
  match lines with
  | [] => ([], false)
  | line :: lines' =>
      let '(events, returned) := on_line line in
      if returned then (events, true)
      else
        let '(events', returned') := for_lines lines' in
        (events ++ events', returned')
  end.

(** The [while (true)] loop over the reads that arrive. *)
Fixpoint while_reads (reads : list string) : list ClientEvent * bool :=
  match reads with
  | [] => ([], false)
  | chunk :: reads' =>
      let lines := Js.split "010"%char chunk in
      let '(events, returned) := for_lines lines in
      if returned then (events, true)
      else
        let '(events', returned') := while_reads reads' in
        (events ++ events', returned')
  end.

Definition streamChatResponse (response : result Response) : ClientRun :=
  match response with
  | Raise e => {| client_events := []; thrown := Some e; released := false |}
  | Ok response =>
      if negb (response_ok response) then
        {| client_events := [];
           thrown := Some (Exception ("Stream Error: " +:+
                                      pretty (response_status response)));
           released := false |}
      else
        match response_body response with
        | None => {| client_events := []; thrown := None; released := false |}
        | Some reader =>
            let '(events, returned) := while_reads (events reader) in
            {| client_events := events;
               thrown := if returned then None else failure reader;
               released := true |}
        end
  end.

End StreamChatResponse.

(** The chunks that the consumer of the generator receives. *)
Definition received (run : ClientRun) : list Js.Value :=
  flat_map (fun event =>
              match event with
              | Yielded chunk => [chunk]
              | ConsoleError _ => []
              end)
           (client_events run).

(** [fullContent] in [useChat] after the chunks were added one by one. *)
Definition fullContent (chunks : list Js.Value) : string :=
  fold_left (fun fullContent chunk => fullContent +:+ Js.to_string chunk)
            chunks "".

(** The frames of a stream as one object per frame would parse. *)
Definition content_object (chunk : string) : Js.Value :=
  Js.Object [("content", Js.Str chunk)].

Definition error_object (error_msg : string) : Js.Value :=
  Js.Object [("error", Js.Str error_msg)].


(** ** A sample engine and sample reads *)

Module SampleBrowser.

Definition hex_value (c : ascii) : option nat :=
  let n := nat_of_ascii c in
  if ((48 <=? n) && (n <=? 57))%nat then Some (n - 48)
  else if ((97 <=? n) && (n <=? 102))%nat then Some (n - 87)
  else if ((65 <=? n) && (n <=? 70))%nat then Some (n - 55)
  else None.

(** The character that a backslash and [e] stand for. *)
Definition simple_escape (e : ascii) : option ascii :=
  let n := nat_of_ascii e in
  if (n =? 34)%nat then Some "034"%char
  else if (n =? 92)%nat then Some "092"%char
  else if (n =? 47)%nat then Some "/"%char
  else if (n =? 98)%nat then Some "008"%char
  else if (n =? 102)%nat then Some "012"%char
  else if (n =? 110)%nat then Some "010"%char
  else if (n =? 114)%nat then Some "013"%char
  else if (n =? 116)%nat then Some "009"%char
  else None.

(** A JSON string literal read from after its opening quote: its text,
    and what follows its closing quote.  Escapes above U+00FF are not
    read. *)
Fixpoint string_literal (s : string) : option (string * string) :=
  match s with
  | EmptyString => None
  | String c s' =>
      if (nat_of_ascii c =? 34)%nat then Some (EmptyString, s')
      else if (nat_of_ascii c =? 92)%nat then
        match s' with
        | EmptyString => None
        | String e s'' =>
            if (nat_of_ascii e =? 117)%nat then
              match s'' with
              | String h1 (String h2 (String h3 (String h4 rest))) =>
                  match hex_value h1, hex_value h2, hex_value h3, hex_value h4 with
                  | Some 0, Some 0, Some a, Some b =>
                      match string_literal rest with
                      | Some (text, after) =>
                          Some (String (ascii_of_nat (16 * a + b)) text, after)
                      | None => None
                      end
                  | _, _, _, _ => None
                  end
              | _ => None
              end
            else
              match simple_escape e with
              | Some c' =>
                  match string_literal s'' with
                  | Some (text, after) => Some (String c' text, after)
                  | None => None
                  end
              | None => None
              end
        end
      else if (nat_of_ascii c <? 32)%nat then None
      else
        match string_literal s' with
        | Some (text, after) => Some (String c text, after)
        | None => None
        end
  end.

Definition syntax_error : Exn := Exception "Unexpected token in JSON".

(** [JSON.parse] on the texts that the endpoint sends, an object of one
    string entry written as [json.dumps] writes it; a syntax error on
    every other text. *)
Definition JSON_parse (text : string) : result Js.Value :=
  match text with
  | String "{"%char (String "034"%char s) =>
      match string_literal s with
      | Some (key, String ":"%char (String " "%char (String "034"%char s'))) =>
          match string_literal s' with
          | Some (value, String "}"%char EmptyString) =>
              Ok (Js.Object [(key, Js.Str value)])
          | _ => Raise syntax_error
          end
      | _ => Raise syntax_error
      end
  | _ => Raise syntax_error
  end.

(** A response whose body arrives in the given reads. *)
Definition response (reads : list string) : result Response :=
  Ok {| response_ok := true; response_status := 200;
        response_body := Some {| events := reads; failure := None |} |}.

End SampleBrowser.


(** * The external services ([app/external_apis]) *)

(** ** Values that [response.json()] returns *)

#[warnings="-register-all"]
Inductive PyValue :=
| PyNone
| PyBool (b : bool)
| PyInt (n : Z)
| PyFloat (repr : string)
| PyStr (s : string)
| PyList (items : list PyValue)
| PyDict (entries : list (string * PyValue)).

Module PyObject.

(** [type(v).__name__] *)
Definition type_name (v : PyValue) : string :=
  match v with
  | PyNone => "NoneType"
  | PyBool _ => "bool"
  | PyInt _ => "int"
  | PyFloat _ => "float"
  | PyStr _ => "str"
  | PyList _ => "list"
  | PyDict _ => "dict"
  end.

(** [str(KeyError(key))] for a key without quotes. *)
Definition KeyError (key : string) : Exn := Exception ("'" +:+ key +:+ "'").

Definition TypeError (msg : string) : Exn := Exception msg.

Definition AttributeError (v : PyValue) (name : string) : Exn :=
  Exception ("'" +:+ type_name v +:+ "' object has no attribute '" +:+
             name +:+ "'").

(** The value bound to [key] in a dictionary's entries. *)
Fixpoint lookup (key : string) (entries : list (string * PyValue))
  : option PyValue :=
  match entries with
  | [] => None
  | (k, v) :: entries' =>
      if String.eqb k key then Some v else lookup key entries'
  end.

(** [d[key] = value]: a bound key keeps its place, a new key goes last. *)
Fixpoint setitem (key : string) (value : PyValue)
    (entries : list (string * PyValue)) : list (string * PyValue) :=
  match entries with
  | [] => [(key, value)]
  | (k, v) :: entries' =>
      if String.eqb k key then (k, value) :: entries'
      else (k, v) :: setitem key value entries'
  end.

(** [key in container] for a string [key]: a key of a dictionary, an
    item of a list, a part of a string; a [TypeError] on the rest. *)
Definition contains (key : string) (container : PyValue) : result bool :=
  match container with
  | PyDict entries =>
      Ok (match lookup key entries with Some _ => true | None => false end)
  | PyList items =>
      Ok (existsb (fun item =>
                     match item with
                     | PyStr s => String.eqb s key
                     | _ => false
                     end)
                  items)
  | PyStr s => Ok (Py.contains key s)
  | _ =>
      Raise (TypeError ("argument of type '" +:+ type_name container +:+
                        "' is not iterable"))
  end.

(** [container[key]] for a string [key]. *)
Definition getitem (container : PyValue) (key : string) : result PyValue :=
  match container with
  | PyDict entries =>
      match lookup key entries with
      | Some v => Ok v
      | None => Raise (KeyError key)
      end
  | PyList _ =>
      Raise (TypeError "list indices must be integers or slices, not str")
  | PyStr _ => Raise (TypeError "string indices must be integers, not 'str'")
  | _ =>
      Raise (TypeError ("'" +:+ type_name container +:+
                        "' object is not subscriptable"))
  end.

(** [v.get(key, default)] *)
Definition get (v : PyValue) (key : string) (default : PyValue)
  : result PyValue :=
  match v with
  | PyDict entries =>
      Ok (match lookup key entries with Some x => x | None => default end)
  | _ => Raise (AttributeError v "get")
  end.

(** The items that [for x in v] visits: the items of a list, the keys
    of a dictionary, the characters of a string. *)
Definition iter (v : PyValue) : result (list PyValue) :=
  match v with
  | PyList items => Ok items
  | PyDict entries => Ok (map (fun entry => PyStr (fst entry)) entries)
  | PyStr s =>
      Ok (map (fun c => PyStr (String c EmptyString)) (list_ascii_of_string s))
  | _ =>
      Raise (TypeError ("'" +:+ type_name v +:+ "' object is not iterable"))
  end.

End PyObject.

(** Code that may raise and touches nothing else. *)
Definition and_then {A B} (r : result A) (k : A -> result B) : result B :=
  match r with
  | Ok a => k a
  | Raise e => Raise e
  end.

Declare Scope result_scope.
Delimit Scope result_scope with result.
Notation "x <- c ;; k" := (and_then c (fun x => k))
  (at level 100, c at next level, right associativity) : result_scope.

(** [for item in items: results.append(body(item))] *)
Fixpoint append_each {A B} (items : list A) (body : A -> result B)
  : result (list B) :=
  match items with
  | [] => Ok []
  | item :: items' =>
      (entry <- body item ;;
       results <- append_each items' body ;;
       Ok (entry :: results))%result
  end.

(** ** [aiohttp] *)

(** A response: [response.status], and what [await response.json()]
    returns or raises. *)
Record ClientResponse := {
  status : nat;
  json : result PyValue
}.

(** The network as a service sees it: whether [aiohttp.ClientSession()]
    can be entered, and what [session.get(url, headers, params)] returns
    or raises. *)
Record Aiohttp := {
  ClientSession : result unit;
  session_get :
    string -> list (string * string) -> list (string * PyValue) ->
    result ClientResponse
}.

(** ** [BraveSearchService] ([app/external_apis/brave_search.py]) *)

Module BraveSearchService.

Record Self := {
  api_key : string;
  aiohttp : Aiohttp
}.

Definition base_url : string := "https://api.search.brave.com/res/v1".

Definition headers (self : Self) : list (string * string) :=
  [("Accept", "application/json");
   ("Accept-Encoding", "gzip");
   ("X-Subscription-Token", api_key self)].

(** The dictionary appended for one web result. *)
Definition web_entry (entry : PyValue) : result PyValue :=
  (title <- PyObject.get entry "title" (PyStr "") ;;
   description <- PyObject.get entry "description" (PyStr "") ;;
   url <- PyObject.get entry "url" (PyStr "") ;;
   age <- PyObject.get entry "age" (PyStr "") ;;
   profile <- PyObject.get entry "profile" (PyDict []) ;;
   name <- PyObject.get profile "name" (PyStr "") ;;
   Ok (PyDict [("title", title); ("description", description); ("url", url);
               ("published", age); ("source", name)]))%result.

Definition _parse_search_results (data : PyValue) : result (list PyValue) :=
  (has_web <- PyObject.contains "web" data ;;
   has_results <-
     (if has_web : bool then
        web <- PyObject.getitem data "web" ;;
        PyObject.contains "results" web
      else Ok false) ;;
   if has_results : bool then
     web <- PyObject.getitem data "web" ;;
     found <- PyObject.getitem web "results" ;;
     items <- PyObject.iter found ;;
     append_each items web_entry
   else Ok [])%result.

(** The dictionary appended for one news result. *)
Definition news_entry (entry : PyValue) : result PyValue :=
  (title <- PyObject.get entry "title" (PyStr "") ;;
   description <- PyObject.get entry "description" (PyStr "") ;;
   url <- PyObject.get entry "url" (PyStr "") ;;
   age <- PyObject.get entry "age" (PyStr "") ;;
   source <- PyObject.get entry "source" (PyStr "") ;;
   Ok (PyDict [("title", title); ("description", description); ("url", url);
               ("published", age); ("source", source)]))%result.

Definition _parse_news_results (data : PyValue) : result (list PyValue) :=
  (has_results <- PyObject.contains "results" data ;;
   if has_results : bool then
     found <- PyObject.getitem data "results" ;;
     items <- PyObject.iter found ;;
     append_each items news_entry
   else Ok [])%result.

(** [search(query, count, country, search_lang, ui_lang)]; the last
    three default to US, en and en-US, and [count] to 10. *)
Definition search {Y} (self : Self) (query : string) (count : nat)
    (country search_lang ui_lang : string) : G Y (list PyValue) :=
  let params :=
    [("q", PyStr query);
     ("count", PyInt (Z.of_nat count));
     ("country", PyStr country);
     ("search_lang", PyStr search_lang);
     ("ui_lang", PyStr ui_lang);
     ("safesearch", PyStr "moderate");
     ("freshness", PyStr "pw")] in
  await (ClientSession (aiohttp self)) ;;
  try_except
    (response <- await (session_get (aiohttp self)
                          (base_url +:+ "/web/search") (headers self) params) ;;
     if (status response =? 200)%nat then
       data <- await (json response) ;;
       await (_parse_search_results data)
     else
       log (Printed ("Brave Search API error: " +:+ pretty (status response))) ;;
       ret [])
    (fun e =>
       log (Printed ("Brave Search request failed: " +:+ str e)) ;;
       ret []).

(** [search_news(query, count)]; [count] defaults to 5. *)
Definition search_news {Y} (self : Self) (query : string) (count : nat)
  : G Y (list PyValue) :=
  let params :=
    [("q", PyStr query);
     ("count", PyInt (Z.of_nat count));
     ("freshness", PyStr "pd");
     ("text_decorations", PyBool false)] in
  await (ClientSession (aiohttp self)) ;;
  try_except
    (response <- await (session_get (aiohttp self)
                          (base_url +:+ "/news/search") (headers self) params) ;;
     if (status response =? 200)%nat then
       data <- await (json response) ;;
       await (_parse_news_results data)
     else ret [])
    (fun e =>
       log (Printed ("Brave News search failed: " +:+ str e)) ;;
       ret []).

End BraveSearchService.


(** ** [BinanceService] ([app/external_apis/binance.py]) *)

Module BinanceService.

Record Self := {
  api_key : string;
  secret_key : string;
  aiohttp : Aiohttp
}.

Definition base_url : string := "https://api.binance.com".

Definition default_symbols : list string :=
  ["BTCUSDT"; "ETHUSDT"; "BNBUSDT"; "ADAUSDT"; "SOLUSDT"].

(** [symbol in symbols] for a list of strings: only a string can be
    equal to one of them. *)
Definition listed (symbol : PyValue) (symbols : list string) : bool :=
  match symbol with
  | PyStr s => existsb (String.eqb s) symbols
  | _ => false
  end.

Section Float.

(** [float(x)]: the float, or the [TypeError] or [ValueError] raised. *)
Variable float : PyValue -> result PyValue.

(** The dictionary stored for one ticker. *)
Definition ticker (item : PyValue) : result PyValue :=
  (lastPrice <- PyObject.getitem item "lastPrice" ;;
   price <- float lastPrice ;;
   priceChangePercent <- PyObject.getitem item "priceChangePercent" ;;
   change <- float priceChangePercent ;;
   volume <- PyObject.getitem item "volume" ;;
   volume <- float volume ;;
   highPrice <- PyObject.getitem item "highPrice" ;;
   high <- float highPrice ;;
   lowPrice <- PyObject.getitem item "lowPrice" ;;
   low <- float lowPrice ;;
   openPrice <- PyObject.getitem item "openPrice" ;;
   open <- float openPrice ;;
   Ok (PyDict [("price", price); ("change", change); ("volume", volume);
               ("high", high); ("low", low); ("open", open)]))%result.

(** The loop of [_parse_market_data]; [result_dict] is the dictionary
    that the source names [result]. *)
Fixpoint parse_items (items : list PyValue) (symbols : list string)
    (result_dict : list (string * PyValue)) : result (list (string * PyValue)) :=
  match items with
  | [] => Ok result_dict
  | item :: items' =>
      (symbol <- PyObject.getitem item "symbol" ;;
       if listed symbol symbols then
         entry <- ticker item ;;
         match symbol with
         | PyStr s => parse_items items' symbols (PyObject.setitem s entry result_dict)
         | _ => parse_items items' symbols result_dict
         end
       else parse_items items' symbols result_dict)%result
  end.

Definition _parse_market_data (data : PyValue) (symbols : list string)
  : result (list (string * PyValue)) :=
  (items <- PyObject.iter data ;;
   parse_items items symbols [])%result.

(** [get_market_data(symbols)]; [symbols] defaults to [None]. *)
Definition get_market_data {Y} (self : Self) (symbols : option (list string))
  : G Y (list (string * PyValue)) :=
  let symbols :=
    match symbols with
    | None => default_symbols
    | Some symbols => symbols
    end in
  await (ClientSession (aiohttp self)) ;;
  try_except
    (response <- await (session_get (aiohttp self)
                          (base_url +:+ "/api/v3/ticker/24hr") [] []) ;;
     if (status response =? 200)%nat then
       data <- await (json response) ;;
       await (_parse_market_data data symbols)
     else ret [])
    (fun e =>
       log (Printed ("Binance market data request failed: " +:+ str e)) ;;
       ret []).

End Float.

End BinanceService.


(** ** [GroqConfig] ([app/external_apis/groq_config.py]) *)

Module GroqConfig.

Record ModelInfo := {
  name : string;
  description : string;
  max_tokens : N;
  context_window : N
}.

Definition AVAILABLE_MODELS : list (string * ModelInfo) :=
  [("llama-3.1-70b-versatile",
    {| name := "Llama 3.1 70B";
       description := "Most capable model for complex reasoning";
       max_tokens := 8192%N; context_window := 128000%N |});
   ("llama-3.1-8b-instant",
    {| name := "Llama 3.1 8B Instant";
       description := "Ultra-fast model for quick responses";
       max_tokens := 8192%N; context_window := 128000%N |});
   ("mixtral-8x7b-32768",
    {| name := "Mixtral 8x7B";
       description := "High-quality multilingual model";
       max_tokens := 32768%N; context_window := 32768%N |});
   ("gemma-7b-it",
    {| name := "Gemma 7B";
       description := "Google's instruction-tuned model";
       max_tokens := 8192%N; context_window := 8192%N |})].

(** [AVAILABLE_MODELS.get(model_id, {})]; [None] is the empty
    dictionary. *)
Definition get_model_info (model_id : string) : option ModelInfo :=
  snd <$> find (fun entry => String.eqb (fst entry) model_id) AVAILABLE_MODELS.

Definition get_available_models : list string := map fst AVAILABLE_MODELS.

End GroqConfig.

(** ** The other endpoints ([app/chat/router.py]) *)

Module Router.

Record Settings := {
  BRAVE_SEARCH_API_KEY : string;
  BINANCE_API_KEY : string;
  BINANCE_SECRET_KEY : string
}.

(** How an endpoint ends: it returns a body, or raises
    [HTTPException(status_code, detail)]. *)
Inductive Reply :=
| Returned (body : PyValue)
| HTTPException (status_code : nat) (detail : string).

(** The names that the module binds: those of its import statements,
    its two assignments and its endpoints. *)
Definition module_names : list string :=
  ["APIRouter"; "Depends"; "HTTPException"; "BackgroundTasks";
   "StreamingResponse"; "AsyncSession"; "List"; "json";
   "get_db"; "get_current_user"; "User";
   "ConversationCreate"; "ConversationResponse";
   "MessageCreate"; "MessageResponse"; "ChatRequest";
   "ChatService"; "router"; "chat_service";
   "get_conversations"; "create_conversation"; "send_message";
   "stream_chat_response"; "get_conversation_messages"; "search_web";
   "get_crypto_market"; "get_crypto_gainers_losers"; "search_news";
   "get_available_models"].

(** Reading a global name of the module that is no builtin: a
    [NameError] when the module does not bind it. *)
Definition global {Y} (name : string) : G Y unit :=
  if existsb (String.eqb name) module_names then ret tt
  else raise (Exception ("name '" +:+ name +:+ "' is not defined")).

(** [search_web(query, count)]; [count] defaults to 5. *)
Definition search_web {Y} (settings : Settings) (aiohttp : Aiohttp)
    (query : string) (count : nat) : G Y Reply :=
  try_except
    (global "BraveSearchService" ;;
     global "settings" ;;
     let brave_search :=
       {| BraveSearchService.api_key := BRAVE_SEARCH_API_KEY settings;
          BraveSearchService.aiohttp := aiohttp |} in
     results <- BraveSearchService.search brave_search query count
                  "US" "en" "en-US" ;;
     ret (Returned (PyDict [("results", PyList results);
                            ("query", PyStr query)])))
    (fun e => ret (HTTPException 500 ("Search failed: " +:+ str e))).

(** [search_news(query, count)]; [count] defaults to 5. *)
Definition search_news {Y} (settings : Settings) (aiohttp : Aiohttp)
    (query : string) (count : nat) : G Y Reply :=
  try_except
    (global "BraveSearchService" ;;
     global "settings" ;;
     let brave_search :=
       {| BraveSearchService.api_key := BRAVE_SEARCH_API_KEY settings;
          BraveSearchService.aiohttp := aiohttp |} in
     results <- BraveSearchService.search_news brave_search query count ;;
     ret (Returned (PyDict [("articles", PyList results);
                            ("query", PyStr query)])))
    (fun e => ret (HTTPException 500 ("News search failed: " +:+ str e))).

(** [get_crypto_market(symbols)]; [symbols] defaults to [None]. *)
Definition get_crypto_market {Y} (float : PyValue -> result PyValue)
    (settings : Settings) (aiohttp : Aiohttp) (symbols : option (list string))
  : G Y Reply :=
  try_except
    (global "BinanceService" ;;
     global "settings" ;;
     let binance_service :=
       {| BinanceService.api_key := BINANCE_API_KEY settings;
          BinanceService.secret_key := BINANCE_SECRET_KEY settings;
          BinanceService.aiohttp := aiohttp |} in
     market_data <- BinanceService.get_market_data float binance_service
                      symbols ;;
     ret (Returned (PyDict [("market_data", PyDict market_data)])))
    (fun e =>
       ret (HTTPException 500 ("Failed to get market data: " +:+ str e))).

(** One entry of the list that [get_available_models] returns. *)
Record ModelCard := {
  id : string;
  name : string;
  provider : string;
  description : string;
  capabilities : list string;
  maxTokens : N;
  speed : string;
  cost : string
}.

Definition get_available_models : list ModelCard :=
  [ {| id := "gpt-4-turbo"; name := "GPT-4 Turbo"; provider := "openai";
       description := "Most capable GPT-4 model";
       capabilities := ["reasoning"; "code"; "analysis"; "creative"];
       maxTokens := 128000%N; speed := "medium"; cost := "high" |};
    {| id := "llama-3.1-70b-versatile"; name := "Llama 3.1 70B";
       provider := "groq";
       description := "Ultra-fast inference with Groq";
       capabilities := ["reasoning"; "code"; "analysis"; "multilingual"];
       maxTokens := 128000%N; speed := "fast"; cost := "low" |};
    {| id := "llama-3.1-8b-instant"; name := "Llama 3.1 8B Instant";
       provider := "groq";
       description := "Lightning-fast responses";
       capabilities := ["chat"; "quick-answers"; "code"];
       maxTokens := 128000%N; speed := "fast"; cost := "low" |};
    {| id := "claude-3-5-sonnet"; name := "Claude 3.5 Sonnet";
       provider := "anthropic";
       description := "Balanced and helpful assistant";
       capabilities := ["reasoning"; "analysis"; "creative"; "safe"];
       maxTokens := 200000%N; speed := "medium"; cost := "medium" |} ].

End Router.

(** The provider name that the model list uses for a family. *)
Definition provider_name (family : Provider) : string :=
  match family with
  | OpenAI => "openai"
  | Anthropic => "anthropic"
  | Groq => "groq"
  end.

(** ** Results as the parsers build them *)

(** [item.get(key, "")] for a dictionary [item]. *)
Definition field (key : string) (item : PyValue) : PyValue :=
  match item with
  | PyDict entries => default (PyStr "") (PyObject.lookup key entries)
  | _ => PyStr ""
  end.

(** A web result that the parser accepts: a dictionary whose profile,
    if it has one, is a dictionary. *)
Definition is_web_result (item : PyValue) : bool :=
  match item with
  | PyDict entries =>
      match PyObject.lookup "profile" entries with
      | None | Some (PyDict _) => true
      | Some _ => false
      end
  | _ => false
  end.

(** The dictionary built for an accepted web result. *)
Definition web_result (item : PyValue) : PyValue :=
  PyDict [("title", field "title" item);
          ("description", field "description" item);
          ("url", field "url" item);
          ("published", field "age" item);
          ("source",
           match item with
           | PyDict entries =>
               match PyObject.lookup "profile" entries with
               | Some profile => field "name" profile
               | None => PyStr ""
               end
           | _ => PyStr ""
           end)].

(** The keys of a dictionary, in order. *)
Definition keys (entries : list (string * PyValue)) : list string :=
  map fst entries.


(** The results that a body lists under web, results: none when one of
    the two keys is absent; [None] when web is not a dictionary or
    results is not a list. *)
Definition listed_results (entries : list (string * PyValue))
  : option (list PyValue) :=
  match PyObject.lookup "web" entries with
  | None => Some []
  | Some (PyDict web) =>
      match PyObject.lookup "results" web with
      | None => Some []
      | Some (PyList items) => Some items
      | Some _ => None
      end
  | Some _ => None
  end.

(** What the web search request of [search] is answered with. *)
Definition web_search_response (self : BraveSearchService.Self)
    (query : string) (count : nat) (country search_lang ui_lang : string)
  : result ClientResponse :=
  session_get (BraveSearchService.aiohttp self)
    (BraveSearchService.base_url +:+ "/web/search")
    (BraveSearchService.headers self)
    [("q", PyStr query);
     ("count", PyInt (Z.of_nat count));
     ("country", PyStr country);
     ("search_lang", PyStr search_lang);
     ("ui_lang", PyStr ui_lang);
     ("safesearch", PyStr "moderate");
     ("freshness", PyStr "pw")].

(** What the ticker request of [get_market_data] is answered with. *)
Definition ticker_response (self : BinanceService.Self)
  : result ClientResponse :=
  session_get (BinanceService.aiohttp self)
    (BinanceService.base_url +:+ "/api/v3/ticker/24hr") [] [].

(** The body of a response with status 200, if it can be read. *)
Definition body_of (response : result ClientResponse) : option PyValue :=
  match response with
  | Ok response =>
      if (status response =? 200)%nat then
        match json response with
        | Ok data => Some data
        | Raise _ => None
        end
      else None
  | Raise _ => None
  end.

(** ** A sample network *)

Module SampleNet.

(** A network on which every request is answered with [response]. *)
Definition answering (response : result ClientResponse) : Aiohttp :=
  {| ClientSession := Ok tt; session_get := fun _ _ _ => response |}.

Definition brave (response : result ClientResponse)
  : BraveSearchService.Self :=
  {| BraveSearchService.api_key := "key";
     BraveSearchService.aiohttp := answering response |}.

Definition binance (response : result ClientResponse)
  : BinanceService.Self :=
  {| BinanceService.api_key := "key";
     BinanceService.secret_key := "secret";
     BinanceService.aiohttp := answering response |}.

(** [float] on the texts of the sample tickers: a string is kept as the
    float's text, and nothing else is converted. *)
Definition float (x : PyValue) : result PyValue :=
  match x with
  | PyStr s => Ok (PyFloat s)
  | _ => Raise (Exception "float() argument must be a string or a real number")
  end.

Definition ticker_of (symbol last : string) : PyValue :=
  PyDict [("symbol", PyStr symbol); ("lastPrice", PyStr last);
          ("priceChangePercent", PyStr "1.5"); ("volume", PyStr "10.0");
          ("highPrice", PyStr "2.0"); ("lowPrice", PyStr "1.0");
          ("openPrice", PyStr "1.2")].

Definition ok_body (data : PyValue) : result ClientResponse :=
  Ok {| status := 200; json := Ok data |}.

End SampleNet.

(** A chat service whose search finds nothing and whose market data
    cannot be fetched. *)
Definition quiet_service : ChatService :=
  {| openai_client := openai_client (Sample.service Sample.hello_there);
     anthropic_client := anthropic_client (Sample.service Sample.hello_there);
     groq_client := groq_client (Sample.service Sample.hello_there);
     brave_search := fun _ _ => Ok [];
     binance_service := Raise (Exception "timeout");
     encoding := Sample.char_encoding;
     get_conversation_with_messages := Sample.select_rows |}.

(** ** Creating a conversation ([create_conversation]) *)

(** [ConversationCreate]: a title and a model id, gpt-4 by default. *)
Record ConversationCreate := {
  create_title : string;
  create_model_id : string
}.

(** The session [db] where a conversation row is concerned: the engine
    may refuse the commit, and may fail when the row is read back. *)
Record ConversationSession := {
  conversation_commit_fault : Store -> Conversation -> option Exn;
  conversation_refresh_fault : Store -> Conversation -> option Exn
}.

(** [ChatService.create_conversation(db, user_id, title)]: the row gets
    its id, its model id and its two dates from the column defaults. *)
Definition create_conversation {Y} (db : ConversationSession)
    (user_id : UUID) (title : string) : G Y Conversation :=
  fun w =>
    let conversation :=
      {| conversation_id_ := uuid4 w;
         conversation_title := title;
         conversation_user_id := user_id;
         conversation_model_id := "gpt-4";
         conversation_created_at := utcnow w;
         conversation_updated_at := utcnow w |} in
    match conversation_commit_fault db (store w) conversation with
    | Some e => MkRun [] (Raise e) w
    | None =>
        let w' :=
          {| store :=
               {| conversations := conversations (store w) ++ [conversation];
                  stored_messages := stored_messages (store w) |};
             utcnow := utcnow w;
             uuid4 := S (uuid4 w);
             trace := trace w |} in
        match conversation_refresh_fault db (store w') conversation with
        | Some e => MkRun [] (Raise e) w'
        | None => MkRun [] (Ok conversation) w'
        end
    end.

(** The endpoint [create_conversation(conversation_data, db,
    current_user)], with the id of the current user. *)
Definition create_conversation_endpoint {Y}
    (conversation_data : ConversationCreate) (db : ConversationSession)
    (current_user_id : UUID) : G Y Conversation :=
  create_conversation db current_user_id (create_title conversation_data).


(** What the news request of [search_news] is answered with. *)
Definition news_response (self : BraveSearchService.Self)
    (query : string) (count : nat) : result ClientResponse :=
  session_get (BraveSearchService.aiohttp self)
    (BraveSearchService.base_url +:+ "/news/search")
    (BraveSearchService.headers self)
    [("q", PyStr query);
     ("count", PyInt (Z.of_nat count));
     ("freshness", PyStr "pd");
     ("text_decorations", PyBool false)].

Definition is_dict (item : PyValue) : bool :=
  match item with
  | PyDict _ => true
  | _ => false
  end.

(** The dictionary built for a news result that is a dictionary. *)
Definition news_result (item : PyValue) : PyValue :=
  PyDict [("title", field "title" item);
          ("description", field "description" item);
          ("url", field "url" item);
          ("published", field "age" item);
          ("source", field "source" item)].

(** The symbol of a ticker, when it is a string. *)
Definition symbol_of (item : PyValue) : option string :=
  match PyObject.getitem item "symbol" with
  | Ok (PyStr s) => Some s
  | _ => None
  end.

(** A ticker that the parser can take in: its symbol is a string, and
    if the symbol is asked for, its six prices are there and [float]
    converts them. *)
Definition is_ticker (float : PyValue -> result PyValue)
    (symbols : list string) (item : PyValue) : bool :=
  match symbol_of item with
  | Some s =>
      if existsb (String.eqb s) symbols then
        match BinanceService.ticker float item with
        | Ok _ => true
        | Raise _ => false
        end
      else true
  | None => false
  end.

(** The entries that the parser builds from tickers with distinct
    symbols: one for each ticker whose symbol is asked for. *)
Definition requested_tickers (float : PyValue -> result PyValue)
    (symbols : list string) (items : list PyValue)
  : list (string * PyValue) :=
  flat_map (fun item =>
              match symbol_of item, BinanceService.ticker float item with
              | Some s, Ok entry =>
                  if existsb (String.eqb s) symbols then [(s, entry)] else []
              | _, _ => []
              end)
           items.

(** The symbols of the tickers of a list, in order. *)
Definition symbols_listed (items : list PyValue) : list string :=
  flat_map (fun item =>
              match symbol_of item with
              | Some s => [s]
              | None => []
              end)
           items.

(** * Properties *)

(** ** Runs of the basic combinators *)

Section Combinators.

Context {Y Z S : Type}.

Lemma run_eta {A} (r : Run Y A) : MkRun (yielded r) (outcome r) (final r) = r.
Proof. destruct r; reflexivity. Qed.

Lemma bind_run {A B} (m : G Y A) (k : A -> G Y B) w :
  bind m k w =
  match outcome (m w) with
  | Ok a =>
      MkRun (yielded (m w) ++ yielded (k a (final (m w))))
            (outcome (k a (final (m w)))) (final (k a (final (m w))))
  | Raise e => MkRun (yielded (m w)) (Raise e) (final (m w))
  end.
Proof. reflexivity. Qed.

Lemma try_except_run {A} (body : G Y A) handler w :
  try_except body handler w =
  match outcome (body w) with
  | Ok _ => body w
  | Raise e =>
      MkRun (yielded (body w) ++ yielded (handler e (final (body w))))
            (outcome (handler e (final (body w))))
            (final (handler e (final (body w))))
  end.
Proof. reflexivity. Qed.

(** A loop whose body yields one item per input and updates the loop
    variable purely. *)
Lemma for_each_yield (f : Y -> Z) (g : S -> Y -> S) (items : list Y) (s : S) w :
  for_each items s (fun s y => yield (f y) ;; ret (g s y)) w
  = MkRun (map f items) (Ok (fold_left g items s)) w.
Proof.
  revert s; induction items as [|y ys IH]; intros s; simpl.
  - reflexivity.
  - unfold bind at 1; simpl. rewrite IH; simpl. reflexivity.
Qed.

Lemma async_for_yield (f : Y -> Z) (g : S -> Y -> S) (gen : G Y unit) (s : S) w :
  async_for gen s (fun s y => yield (f y) ;; ret (g s y)) w
  = MkRun (map f (yielded (gen w)))
          (match outcome (gen w) with
           | Ok _ => Ok (fold_left g (yielded (gen w)) s)
           | Raise e => Raise e
           end)
          (final (gen w)).
Proof.
  unfold async_for. rewrite for_each_yield; simpl.
  destruct (outcome (gen w)); reflexivity.
Qed.

End Combinators.

Lemma relay_run (inner : G string unit) w :
  relay inner w = inner w.
Proof.
  unfold relay, async_for.
  assert (H : forall items w0,
             for_each items tt (fun (_ : unit) (chunk : string) => yield chunk) w0
             = MkRun items (Ok tt) w0).
  { induction items as [|y ys IH]; intros w0; simpl; [reflexivity|].
    unfold bind at 1; simpl. rewrite IH; reflexivity. }
  rewrite H; simpl.
  destruct (inner w) as [ys [[]|e] w']; reflexivity.
Qed.

(** ** The store operation *)

Lemma commit_run {Y} db message w :
  commit (Y:=Y) db message w =
  match commit_fault db (store w) message with
  | Some e => MkRun [] (Raise e) w
  | None => MkRun [] (Ok tt) (inserted message w)
  end.
Proof. reflexivity. Qed.

Lemma refresh_run {Y} db message w :
  refresh (Y:=Y) db message w =
  MkRun [] (match refresh_fault db (store w) message with
            | Some e => Raise e
            | None => Ok tt
            end) w.
Proof. unfold refresh. destruct (refresh_fault db (store w) message); reflexivity. Qed.

Lemma add_message_run {Y} db conversation_id message_data w :
  add_message (Y:=Y) db conversation_id message_data w =
  let message := new_row conversation_id message_data w in
  match commit_fault db (store w) message with
  | Some e => MkRun [] (Raise e) w
  | None =>
      MkRun []
            (match refresh_fault db (store (inserted message w)) message with
             | Some e => Raise e
             | None => Ok message
             end)
            (inserted message w)
  end.
Proof.
  cbv zeta. unfold add_message. rewrite bind_run.
  cbn [get_world yielded outcome final].
  fold (new_row conversation_id message_data w).
  rewrite bind_run, commit_run.
  destruct (commit_fault db (store w) (new_row conversation_id message_data w));
    cbn [yielded outcome final app]; [reflexivity|].
  rewrite bind_run, refresh_run. cbn [yielded outcome final app].
  destruct (refresh_fault db _ _); reflexivity.
Qed.

(** ** The endpoint's generator in closed form *)

Lemma generation_phase_run self db chat_request w :
  generation_phase self db chat_request w =
  let r1 := response_run self chat_request w in
  let lines := map sse_content (yielded r1) in
  match outcome r1 with
  | Raise e =>
      MkRun (lines ++ [sse_error ("Error: " +:+ str e)]) (Ok tt) (final r1)
  | Ok _ =>
      let a := new_row (request_conversation_id chat_request)
                 (assistant_data chat_request (accumulated (yielded r1)))
                 (final r1) in
      match commit_fault db (store (final r1)) a with
      | Some e =>
          MkRun (lines ++ [sse_error ("Error: " +:+ str e)]) (Ok tt) (final r1)
      | None =>
          MkRun (lines ++
                 [match refresh_fault db (store (inserted a (final r1))) a with
                  | Some e => sse_error ("Error: " +:+ str e)
                  | None => sse_done
                  end])
                (Ok tt) (inserted a (final r1))
      end
  end.
Proof.
  cbv zeta.
  set (r1 := response_run self chat_request w).
  assert (Hloop :
    async_for
      (generate_ai_response self (request_conversation_id chat_request)
         (request_message chat_request) (request_model_id chat_request))
      ""
      (fun full_content chunk =>
         yield (sse_content chunk) ;; ret (full_content +:+ chunk))
      w
    = MkRun (map sse_content (yielded r1))
            (match outcome r1 with
             | Ok _ => Ok (accumulated (yielded r1))
             | Raise e => Raise e
             end)
            (final r1)).
  { apply (async_for_yield sse_content
             (fun full_content chunk : string => full_content +:+ chunk)). }
  pose proof (add_message_run (Y:=string) db
                (request_conversation_id chat_request)
                (assistant_data chat_request (accumulated (yielded r1)))
                (final r1)) as Ha.
  cbv zeta in Ha.
  unfold generation_phase.
  rewrite try_except_run, !bind_run, Hloop; cbn [yielded outcome final].
  destruct (outcome r1) as [[]|e1]; cbn [yielded outcome final].
  - fold (assistant_data chat_request (accumulated (yielded r1))).
    rewrite ?bind_run, Ha.
    destruct (commit_fault db (store (final r1)) _) as [e2|];
      cbn [yielded outcome final app]; rewrite ?app_nil_r; [reflexivity|].
    destruct (refresh_fault db _ _) as [e3|];
      cbn [yield yielded outcome final app]; rewrite ?app_nil_r; reflexivity.
  - rewrite ?app_nil_r; reflexivity.
Qed.

Lemma generate_stream_run self db chat_request w :
  generate_stream self db chat_request w =
  let u := new_row (request_conversation_id chat_request)
                   (user_data chat_request) w in
  match commit_fault db (store w) u with
  | Some e => MkRun [sse_error ("Error: " +:+ str e)] (Ok tt) w
  | None =>
      match refresh_fault db (store (inserted u w)) u with
      | Some e =>
          MkRun [sse_error ("Error: " +:+ str e)] (Ok tt) (inserted u w)
      | None => generation_phase self db chat_request (inserted u w)
      end
  end.
Proof.
  cbv zeta.
  pose proof (add_message_run (Y:=string) db
                (request_conversation_id chat_request)
                (user_data chat_request) w) as Hu.
  cbv zeta in Hu.
  unfold generate_stream, generation_phase.
  fold (user_data chat_request).
  rewrite !try_except_run, bind_run, Hu.
  destruct (commit_fault db (store w) _) as [e|];
    cbn [yielded outcome final app]; [reflexivity|].
  destruct (refresh_fault db _ _) as [e|];
    cbn [yielded outcome final app]; [reflexivity|].
  match goal with
  | |- context [outcome (?b ?w1)] => destruct (b w1) as [ys [[]|e] w2]
  end; reflexivity.
Qed.

(** ** Wire lines *)

Lemma sse_content_not_done chunk : sse_content chunk <> sse_done.
Proof. unfold sse_content, sse_done, Json.dumps. cbn. discriminate. Qed.

Lemma sse_content_not_error chunk error_msg :
  sse_content chunk <> sse_error error_msg.
Proof.
  unfold sse_content, sse_error, Json.dumps, Json.dumps_str. cbn. discriminate.
Qed.

Lemma sse_done_not_error error_msg : sse_done <> sse_error error_msg.
Proof. unfold sse_done, sse_error, Json.dumps. cbn. discriminate. Qed.

(** C5.  The lines of a stream are the content lines of the generated
    chunks, in the order the chunks were generated, followed by exactly
    one terminal line: the literal done line or one error line.  No
    content line is a terminal line, the done line is not an error line,
    and the generator then finishes. *)
Theorem stream_ends_with_exactly_one_terminal_event
    self db chat_request w :
  let r := generate_stream self db chat_request w in
  let saved := add_message (Y:=string) db
                 (request_conversation_id chat_request)
                 (user_data chat_request) w in
  let chunks :=
    match outcome saved with
    | Raise _ => []
    | Ok _ => yielded (response_run self chat_request (final saved))
    end in
  exists terminal,
    yielded r = map sse_content chunks ++ [terminal] /\
    (terminal = sse_done \/ exists error_msg, terminal = sse_error error_msg) /\
    Forall (fun line =>
              line <> sse_done /\ forall error_msg, line <> sse_error error_msg)
           (map sse_content chunks) /\
    (forall error_msg, sse_done <> sse_error error_msg) /\
    outcome r = Ok tt.
Proof.
  cbv zeta. rewrite generate_stream_run, add_message_run. cbv zeta.
  assert (Hlines : forall chunks,
    Forall (fun line =>
              line <> sse_done /\ forall error_msg, line <> sse_error error_msg)
           (map sse_content chunks)).
  { induction chunks as [|chunk chunks IH]; simpl; constructor; [|exact IH].
    split; [apply sse_content_not_done|].
    intros error_msg. apply sse_content_not_error. }
  destruct (commit_fault db (store w) _) as [e|]; cbn [yielded outcome final].
  { exists (sse_error ("Error: " +:+ str e)). simpl.
    repeat split; eauto using sse_done_not_error. }
  destruct (refresh_fault db _ _) as [e|]; cbn [yielded outcome final].
  { exists (sse_error ("Error: " +:+ str e)). simpl.
    repeat split; eauto using sse_done_not_error. }
  rewrite generation_phase_run. cbv zeta.
  set (r1 := response_run self chat_request _).
  destruct (outcome r1) as [[]|e1].
  - destruct (commit_fault db (store (final r1)) _) as [e2|];
      [|destruct (refresh_fault db _ _) as [e3|]];
      eexists; cbn [yielded outcome final];
      (split; [reflexivity|]);
      repeat split; eauto using sse_done_not_error.
  - exists (sse_error ("Error: " +:+ str e1)). simpl.
    repeat split; eauto using sse_done_not_error.
Qed.

(** ** Computations that only log *)

Section OnlyLogs.

Context (allowed : Effect -> bool).

Lemma extends_by_refl w : extends_by [] w w.
Proof. unfold extends_by. rewrite app_nil_r. auto. Qed.

Lemma extends_by_trans a b w1 w2 w3 :
  extends_by a w1 w2 -> extends_by b w2 w3 -> extends_by (a ++ b) w1 w3.
Proof.
  unfold extends_by. intros (?&?&?&Ht1) (?&?&?&Ht2).
  repeat split; try congruence.
  rewrite Ht2, Ht1, app_assoc. reflexivity.
Qed.

Lemma only_logs_ret {Y A} (a : A) : only_logs allowed (ret (Y:=Y) a).
Proof. intros w. exists []. split; [apply extends_by_refl|reflexivity]. Qed.

Lemma only_logs_raise {Y A} e : only_logs allowed (raise (Y:=Y) (A:=A) e).
Proof. intros w. exists []. split; [apply extends_by_refl|reflexivity]. Qed.

Lemma only_logs_yield {Y} (y : Y) : only_logs allowed (yield y).
Proof. intros w. exists []. split; [apply extends_by_refl|reflexivity]. Qed.

Lemma only_logs_get_world {Y} : only_logs allowed (get_world (Y:=Y)).
Proof. intros w. exists []. split; [apply extends_by_refl|reflexivity]. Qed.

Lemma only_logs_await {Y A} (r : result A) : only_logs allowed (await (Y:=Y) r).
Proof. destruct r; [apply only_logs_ret|apply only_logs_raise]. Qed.

Lemma only_logs_log {Y} e : allowed e = true -> only_logs allowed (log (Y:=Y) e).
Proof.
  intros He w. exists [e]. split.
  - unfold extends_by, log; simpl. auto.
  - simpl. rewrite He. reflexivity.
Qed.

Lemma only_logs_iterate {C} (s : Stream C) : only_logs allowed (iterate s).
Proof. intros w. exists []. split; [apply extends_by_refl|reflexivity]. Qed.

Lemma only_logs_bind {Y A B} (m : G Y A) (k : A -> G Y B) :
  only_logs allowed m -> (forall a, only_logs allowed (k a)) ->
  only_logs allowed (bind m k).
Proof.
  intros Hm Hk w. rewrite bind_run.
  destruct (Hm w) as (a1 & He1 & Ha1).
  destruct (outcome (m w)) as [a|e]; simpl.
  - destruct (Hk a (final (m w))) as (a2 & He2 & Ha2).
    exists (a1 ++ a2). split; [eapply extends_by_trans; eauto|].
    rewrite forallb_app, Ha1, Ha2. reflexivity.
  - exists a1. auto.
Qed.

Lemma only_logs_try_except {Y A} (body : G Y A) handler :
  only_logs allowed body -> (forall e, only_logs allowed (handler e)) ->
  only_logs allowed (try_except body handler).
Proof.
  intros Hb Hh w. rewrite try_except_run.
  destruct (Hb w) as (a1 & He1 & Ha1).
  destruct (outcome (body w)) as [a|e]; simpl.
  - exists a1. auto.
  - destruct (Hh e (final (body w))) as (a2 & He2 & Ha2).
    exists (a1 ++ a2). split; [eapply extends_by_trans; eauto|].
    rewrite forallb_app, Ha1, Ha2. reflexivity.
Qed.

Lemma only_logs_for_each {Y Z S} (items : list Y) (s : S) (body : S -> Y -> G Z S) :
  (forall s y, only_logs allowed (body s y)) ->
  only_logs allowed (for_each items s body).
Proof.
  intros Hb. revert s. induction items as [|y ys IH]; intros s; simpl.
  - apply only_logs_ret.
  - apply only_logs_bind; auto.
Qed.

Lemma only_logs_async_for {Y Z S} (gen : G Y unit) (s : S) (body : S -> Y -> G Z S) :
  only_logs allowed gen -> (forall s y, only_logs allowed (body s y)) ->
  only_logs allowed (async_for gen s body).
Proof.
  intros Hg Hb w. unfold async_for.
  destruct (Hg w) as (a1 & He1 & Ha1).
  destruct (only_logs_for_each (yielded (gen w)) s body Hb (final (gen w)))
    as (a2 & He2 & Ha2).
  exists (a1 ++ a2). split.
  - destruct (outcome (for_each _ _ _ _)), (outcome (gen w)); simpl;
      eapply extends_by_trans; eauto.
  - rewrite forallb_app, Ha1, Ha2. reflexivity.
Qed.

End OnlyLogs.

Lemma only_logs_weaken {Y A} (p q : Effect -> bool) (m : G Y A) :
  (forall e, p e = true -> q e = true) -> only_logs p m -> only_logs q m.
Proof.
  intros Hpq Hm w. destruct (Hm w) as (added & He & Ha).
  exists added. split; [exact He|].
  rewrite forallb_forall in *. auto.
Qed.

Ltac only_logs_step :=
  first
    [ apply only_logs_ret | apply only_logs_raise | apply only_logs_yield
    | apply only_logs_get_world | apply only_logs_await
    | apply only_logs_iterate
    | apply only_logs_log; reflexivity
    | apply only_logs_bind; [|intros ?]
    | apply only_logs_try_except; [|intros ?]
    | apply only_logs_async_for; [|intros ? ?] ].

Ltac only_logs_basic := repeat only_logs_step.

Lemma yield_delta_content_only_logs allowed chunk :
  only_logs allowed (yield_delta_content chunk).
Proof.
  unfold yield_delta_content, first_choice.
  apply only_logs_bind.
  - destruct (choices chunk); only_logs_basic.
  - intros choice. destruct (delta_content choice) as [text|]; only_logs_basic.
    destruct (Py.truthy text); only_logs_basic.
Qed.

Ltac only_logs_auto :=
  repeat first [ apply yield_delta_content_only_logs | only_logs_step ].

Lemma enrichment_only_logs {Y} self user_message :
  only_logs is_enrichment_effect (_get_enhanced_context (Y:=Y) self user_message).
Proof.
  unfold _get_enhanced_context, search, get_market_data.
  apply only_logs_bind; [|intros c1; apply only_logs_bind; [|intros c2]].
  - destruct (mentions freshness_keywords user_message); only_logs_auto.
  - destruct (mentions market_keywords user_message); only_logs_auto.
  - only_logs_auto.
Qed.


Lemma openai_only_logs self messages model_id :
  only_logs any_effect (_generate_openai_response self messages model_id).
Proof.
  unfold _generate_openai_response, create. only_logs_auto.
Qed.

Lemma groq_only_logs self messages model_id :
  only_logs any_effect (_generate_groq_response self messages model_id).
Proof.
  unfold _generate_groq_response, create. only_logs_auto.
Qed.

Lemma anthropic_only_logs self messages model_id :
  only_logs any_effect (_generate_anthropic_response self messages model_id).
Proof.
  unfold _generate_anthropic_response, create.
  destruct (to_anthropic messages) as [system_message anthropic_messages].
  only_logs_auto.
  destruct (String.eqb _ _); only_logs_auto.
Qed.

Lemma select_conversation_only_logs {Y} self conversation_id :
  only_logs is_predispatch_effect (select_conversation (Y:=Y) self conversation_id).
Proof. unfold select_conversation. only_logs_auto. Qed.

Lemma relay_only_logs allowed inner :
  only_logs allowed inner -> only_logs allowed (relay inner).
Proof.
  intros H. unfold relay. apply only_logs_async_for; [exact H|].
  intros ? ?. apply only_logs_yield.
Qed.

Lemma response_only_logs self conversation_id user_message model_id :
  only_logs any_effect
    (generate_ai_response self conversation_id user_message model_id).
Proof.
  unfold generate_ai_response.
  apply only_logs_bind.
  { eapply only_logs_weaken; [|apply select_conversation_only_logs]. reflexivity. }
  intros conversation. apply only_logs_bind.
  { eapply only_logs_weaken; [|apply enrichment_only_logs]. reflexivity. }
  intros enhanced_context. cbv zeta.
  destruct (Py.startswith model_id "gpt");
    [apply relay_only_logs, openai_only_logs|].
  destruct (Py.startswith model_id "claude");
    [apply relay_only_logs, anthropic_only_logs|].
  destruct (_ || _);
    [apply relay_only_logs, groq_only_logs|].
  apply only_logs_ret.
Qed.

(** ** Persisting the user message comes first *)

Lemma response_run_extends self chat_request w :
  exists added, extends_by added w (final (response_run self chat_request w)).
Proof.
  destruct (response_only_logs self (request_conversation_id chat_request)
              (request_message chat_request) (request_model_id chat_request) w)
    as (added & He & _).
  exists added. exact He.
Qed.

(** C6.  In every run of the stream generator the effects added to the
    trace start with the commit of the user's message whenever there is
    any external call, so each search, market-data or generation call is
    preceded by that commit; once the commit went through, the user's
    row is in the store at the end of the run, whatever the later stages
    did.  When the commit is refused nothing is called and the store is
    left as it was. *)
Theorem user_message_is_persisted_before_any_external_call
    self db chat_request w :
  let r := generate_stream self db chat_request w in
  let u := new_row (request_conversation_id chat_request)
                   (user_data chat_request) w in
  exists added,
    trace (final r) = trace w ++ added /\
    (forall before e after,
        added = before ++ e :: after -> is_external_call e = true ->
        In (Committed u) before) /\
    match commit_fault db (store w) u with
    | None =>
        hd_error added = Some (Committed u) /\
        In u (stored_messages (store (final r)))
    | Some _ => added = [] /\ store (final r) = store w
    end.
Proof.
  cbv zeta. rewrite generate_stream_run. cbv zeta.
  set (u := new_row (request_conversation_id chat_request)
              (user_data chat_request) w).
  assert (Horder : forall rest before e after,
             Committed u :: rest = before ++ e :: after ->
             is_external_call e = true -> In (Committed u) before).
  { intros rest [|b before] e after Heq He; simpl in Heq.
    - injection Heq as <- _. discriminate He.
    - injection Heq as <- _. left. reflexivity. }
  destruct (commit_fault db (store w) u) as [e|].
  { exists []. simpl. rewrite app_nil_r. repeat split.
    intros [|? ?] ? ? Heq; discriminate Heq. }
  destruct (refresh_fault db (store (inserted u w)) u) as [e|].
  { exists [Committed u]. cbn [final inserted trace store stored_messages hd_error].
    repeat split; eauto.
    apply in_or_app. right. left. reflexivity. }
  rewrite generation_phase_run. cbv zeta.
  destruct (response_run_extends self chat_request (inserted u w))
    as (added & Hs & Hn & Hi & Ht).
  set (r1 := response_run self chat_request (inserted u w)) in *.
  assert (Hu : In u (stored_messages (store (final r1)))).
  { rewrite Hs. simpl. apply in_or_app. right. left. reflexivity. }
  assert (Htr : trace (final r1) = trace w ++ Committed u :: added).
  { rewrite Ht. simpl. rewrite <- app_assoc. reflexivity. }
  destruct (outcome r1) as [[]|e1].
  - destruct (commit_fault db (store (final r1)) _) as [e2|];
      cbn [final inserted trace store stored_messages].
    + exists (Committed u :: added). repeat split; eauto.
    + eexists (Committed u :: added ++ [_]). repeat split.
      * rewrite Htr, <- app_assoc. reflexivity.
      * eauto.
      * apply in_or_app. left. exact Hu.
  - exists (Committed u :: added). simpl. repeat split; eauto.
Qed.

(** ** Enrichment *)

(** The run of [_get_enhanced_context], for every behaviour of the two
    collaborators. *)
Lemma enhanced_context_run (Y : Type) self user_message w :
  let r := _get_enhanced_context (Y:=Y) self user_message w in
  outcome r =
    Ok {| web_search :=
            if mentions freshness_keywords user_message then
              match brave_search self user_message 3 with
              | Ok search_results => Some search_results
              | Raise _ => None
              end
            else None;
          crypto_data :=
            if mentions market_keywords user_message then
              match binance_service self with
              | Ok crypto => Some crypto
              | Raise _ => None
              end
            else None |} /\
  yielded r = [] /\
  store (final r) = store w.
Proof.
  cbv zeta.
  unfold _get_enhanced_context, search, get_market_data.
  rewrite !bind_run.
  destruct (mentions freshness_keywords user_message),
           (mentions market_keywords user_message);
    rewrite ?try_except_run, ?bind_run; cbn [log yielded outcome final];
    try destruct (brave_search self user_message 3);
    try destruct (binance_service self);
    cbn; repeat split; reflexivity.
Qed.

(** C7.  Whatever the search and market-data collaborators do, raising
    included, [_get_enhanced_context] returns a context and never
    raises.  A section is bound exactly when its vocabulary matched and
    its collaborator returned; a raising collaborator leaves only its
    own section out, and the other section is kept.  Nothing is yielded
    and the store is not touched. *)
Theorem enrichment_never_raises (Y : Type) self user_message w :
  let r := _get_enhanced_context (Y:=Y) self user_message w in
  outcome r =
    Ok {| web_search :=
            if mentions freshness_keywords user_message then
              match brave_search self user_message 3 with
              | Ok search_results => Some search_results
              | Raise _ => None
              end
            else None;
          crypto_data :=
            if mentions market_keywords user_message then
              match binance_service self with
              | Ok crypto => Some crypto
              | Raise _ => None
              end
            else None |} /\
  yielded r = [] /\
  store (final r) = store w.
Proof. apply enhanced_context_run. Qed.

(** ** Prompt assembly *)

Lemma append_nil_r (s : string) : s +:+ "" = s.
Proof.
  induction s as [|c s IH]; [reflexivity|].
  change (String c s +:+ "") with (String c (s +:+ "")).
  rewrite IH. reflexivity.
Qed.

Lemma append_assoc (a b c : string) : (a +:+ b) +:+ c = a +:+ (b +:+ c).
Proof.
  induction a as [|x a IH]; [reflexivity|].
  change (String x ((a +:+ b) +:+ c) = String x (a +:+ (b +:+ c))).
  rewrite IH. reflexivity.
Qed.

Lemma system_content_sections context :
  system_content context =
  base_instruction +:+ web_section context +:+ crypto_section context.
Proof.
  unfold system_content, web_section, crypto_section.
  destruct (web_search context) as [[|result results]|],
           (crypto_data context) as [[|item items]|];
    rewrite ?append_nil_r, ?append_assoc; reflexivity.
Qed.

Lemma fold_left_snoc {A B} (f : A -> B) (l : list A) (init : list B) :
  fold_left (fun acc x => acc ++ [f x]) l init = init ++ map f l.
Proof.
  revert init. induction l as [|x l IH]; intros init; simpl.
  - rewrite app_nil_r. reflexivity.
  - rewrite IH, <- app_assoc. reflexivity.
Qed.

Lemma prepare_messages_shape conversation_messages new_message context :
  _prepare_messages conversation_messages new_message context =
  {| msg_role := "system"; msg_content := system_content context |}
  :: map history_entry (Py.last_n 10 conversation_messages)
  ++ [{| msg_role := "user"; msg_content := new_message |}].
Proof.
  unfold _prepare_messages. rewrite fold_left_snoc. reflexivity.
Qed.

Lemma last_n_length {A} n (l : list A) : length (Py.last_n n l) = min n (length l).
Proof. unfold Py.last_n. rewrite length_drop. lia. Qed.

Lemma last_n_suffix {A} n (l : list A) :
  l = take (length l - n) l ++ Py.last_n n l.
Proof. unfold Py.last_n. symmetry. apply take_drop. Qed.

Lemma sum_app (l1 l2 : list nat) : Py.sum (l1 ++ l2) = Py.sum l1 + Py.sum l2.
Proof.
  unfold Py.sum. induction l1 as [|n l1 IH]; [reflexivity|].
  cbn [app fold_right]. rewrite IH. lia.
Qed.

(** What the code does for C1: the history is cut by count and never by
    cost.  The prepared list is the system message, the last ten history
    messages at most, in their order (with more than ten, the oldest are
    the ones left out), and the new user message; no token limit is read
    and [count_tokens] is not called.  So whenever the history messages
    that are kept count more than a limit by themselves, the estimate of
    the prepared list, [count_tokens] summed over its contents, exceeds
    that limit: nothing is dropped to make the list fit. *)
Theorem history_is_cut_by_count_not_by_cost
    self conversation_messages new_message context tokenLimit :
  let estimate :=
    fun l => Py.sum (map (fun m => count_tokens self (msg_content m)) l) in
  let kept := Py.last_n 10 conversation_messages in
  tokenLimit < estimate (map history_entry kept) ->
  (exists dropped, conversation_messages = dropped ++ kept) /\
  length kept = min 10 (length conversation_messages) /\
  _prepare_messages conversation_messages new_message context =
    {| msg_role := "system"; msg_content := system_content context |}
    :: map history_entry kept
    ++ [{| msg_role := "user"; msg_content := new_message |}] /\
  tokenLimit <
    estimate (_prepare_messages conversation_messages new_message context).
Proof.
  cbv zeta. intros Hover.
  split; [eexists; apply last_n_suffix|].
  split; [apply last_n_length|].
  split; [apply prepare_messages_shape|].
  rewrite prepare_messages_shape. cbn [map Py.sum fold_right].
  fold (Py.sum (map (fun m => count_tokens self (msg_content m))
                    (map history_entry (Py.last_n 10 conversation_messages)
                     ++ [{| msg_role := "user"; msg_content := new_message |}]))).
  rewrite map_app, sum_app. lia.
Qed.

(** Twelve past messages of 51 characters each, the new message hi, no
    enrichment, a limit of 100 and one token per character: the ten
    messages kept count 510, the prepared list 580, and the system
    message with the new user message alone would have counted 70. *)
Lemma history_is_cut_by_count_not_by_cost_witness :
  let self := Sample.service Sample.hello_there in
  let estimate :=
    fun l => Py.sum (map (fun m => count_tokens self (msg_content m)) l) in
  let prepared := _prepare_messages Sample.long_history "hi" empty_context in
  estimate (map history_entry (Py.last_n 10 Sample.long_history)) = 510 /\
  estimate prepared = 580 /\
  length prepared = 12 /\
  estimate [{| msg_role := "system"; msg_content := system_content empty_context |};
            {| msg_role := "user"; msg_content := "hi" |}] = 70 /\
  100 < estimate prepared.
Proof.
  cbv zeta.
  assert (Hkept : Py.sum (map (fun m => count_tokens
                            (Sample.service Sample.hello_there) (msg_content m))
                            (map history_entry (Py.last_n 10 Sample.long_history)))
                  = 510) by (vm_compute; reflexivity).
  split; [exact Hkept|].
  split; [vm_compute; reflexivity|].
  split; [vm_compute; reflexivity|].
  split; [vm_compute; reflexivity|].
  refine (proj2 (proj2 (proj2
            (history_is_cut_by_count_not_by_cost
               (Sample.service Sample.hello_there) Sample.long_history "hi"
               empty_context 100 _)))).
  cbv zeta. rewrite Hkept. apply Nat.ltb_lt. vm_compute. reflexivity.
Defined.

(** C3, as amended.  For the Bitcoin question the classifier matches the
    market vocabulary (through the words bitcoin and price) and also the
    freshness vocabulary (through the word current), so both
    collaborators are asked.  The system message is the base instruction
    followed by the web-search section, present when the search returned
    a non-empty list, and by the market-data section, present when the
    market call returned a non-empty map. *)
Theorem bitcoin_question_matches_both_vocabularies
    (Y : Type) self w conversation_messages :
  let question := "What's the current Bitcoin price?" in
  let context :=
    {| web_search :=
         match brave_search self question 3 with
         | Ok search_results => Some search_results
         | Raise _ => None
         end;
       crypto_data :=
         match binance_service self with
         | Ok crypto => Some crypto
         | Raise _ => None
         end |} in
  Py.contains "bitcoin" (Py.lower question) = true /\
  Py.contains "price" (Py.lower question) = true /\
  Py.contains "current" (Py.lower question) = true /\
  mentions market_keywords question = true /\
  mentions freshness_keywords question = true /\
  outcome (_get_enhanced_context (Y:=Y) self question w) = Ok context /\
  hd_error (_prepare_messages conversation_messages question context) =
    Some {| msg_role := "system";
            msg_content := base_instruction +:+ web_section context
                           +:+ crypto_section context |}.
Proof.
  cbv zeta.
  do 5 (split; [vm_compute; reflexivity|]).
  split.
  - destruct (enhanced_context_run Y self
                "What's the current Bitcoin price?" w) as (H & _).
    rewrite H. reflexivity.
  - rewrite prepare_messages_shape, system_content_sections. reflexivity.
Qed.

(** C3 fails as stated: the Bitcoin question matches the freshness
    vocabulary, and with a search collaborator that returns one result
    the system message carries a web-search section. *)
Lemma bitcoin_question_gets_web_search_section :
  mentions freshness_keywords "What's the current Bitcoin price?" = true /\
  exists context,
    outcome (_get_enhanced_context (Y:=string)
               (Sample.service Sample.hello_there)
               "What's the current Bitcoin price?" Sample.world0) = Ok context /\
    Py.contains "Current web search results:"
      (msg_content
         (hd {| msg_role := ""; msg_content := "" |}
             (_prepare_messages [] "What's the current Bitcoin price?" context)))
    = true.
Proof.
  split; [vm_compute; reflexivity|].
  eexists. split; vm_compute; reflexivity.
Qed.

(** ** The generators of the three provider families *)

Lemma yield_delta_content_run chunk w :
  yield_delta_content chunk w =
  match choices chunk with
  | [] => MkRun [] (Raise (Exception "list index out of range")) w
  | choice :: _ =>
      MkRun (match delta_content choice with
             | Some text => if Py.truthy text then [text] else []
             | None => []
             end) (Ok tt) w
  end.
Proof.
  unfold yield_delta_content, first_choice. rewrite bind_run.
  destruct (choices chunk) as [|choice rest]; [reflexivity|].
  cbn [ret yielded outcome final].
  destruct (delta_content choice) as [text|];
    [destruct (Py.truthy text)|]; reflexivity.
Qed.

Lemma delta_loop_items chunks w :
  for_each chunks tt (fun _ chunk => yield_delta_content chunk) w =
  MkRun (deltas chunks)
        (if forallb has_choice chunks then Ok tt
         else Raise (Exception "list index out of range")) w.
Proof.
  induction chunks as [|chunk chunks IH]; [reflexivity|].
  cbn [for_each deltas forallb]. rewrite bind_run, yield_delta_content_run.
  unfold has_choice at 1.
  destruct (choices chunk) as [|choice rest]; [reflexivity|].
  cbn [yielded outcome final andb]. rewrite IH. cbn [yielded outcome final].
  destruct (delta_content choice) as [text|];
    [destruct (Py.truthy text)|]; reflexivity.
Qed.

Lemma delta_loop_run (s : Stream CompletionChunk) w :
  async_for (iterate s) tt (fun _ chunk => yield_delta_content chunk) w =
  MkRun (deltas (events s))
        (match loop_failure (events s) (failure s) with
         | None => Ok tt
         | Some e => Raise e
         end) w.
Proof.
  unfold async_for, iterate, loop_failure. cbn [yielded outcome final].
  rewrite delta_loop_items. cbn [yielded outcome final].
  destruct (forallb has_choice (events s)), (failure s); reflexivity.
Qed.

(** A generator of the OpenAI shape, with its error prefix. *)
Lemma completion_generator_run family client request prefix w :
  try_except
    (stream <- create family client request ;;
     async_for (iterate stream) tt (fun _ chunk => yield_delta_content chunk))
    (fun e => yield (prefix +:+ str e)) w =
  MkRun
    (match client request with
     | Raise e => [prefix +:+ str e]
     | Ok s =>
         deltas (events s) ++
         match loop_failure (events s) (failure s) with
         | None => []
         | Some e => [prefix +:+ str e]
         end
     end)
    (Ok tt)
    (logged (StreamCreated family request) w).
Proof.
  rewrite try_except_run, bind_run. unfold create.
  rewrite bind_run. cbn [log yielded outcome final].
  fold (logged (StreamCreated family request) w).
  destruct (client request) as [s|e]; cbn [await ret raise yielded outcome final].
  - rewrite delta_loop_run. cbn [yielded outcome final app].
    destruct (loop_failure (events s) (failure s)) as [e|];
      cbn [yield yielded outcome final]; rewrite ?app_nil_r; reflexivity.
  - reflexivity.
Qed.

Lemma openai_run self messages model_id w :
  _generate_openai_response self messages model_id w =
  MkRun
    (match openai_client self (openai_request model_id messages) with
     | Raise e => ["Error: " +:+ str e]
     | Ok s =>
         deltas (events s) ++
         match loop_failure (events s) (failure s) with
         | None => []
         | Some e => ["Error: " +:+ str e]
         end
     end)
    (Ok tt)
    (logged (StreamCreated OpenAI (openai_request model_id messages)) w).
Proof. apply completion_generator_run. Qed.

Lemma groq_run self messages model_id w :
  _generate_groq_response self messages model_id w =
  MkRun
    (match groq_client self
             (groq_request
                (default "llama-3.1-70b-versatile" (groq_model_map !! model_id))
                messages) with
     | Raise e => ["Error with Groq API: " +:+ str e]
     | Ok s =>
         deltas (events s) ++
         match loop_failure (events s) (failure s) with
         | None => []
         | Some e => ["Error with Groq API: " +:+ str e]
         end
     end)
    (Ok tt)
    (logged (StreamCreated Groq
               (groq_request
                  (default "llama-3.1-70b-versatile" (groq_model_map !! model_id))
                  messages)) w).
Proof. apply completion_generator_run. Qed.

Lemma anthropic_loop_items chunks w :
  for_each chunks tt
    (fun (_ : unit) chunk =>
       if String.eqb (event_type chunk) "content_block_delta"
       then yield (delta_text chunk) else ret tt) w =
  MkRun (anthropic_deltas chunks) (Ok tt) w.
Proof.
  induction chunks as [|chunk chunks IH]; [reflexivity|].
  cbn [for_each anthropic_deltas]. rewrite bind_run.
  destruct (String.eqb (event_type chunk) "content_block_delta");
    cbn [yield ret yielded outcome final]; rewrite IH; reflexivity.
Qed.

Lemma anthropic_run self messages model_id w :
  _generate_anthropic_response self messages model_id w =
  MkRun
    (match anthropic_client self (anthropic_request model_id messages) with
     | Raise e => ["Error: " +:+ str e]
     | Ok s =>
         anthropic_deltas (events s) ++
         match failure s with
         | None => []
         | Some e => ["Error: " +:+ str e]
         end
     end)
    (Ok tt)
    (logged (StreamCreated Anthropic (anthropic_request model_id messages)) w).
Proof.
  unfold _generate_anthropic_response, anthropic_request.
  destruct (to_anthropic messages) as [system_message anthropic_messages].
  cbn [fst snd].
  rewrite try_except_run, bind_run. unfold create.
  rewrite bind_run. cbn [log yielded outcome final].
  match goal with
  | |- context [StreamCreated Anthropic ?request] =>
      fold (logged (StreamCreated Anthropic request) w)
  end.
  destruct (anthropic_client self _) as [s|e];
    cbn [await ret raise yielded outcome final]; [|reflexivity].
  unfold async_for, iterate. cbn [yielded outcome final].
  rewrite anthropic_loop_items. cbn [yielded outcome final app].
  destruct (failure s) as [e|];
    cbn [yield yielded outcome final]; rewrite ?app_nil_r; reflexivity.
Qed.

(** The chunks of the generator picked for a model id: the deltas that
    its back end delivers, then the error text when the generation ends
    with an exception. *)
Lemma dispatch_run self messages model_id family w :
  routed model_id = Some family ->
  exists request,
    let '(chunks, ended) := delivered self family request in
    dispatch self messages model_id w =
    MkRun (chunks ++
           match ended with
           | None => []
           | Some e => [error_prefix family +:+ str e]
           end)
          (Ok tt)
          (logged (StreamCreated family request) w).
Proof.
  unfold routed, dispatch.
  destruct (Py.startswith model_id "gpt").
  { intros [= <-]. exists (openai_request model_id messages).
    rewrite relay_run, openai_run. cbn [delivered error_prefix].
    destruct (openai_client self _) as [s|e]; reflexivity. }
  destruct (Py.startswith model_id "claude").
  { intros [= <-]. exists (anthropic_request model_id messages).
    rewrite relay_run, anthropic_run. cbn [delivered error_prefix].
    destruct (anthropic_client self _) as [s|e]; reflexivity. }
  destruct (_ || _); [|discriminate].
  intros [= <-].
  exists (groq_request
            (default "llama-3.1-70b-versatile" (groq_model_map !! model_id))
            messages).
  rewrite relay_run, groq_run. cbn [delivered error_prefix].
  destruct (groq_client self _) as [s|e]; reflexivity.
Qed.

Lemma generate_ai_response_dispatch self conversation_id user_message model_id w :
  generate_ai_response self conversation_id user_message model_id w =
  (conversation <- select_conversation self conversation_id ;;
   enhanced_context <- _get_enhanced_context self user_message ;;
   dispatch self
     (_prepare_messages (snd conversation) user_message enhanced_context)
     model_id) w.
Proof. reflexivity. Qed.


(** ** The Groq alias table *)





(** ** Appending a message *)

(** C9, as amended.  Appending a message leaves every conversation row
    as it was, the updated-at field included: the only change to the
    store is the new message row, which carries the conversation id,
    content, role and model id that were passed in, and when the commit
    is refused the store does not change at all. *)
Theorem append_leaves_conversations_unchanged
    (Y : Type) db conversation_id message_data w :
  let r := add_message (Y:=Y) db conversation_id message_data w in
  let message := new_row conversation_id message_data w in
  conversations (store (final r)) = conversations (store w) /\
  match commit_fault db (store w) message with
  | None =>
      stored_messages (store (final r)) = stored_messages (store w) ++ [message]
  | Some _ => store (final r) = store w
  end /\
  match outcome r with
  | Ok returned => returned = message
  | Raise _ => True
  end.
Proof.
  cbv zeta. rewrite add_message_run. cbv zeta.
  destruct (commit_fault db (store w) _); cbn [yielded outcome final]; auto.
  destruct (refresh_fault db _ _); simpl; auto.
Qed.

(** C9 fails as stated: a conversation last updated at time 1 receives a
    message at time 5; the message is stamped 5 and the conversation's
    updated-at is still 1. *)
Lemma append_does_not_bump_updated_at :
  let r := add_message (Y:=string) Sample.healthy_db 1
             {| content := "Hello"; role := USER; model_id := Some "gpt-4" |}
             Sample.world0 in
  utcnow Sample.world0 = 5 /\
  map conversation_updated_at (conversations (store Sample.world0)) = [1] /\
  map message_created_at (stored_messages (store (final r))) = [5] /\
  map conversation_updated_at (conversations (store (final r))) = [1] /\
  ~ map conversation_updated_at (conversations (store (final r))) = [5].
Proof. cbv zeta. repeat split; try reflexivity. vm_compute. discriminate. Qed.

(** ** A model id that no branch claims *)

Lemma select_conversation_run {Y} self conversation_id w :
  select_conversation (Y:=Y) self conversation_id w =
  MkRun [] (get_conversation_with_messages self (store w) conversation_id)
        (logged (Selected conversation_id) w).
Proof.
  unfold select_conversation. rewrite !bind_run.
  cbn [log get_world yielded outcome final store].
  fold (logged (Selected conversation_id) w).
  destruct (get_conversation_with_messages self (store w) conversation_id);
    reflexivity.
Qed.

(** Up to dispatch: the conversation is read, the context is fetched,
    and the generator picked by [dispatch] runs in a world that differs
    from the first by the read and by enrichment effects. *)
Lemma response_run_until_dispatch self chat_request w conversation :
  get_conversation_with_messages self (store w)
    (request_conversation_id chat_request) = Ok conversation ->
  exists enhanced_context added w2,
    extends_by (Selected (request_conversation_id chat_request) :: added) w w2 /\
    forallb is_enrichment_effect added = true /\
    response_run self chat_request w =
    dispatch self
      (_prepare_messages (snd conversation) (request_message chat_request)
                         enhanced_context)
      (request_model_id chat_request) w2.
Proof.
  intros Hsel. unfold response_run.
  rewrite generate_ai_response_dispatch, bind_run, select_conversation_run.
  cbn [yielded outcome final]. rewrite Hsel. rewrite bind_run.
  set (w1 := logged (Selected (request_conversation_id chat_request)) w).
  destruct (enhanced_context_run string self (request_message chat_request) w1)
    as (Hout & Hyield & _).
  destruct (enrichment_only_logs (Y:=string) self (request_message chat_request) w1)
    as (added & (Hs & Hn & Hi & Ht) & Hadded).
  rewrite Hout, Hyield. cbn [app].
  eexists _, added,
    (final (_get_enhanced_context self (request_message chat_request) w1)).
  split; [|split; [exact Hadded|]].
  - unfold extends_by. rewrite Hs, Hn, Hi, Ht. subst w1. simpl.
    rewrite <- app_assoc. auto.
  - cbv beta. cbn [yielded outcome final app]. apply run_eta.
Qed.

Lemma dispatch_unrouted self messages model_id :
  routed model_id = None -> dispatch self messages model_id = ret tt.
Proof.
  unfold routed, dispatch.
  destruct (Py.startswith model_id "gpt"); [discriminate|].
  destruct (Py.startswith model_id "claude"); [discriminate|].
  destruct (_ || _); [discriminate|reflexivity].
Qed.

(** Model ids that the front end offers and no branch claims. *)
Example front_end_model_ids_without_a_branch :
  routed "openai/gpt-oss-120b" = None /\
  routed "qwen/qwen3-32b" = None /\
  routed "moonshotai/kimi-k2-instruct" = None /\
  routed "foo-bar" = None.
Proof. repeat split; reflexivity. Qed.

(** What the code does for C2: for a model id that none of the
    three branches claims, with a store that accepts the commits and
    knows the conversation, no failure is raised.  The stream is the
    single done line, no generation call is made, and an assistant
    message with empty content is stored after the user's message. *)
Theorem unclaimed_model_is_answered_with_an_empty_reply
    self db chat_request w conversation :
  let u := new_row (request_conversation_id chat_request)
                   (user_data chat_request) w in
  routed (request_model_id chat_request) = None ->
  healthy db ->
  get_conversation_with_messages self (store (inserted u w))
    (request_conversation_id chat_request) = Ok conversation ->
  let r := generate_stream self db chat_request w in
  yielded r = [sse_done] /\
  outcome r = Ok tt /\
  (exists added,
      trace (final r) = trace w ++ added /\
      forallb (fun e => negb (is_provider_call e)) added = true) /\
  exists a,
    stored_messages (store (final r)) = stored_messages (store w) ++ [u; a] /\
    message_role a = ASSISTANT /\
    message_content a = "".
Proof.
  cbv zeta. intros Hrouted Hdb Hsel.
  rewrite generate_stream_run. cbv zeta.
  rewrite (proj1 (Hdb _ _)), (proj2 (Hdb _ _)).
  rewrite generation_phase_run. cbv zeta.
  destruct (response_run_until_dispatch self chat_request _ conversation Hsel)
    as (enhanced_context & added & w2 & (Hs & Hn & Hi & Ht) & Hadded & Hrun).
  rewrite Hrun, (dispatch_unrouted _ _ _ Hrouted).
  cbn [ret yielded outcome final map app].
  rewrite (proj1 (Hdb _ _)), (proj2 (Hdb _ _)).
  cbn [yielded outcome final inserted store stored_messages trace].
  split; [reflexivity|]. split; [reflexivity|]. split.
  - eexists. split.
    + rewrite Ht. cbn [inserted trace]. rewrite <- !app_assoc. reflexivity.
    + cbn [app forallb is_provider_call negb andb].
      rewrite forallb_app. cbn [forallb is_provider_call negb andb].
      rewrite andb_true_r.
      rewrite forallb_forall in *. intros e He.
      specialize (Hadded e He). destruct e; try discriminate Hadded; reflexivity.
  - eexists. split.
    { rewrite Hs. cbn [inserted store stored_messages].
      rewrite <- app_assoc. reflexivity. }
    split; reflexivity.
Qed.

(** The model id foo-bar on the sample service. *)
Lemma unclaimed_model_is_answered_with_an_empty_reply_witness :
  let self := Sample.service Sample.hello_there in
  let chat_request := Sample.request "Hello" "foo-bar" in
  let u := new_row 1 (user_data chat_request) Sample.world0 in
  let r := generate_stream self Sample.healthy_db chat_request Sample.world0 in
  routed "foo-bar" = None /\
  healthy Sample.healthy_db /\
  get_conversation_with_messages self (store (inserted u Sample.world0)) 1 =
    Ok (Sample.conversation1, [u]) /\
  yielded r = [sse_done] /\
  outcome r = Ok tt /\
  map (fun m => (message_role m, message_content m))
      (stored_messages (store (final r))) =
    [(USER, "Hello"); (ASSISTANT, "")].
Proof.
  cbv zeta.
  assert (Hdb : healthy Sample.healthy_db) by (intros st m; split; reflexivity).
  split; [reflexivity|]. split; [exact Hdb|]. split; [reflexivity|].
  destruct (unclaimed_model_is_answered_with_an_empty_reply
              (Sample.service Sample.hello_there) Sample.healthy_db
              (Sample.request "Hello" "foo-bar") Sample.world0
              (Sample.conversation1,
               [new_row 1 (user_data (Sample.request "Hello" "foo-bar"))
                        Sample.world0])
              eq_refl Hdb eq_refl)
    as (Hy & Ho & _ & _).
  split; [exact Hy|]. split; [exact Ho|]. reflexivity.
Defined.

(** ** A generation back end that fails in the middle of its stream *)

Lemma concat_str_app l1 l2 :
  Py.concat_str (l1 ++ l2) = Py.concat_str l1 +:+ Py.concat_str l2.
Proof.
  induction l1 as [|x l1 IH]; [reflexivity|].
  cbn [app Py.concat_str]. rewrite IH, append_assoc. reflexivity.
Qed.

Lemma fold_left_append chunks init :
  fold_left (fun full_content chunk => full_content +:+ chunk) chunks init
  = init +:+ Py.concat_str chunks.
Proof.
  revert init. induction chunks as [|x chunks IH]; intros init;
    cbn [fold_left Py.concat_str].
  - rewrite append_nil_r. reflexivity.
  - rewrite IH, append_assoc. reflexivity.
Qed.

Lemma accumulated_concat chunks : accumulated chunks = Py.concat_str chunks.
Proof. unfold accumulated. rewrite fold_left_append. reflexivity. Qed.

(** C4, as amended.  Let the request be routed to one of the three
    provider families, and let its back end deliver some text deltas and
    then fail with [e], with a store that accepts the commits and knows
    the conversation.  The wire stream is the content lines of the
    deltas, one more content line that carries the family's error text
    (Error: and the failure's message; for Groq, Error with Groq API:
    and the message), and the done line; no error event is sent.  The
    stored assistant message is the concatenation of the deltas followed
    by that error text, with no incomplete tag, and it is stored also
    when no delta was emitted. *)
Theorem provider_failure_is_relayed_as_content
    self db chat_request w conversation family emitted e :
  let u := new_row (request_conversation_id chat_request)
                   (user_data chat_request) w in
  routed (request_model_id chat_request) = Some family ->
  healthy db ->
  get_conversation_with_messages self (store (inserted u w))
    (request_conversation_id chat_request) = Ok conversation ->
  (forall request, delivered self family request = (emitted, Some e)) ->
  let r := generate_stream self db chat_request w in
  let error_text := error_prefix family +:+ str e in
  yielded r =
    map sse_content emitted ++ [sse_content error_text; sse_done] /\
  exists a,
    stored_messages (store (final r)) = stored_messages (store w) ++ [u; a] /\
    message_role a = ASSISTANT /\
    message_content a = Py.concat_str emitted +:+ error_text.
Proof.
  cbv zeta. intros Hrouted Hdb Hsel Hdelivered.
  rewrite generate_stream_run. cbv zeta.
  rewrite (proj1 (Hdb _ _)), (proj2 (Hdb _ _)).
  rewrite generation_phase_run. cbv zeta.
  destruct (response_run_until_dispatch self chat_request _ conversation Hsel)
    as (enhanced_context & added & w2 & (Hs & Hn & Hi & Ht) & Hadded & Hrun).
  rewrite Hrun.
  destruct (dispatch_run self
              (_prepare_messages (snd conversation)
                 (request_message chat_request) enhanced_context)
              (request_model_id chat_request) family w2 Hrouted)
    as (request & Hdispatch).
  rewrite Hdelivered in Hdispatch. rewrite Hdispatch.
  cbn [yielded outcome final].
  rewrite (proj1 (Hdb _ _)), (proj2 (Hdb _ _)).
  cbn [yielded outcome final inserted logged store stored_messages].
  split.
  - rewrite map_app, <- app_assoc. reflexivity.
  - eexists. split.
    { rewrite Hs. cbn [inserted store stored_messages].
      rewrite <- app_assoc. reflexivity. }
    split; [reflexivity|].
    cbn [new_row message_content assistant_data content].
    rewrite accumulated_concat, concat_str_app.
    cbn [Py.concat_str]. rewrite append_nil_r. reflexivity.
Qed.

(** The sample back end that says Hello, there, and then fails. *)
Lemma provider_failure_is_relayed_as_content_witness :
  let self := Sample.service Sample.hello_there_then_error in
  let chat_request := Sample.request "Hello" "gpt-4" in
  let u := new_row 1 (user_data chat_request) Sample.world0 in
  let r := generate_stream self Sample.healthy_db chat_request Sample.world0 in
  routed "gpt-4" = Some OpenAI /\
  healthy Sample.healthy_db /\
  get_conversation_with_messages self (store (inserted u Sample.world0)) 1 =
    Ok (Sample.conversation1, [u]) /\
  (forall request,
      delivered self OpenAI request =
      (["Hello"; " there"], Some (Exception "connection reset"))) /\
  yielded r =
    [sse_content "Hello"; sse_content " there";
     sse_content "Error: connection reset"; sse_done].
Proof.
  cbv zeta.
  assert (Hdb : healthy Sample.healthy_db) by (intros st m; split; reflexivity).
  split; [reflexivity|]. split; [exact Hdb|]. split; [reflexivity|].
  split; [intros request; reflexivity|].
  exact (proj1 (provider_failure_is_relayed_as_content
                  (Sample.service Sample.hello_there_then_error)
                  Sample.healthy_db (Sample.request "Hello" "gpt-4")
                  Sample.world0
                  (Sample.conversation1,
                   [new_row 1 (user_data (Sample.request "Hello" "gpt-4"))
                            Sample.world0])
                  OpenAI ["Hello"; " there"] (Exception "connection reset")
                  eq_refl Hdb eq_refl (fun _ => eq_refl))).
Defined.

(** C4 fails as stated: after Hello, there and a failure, the stream
    has three content lines and the done line and no error event, and
    the stored reply is the text with the error message appended, not
    Hello there with an incomplete tag; after a failure before any
    delta, a reply is stored all the same. *)
Lemma provider_failure_sends_no_error_event :
  let r := generate_stream (Sample.service Sample.hello_there_then_error)
             Sample.healthy_db (Sample.request "Hello" "gpt-4") Sample.world0 in
  let r0 := generate_stream (Sample.service Sample.error_at_once)
              Sample.healthy_db (Sample.request "Hello" "gpt-4") Sample.world0 in
  yielded r =
    [sse_content "Hello"; sse_content " there";
     sse_content "Error: connection reset"; sse_done] /\
  (forall error_msg,
      yielded r <>
      [sse_content "Hello"; sse_content " there"; sse_error error_msg]) /\
  map message_content (stored_messages (store (final r))) =
    ["Hello"; "Hello thereError: connection reset"] /\
  Py.contains "[incomplete]" "Hello thereError: connection reset" = false /\
  map (fun m => (message_role m, message_content m))
      (stored_messages (store (final r0))) =
    [(USER, "Hello"); (ASSISTANT, "Error: connection reset")].
Proof.
  cbv zeta.
  assert (H : yielded (generate_stream
                (Sample.service Sample.hello_there_then_error)
                Sample.healthy_db (Sample.request "Hello" "gpt-4") Sample.world0)
              = [sse_content "Hello"; sse_content " there";
                 sse_content "Error: connection reset"; sse_done])
    by (vm_compute; reflexivity).
  split; [exact H|]. split.
  - intros error_msg. rewrite H. intros Heq. discriminate Heq.
  - repeat split; vm_compute; reflexivity.
Qed.

(** ** Two requests on one conversation *)








(** * Further properties of the service *)

(** ** Enrichment, effect by effect *)

Lemma enrichment_closed_form (Y : Type) self user_message w :
  let r := _get_enhanced_context (Y:=Y) self user_message w in
  yielded r = [] /\
  outcome r = Ok (enriched_context self user_message) /\
  extends_by (enrichment_effects self user_message) w (final r).
Proof.
  cbv zeta.
  unfold _get_enhanced_context, search, get_market_data, enriched_context,
    enrichment_effects, extends_by.
  rewrite !bind_run.
  destruct (mentions freshness_keywords user_message),
           (mentions market_keywords user_message);
    rewrite ?try_except_run, ?bind_run; cbn [log yielded outcome final];
    try destruct (brave_search self user_message 3);
    try destruct (binance_service self);
    cbn; rewrite ?app_nil_r, <- ?app_assoc; repeat split; reflexivity.
Qed.

(** X1.  Enrichment asks each collaborator at most once, the search
    before the market data, the search with the message as it was typed
    and a count of three; a failure is printed right after its call and
    does not stop the other call.  Nothing else happens: the store, the
    clock and the identifier supply are as before. *)
Theorem enrichment_calls_each_collaborator_at_most_once
    (Y : Type) self user_message w :
  let r := _get_enhanced_context (Y:=Y) self user_message w in
  store (final r) = store w /\
  utcnow (final r) = utcnow w /\
  uuid4 (final r) = uuid4 w /\
  trace (final r) =
    trace w ++
    (if mentions freshness_keywords user_message then
       SearchCalled user_message 3 ::
       match brave_search self user_message 3 with
       | Ok _ => []
       | Raise e => [Printed ("Web search failed: " +:+ str e)]
       end
     else []) ++
    (if mentions market_keywords user_message then
       MarketDataCalled ::
       match binance_service self with
       | Ok _ => []
       | Raise e => [Printed ("Crypto data fetch failed: " +:+ str e)]
       end
     else []).
Proof.
  cbv zeta.
  destruct (enrichment_closed_form Y self user_message w)
    as (_ & _ & Hs & Hn & Hi & Ht).
  auto.
Qed.

(** ** Keywords are matched as substrings *)

Lemma append_cons c (a b : string) : String c a +:+ b = String c (a +:+ b).
Proof. reflexivity. Qed.

Lemma lower_app (a b : string) : Py.lower (a +:+ b) = Py.lower a +:+ Py.lower b.
Proof.
  induction a as [|c a IH]; [reflexivity|].
  rewrite append_cons. cbn [Py.lower]. rewrite IH, append_cons. reflexivity.
Qed.

Lemma prefix_app_r (kw s b : string) :
  String.prefix kw s = true -> String.prefix kw (s +:+ b) = true.
Proof.
  revert kw. induction s as [|c s IH]; intros [|k kw] H.
  - destruct b; reflexivity.
  - discriminate H.
  - reflexivity.
  - rewrite append_cons. simpl in *.
    destruct (ascii_dec k c); [apply IH; exact H|discriminate H].
Qed.

Lemma contains_app_r (kw s b : string) :
  Py.contains kw s = true -> Py.contains kw (s +:+ b) = true.
Proof.
  induction s as [|c s IH]; cbn [Py.contains].
  - rewrite orb_false_r. intros H. destruct kw; [|discriminate H].
    destruct b; reflexivity.
  - intros H. apply orb_true_iff in H as [H|H].
    + rewrite append_cons. cbn [Py.contains].
      rewrite <- append_cons, (prefix_app_r _ _ _ H). reflexivity.
    + rewrite append_cons. cbn [Py.contains]. rewrite (IH H).
      apply orb_true_r.
Qed.

Lemma contains_app_l (kw a s : string) :
  Py.contains kw s = true -> Py.contains kw (a +:+ s) = true.
Proof.
  intros H. induction a as [|c a IH]; [exact H|].
  rewrite append_cons. cbn [Py.contains]. rewrite IH. apply orb_true_r.
Qed.

(** X2.  A keyword counts wherever it occurs: when a message matches a
    vocabulary, every message that contains it, with any text before and
    after, matches too.  Adding text never turns a match off. *)
Theorem match_survives_surrounding_text
    (keywords : list string) (before user_message after : string) :
  mentions keywords user_message = true ->
  mentions keywords (before +:+ user_message +:+ after) = true.
Proof.
  unfold mentions, Py.any. rewrite !existsb_exists.
  intros (kw & Hin & Hkw). exists kw. split; [exact Hin|].
  rewrite !lower_app. apply contains_app_l, contains_app_r. exact Hkw.
Qed.

(** The word coin inside a longer word, in capitals. *)
Lemma match_survives_surrounding_text_witness :
  mentions market_keywords "coin" = true /\
  mentions market_keywords ("A " +:+ "coin" +:+ "CIDENCE") = true.
Proof.
  split; [reflexivity|].
  exact (match_survives_surrounding_text market_keywords "A " "coin" "CIDENCE"
           eq_refl).
Defined.

(** ** The conversion to the Anthropic request shape *)

Lemma chat_msg_eta (msg : ChatMsg) :
  {| msg_role := msg_role msg; msg_content := msg_content msg |} = msg.
Proof. destruct msg; reflexivity. Qed.

Lemma to_anthropic_fold messages system_message anthropic_messages :
  fold_left
    (fun '(system_message, anthropic_messages) msg =>
       if role_eq (msg_role msg) "system"
       then (msg_content msg, anthropic_messages)
       else (system_message,
             anthropic_messages ++
             [{| msg_role := msg_role msg; msg_content := msg_content msg |}]))
    messages (system_message, anthropic_messages) =
  (default system_message
     (msg_content <$> last (List.filter is_system messages)),
   anthropic_messages ++ List.filter (fun msg => negb (is_system msg)) messages).
Proof.
  revert system_message anthropic_messages.
  induction messages as [|msg messages IH]; intros system_message anthropic_messages.
  - simpl. rewrite app_nil_r. reflexivity.
  - cbn [fold_left List.filter].
    change (role_eq (msg_role msg) "system") with (is_system msg).
    destruct (is_system msg) eqn:Hrole; rewrite IH.
    + cbn [negb]. f_equal. rewrite last_cons.
      destruct (last (List.filter is_system messages)); reflexivity.
    + cbn [negb]. rewrite chat_msg_eta, <- app_assoc. reflexivity.
Qed.

Lemma to_anthropic_closed_form messages :
  to_anthropic messages =
  (default "" (msg_content <$> last (List.filter is_system messages)),
   List.filter (fun msg => negb (is_system msg)) messages).
Proof. unfold to_anthropic. rewrite to_anthropic_fold. reflexivity. Qed.

(** X3.  The conversion for Anthropic keeps every message whose role is
    not the string system, in order and unchanged, and keeps no message
    of that role; the system text it hands over is the content of the
    last message whose role is the string system, and the empty string
    when there is none.  A role that is a member of the enumeration is
    equal to no string, so a message that carries one is kept. *)
Theorem anthropic_conversion_splits_system_from_the_rest messages :
  snd (to_anthropic messages) =
    List.filter (fun msg => negb (role_eq (msg_role msg) "system")) messages /\
  Forall (fun msg => msg_role msg <> "system") (snd (to_anthropic messages)) /\
  fst (to_anthropic messages) =
    match last (List.filter (fun msg => role_eq (msg_role msg) "system")
                            messages) with
    | Some msg => msg_content msg
    | None => ""
    end.
Proof.
  rewrite to_anthropic_closed_form. cbn [fst snd].
  split; [reflexivity|]. split.
  - apply List.Forall_forall. intros msg Hin.
    apply filter_In in Hin as [_ Hrole]. unfold is_system in Hrole.
    intros Heq. rewrite Heq in Hrole. discriminate Hrole.
  - fold is_system.
    change (fun msg => role_eq (msg_role msg) "system") with is_system.
    destruct (last (List.filter is_system messages)); reflexivity.
Qed.

Lemma no_history_entry_is_system rows :
  List.filter is_system (map history_entry rows) = [].
Proof. induction rows as [|row rows IH]; [reflexivity|exact IH]. Qed.

Lemma history_entries_are_kept rows :
  List.filter (fun msg => negb (is_system msg)) (map history_entry rows) =
  map history_entry rows.
Proof.
  induction rows as [|row rows IH]; [reflexivity|].
  cbn [map List.filter]. change (is_system (history_entry row)) with false.
  cbn [negb]. rewrite IH. reflexivity.
Qed.

(** X4.  What the Anthropic back end receives from the prepared list.
    A stored row carries its role as a member of the enumeration, which
    the conversion does not take for the string system.  So the system
    text is always the prepared system message, enrichment sections
    included, and the messages are all the rows of the ten-message
    window, rows of the system role among them, in order and under
    their enumeration roles, followed by the new user message. *)
Theorem anthropic_prompt_of_prepared_messages
    conversation_messages new_message context :
  to_anthropic (_prepare_messages conversation_messages new_message context) =
  (system_content context,
   map history_entry (Py.last_n 10 conversation_messages)
   ++ [{| msg_role := "user"; msg_content := new_message |}]).
Proof.
  rewrite prepare_messages_shape, to_anthropic_closed_form.
  cbn [List.filter]. change (is_system {| msg_role := "system";
                                          msg_content := system_content context |})
    with true. cbn [negb].
  rewrite !List.filter_app. cbn [List.filter].
  change (is_system {| msg_role := "user"; msg_content := new_message |})
    with false. cbn [negb].
  rewrite no_history_entry_is_system, history_entries_are_kept.
  reflexivity.
Qed.

(** ** The three generators *)

Lemma deltas_not_empty chunks : Forall (fun chunk => chunk <> "") (deltas chunks).
Proof.
  induction chunks as [|chunk chunks IH]; cbn [deltas]; [constructor|].
  destruct (choices chunk) as [|choice rest]; [constructor|].
  destruct (delta_content choice) as [text|]; [|exact IH].
  destruct text as [|c text]; cbn [Py.truthy]; [exact IH|].
  constructor; [discriminate|exact IH].
Qed.

Lemma completion_chunks_not_empty (prefix : string) c rest produced :
  prefix = String c rest ->
  Forall (fun chunk => chunk <> "")
    (match produced : result (Stream CompletionChunk) with
     | Raise e => [prefix +:+ str e]
     | Ok s =>
         deltas (events s) ++
         match loop_failure (events s) (failure s) with
         | None => []
         | Some e => [prefix +:+ str e]
         end
     end).
Proof.
  intros ->. destruct produced as [s|e].
  - apply Forall_app. split; [apply deltas_not_empty|].
    destruct (loop_failure (events s) (failure s)); repeat constructor.
    rewrite append_cons. discriminate.
  - repeat constructor. rewrite append_cons. discriminate.
Qed.

(** X5.  The OpenAI and the Groq generator never yield an empty chunk:
    events whose content is missing or empty are passed over, and the
    text that reports a failure is not empty. *)
Theorem completion_generators_never_yield_an_empty_chunk
    self messages model_id w :
  Forall (fun chunk => chunk <> "")
         (yielded (_generate_openai_response self messages model_id w)) /\
  Forall (fun chunk => chunk <> "")
         (yielded (_generate_groq_response self messages model_id w)).
Proof.
  rewrite openai_run, groq_run. cbn [yielded]. split.
  - eapply completion_chunks_not_empty. reflexivity.
  - eapply completion_chunks_not_empty. reflexivity.
Qed.

(** X6.  Each of the three generators makes exactly one call to its
    back end, with the keyword arguments of its family, and ends
    normally whatever the back end does; it leaves the store, the clock
    and the identifier supply alone. *)
Theorem each_generator_makes_one_call_and_never_raises
    self messages model_id w :
  (let r := _generate_openai_response self messages model_id w in
   outcome r = Ok tt /\
   final r = logged (StreamCreated OpenAI
                       {| model := model_id; messages := messages;
                          system := None; stream := true;
                          temperature := Some "0.7"; max_tokens := 2000;
                          top_p := None |}) w) /\
  (let r := _generate_anthropic_response self messages model_id w in
   outcome r = Ok tt /\
   final r = logged (StreamCreated Anthropic
                       {| model := model_id;
                          messages := snd (to_anthropic messages);
                          system := Some (fst (to_anthropic messages));
                          stream := true; temperature := None;
                          max_tokens := 2000; top_p := None |}) w) /\
  (let r := _generate_groq_response self messages model_id w in
   outcome r = Ok tt /\
   final r = logged (StreamCreated Groq
                       {| model := default "llama-3.1-70b-versatile"
                                     (groq_model_map !! model_id);
                          messages := messages;
                          system := None; stream := true;
                          temperature := Some "0.7"; max_tokens := 2000;
                          top_p := Some "0.9" |}) w).
Proof.
  cbv zeta. rewrite openai_run, anthropic_run, groq_run.
  repeat split; reflexivity.
Qed.

Lemma deltas_until_empty_choices pre bad post :
  forallb has_choice pre = true -> choices bad = [] ->
  deltas (pre ++ bad :: post) = deltas pre /\
  forallb has_choice (pre ++ bad :: post) = false.
Proof.
  intros Hpre Hbad. induction pre as [|chunk pre IH].
  - cbn [app deltas forallb]. unfold has_choice. rewrite Hbad. auto.
  - cbn [forallb] in Hpre. apply andb_true_iff in Hpre as [Hchunk Hpre].
    destruct (IH Hpre) as [IHd IHf].
    cbn [app deltas forallb]. rewrite IHd, IHf, andb_false_r.
    split; reflexivity.
Qed.

(** X7.  An event without any choice ends the OpenAI generation: the
    chunks are the deltas of the events before it, followed by the text
    Error: list index out of range, and the events after it are not
    looked at. *)
Theorem event_without_choice_ends_the_generation
    self messages model_id w s pre bad post :
  openai_client self (openai_request model_id messages) = Ok s ->
  events s = pre ++ bad :: post ->
  forallb has_choice pre = true ->
  choices bad = [] ->
  yielded (_generate_openai_response self messages model_id w) =
  deltas pre ++ ["Error: list index out of range"].
Proof.
  intros Hclient Hevents Hpre Hbad.
  rewrite openai_run, Hclient. cbn [yielded]. unfold loop_failure.
  rewrite Hevents.
  destruct (deltas_until_empty_choices pre bad post Hpre Hbad) as [-> ->].
  reflexivity.
Qed.

(** Hello, an event without choices, then an event that is never read. *)
Lemma event_without_choice_ends_the_generation_witness :
  let self := Sample.service Sample.stream_with_empty_choices in
  openai_client self (openai_request "gpt-4" []) =
    Ok Sample.stream_with_empty_choices /\
  events Sample.stream_with_empty_choices =
    [Sample.text_chunk "Hello"] ++ {| choices := [] |}
    :: [Sample.text_chunk " there"] /\
  yielded (_generate_openai_response self [] "gpt-4" Sample.world0) =
    ["Hello"; "Error: list index out of range"].
Proof.
  cbv zeta. split; [reflexivity|]. split; [reflexivity|].
  exact (event_without_choice_ends_the_generation
           (Sample.service Sample.stream_with_empty_choices) [] "gpt-4"
           Sample.world0 Sample.stream_with_empty_choices
           [Sample.text_chunk "Hello"] {| choices := [] |}
           [Sample.text_chunk " there"] eq_refl eq_refl eq_refl eq_refl).
Defined.

Lemma anthropic_deltas_filter chunks :
  anthropic_deltas chunks =
  map delta_text
      (List.filter (fun chunk => String.eqb (event_type chunk) "content_block_delta")
                   chunks).
Proof.
  induction chunks as [|chunk chunks IH]; [reflexivity|].
  cbn [anthropic_deltas List.filter].
  destruct (String.eqb (event_type chunk) "content_block_delta");
    cbn [map]; rewrite IH; reflexivity.
Qed.

(** X8.  The Anthropic generator yields the text of the events of type
    content_block_delta, in order, empty texts included, and passes over
    every other event; when the call or the stream fails it adds one
    chunk, Error: followed by the failure's message. *)
Theorem anthropic_generator_yields_the_block_deltas
    self messages model_id w :
  yielded (_generate_anthropic_response self messages model_id w) =
  match anthropic_client self (anthropic_request model_id messages) with
  | Raise e => ["Error: " +:+ str e]
  | Ok s =>
      map delta_text
          (List.filter
             (fun chunk => String.eqb (event_type chunk) "content_block_delta")
             (events s)) ++
      match failure s with
      | None => []
      | Some e => ["Error: " +:+ str e]
      end
  end.
Proof.
  rewrite anthropic_run. cbn [yielded].
  destruct (anthropic_client self _) as [s|e]; [|reflexivity].
  rewrite anthropic_deltas_filter. reflexivity.
Qed.

(** ** One request, effect by effect *)

Lemma dispatch_run_of_family self messages model_id family w :
  routed model_id = Some family ->
  dispatch self messages model_id w =
  MkRun (fst (delivered self family (family_request family model_id messages)) ++
         match snd (delivered self family
                      (family_request family model_id messages)) with
         | None => []
         | Some e => [error_prefix family +:+ str e]
         end)
        (Ok tt)
        (logged (StreamCreated family (family_request family model_id messages)) w).
Proof.
  unfold routed, dispatch.
  destruct (Py.startswith model_id "gpt").
  { intros [= <-]. rewrite relay_run, openai_run.
    cbn [delivered error_prefix family_request].
    destruct (openai_client self _) as [s|e]; reflexivity. }
  destruct (Py.startswith model_id "claude").
  { intros [= <-]. rewrite relay_run, anthropic_run.
    cbn [delivered error_prefix family_request].
    destruct (anthropic_client self _) as [s|e]; reflexivity. }
  destruct (_ || _); [|discriminate].
  intros [= <-]. rewrite relay_run, groq_run.
  cbn [delivered error_prefix family_request].
  destruct (groq_client self _) as [s|e]; reflexivity.
Qed.

Lemma response_run_unreadable self chat_request w e :
  get_conversation_with_messages self (store w)
    (request_conversation_id chat_request) = Raise e ->
  response_run self chat_request w =
  MkRun [] (Raise e) (logged (Selected (request_conversation_id chat_request)) w).
Proof.
  intros Hsel. unfold response_run.
  rewrite generate_ai_response_dispatch, bind_run, select_conversation_run.
  cbn [yielded outcome final]. rewrite Hsel. reflexivity.
Qed.

Lemma response_run_readable self chat_request w conversation :
  get_conversation_with_messages self (store w)
    (request_conversation_id chat_request) = Ok conversation ->
  exists w2,
    extends_by (Selected (request_conversation_id chat_request)
                :: enrichment_effects self (request_message chat_request)) w w2 /\
    response_run self chat_request w =
    dispatch self
      (_prepare_messages (snd conversation) (request_message chat_request)
         (enriched_context self (request_message chat_request)))
      (request_model_id chat_request) w2.
Proof.
  intros Hsel. unfold response_run.
  rewrite generate_ai_response_dispatch, bind_run, select_conversation_run.
  cbn [yielded outcome final]. rewrite Hsel. rewrite bind_run.
  set (w1 := logged (Selected (request_conversation_id chat_request)) w).
  destruct (enrichment_closed_form string self (request_message chat_request) w1)
    as (Hyield & Hout & Hs & Hn & Hi & Ht).
  rewrite Hout, Hyield. cbn [app].
  exists (final (_get_enhanced_context (Y:=string) self (request_message chat_request) w1)).
  split.
  - unfold extends_by. rewrite Hs, Hn, Hi, Ht. subst w1. simpl.
    rewrite <- app_assoc. auto.
  - cbv beta. cbn [yielded outcome final app]. apply run_eta.
Qed.

(** X9.  When the conversation cannot be read, the stream is one error
    event that carries the failure's message.  Nothing was asked of any
    collaborator: the only effects are the commit of the user's message
    and the read, and the user's message stays in the store. *)
Theorem unreadable_conversation_gives_one_error_event
    self db chat_request w e :
  let u := new_row (request_conversation_id chat_request)
                   (user_data chat_request) w in
  healthy db ->
  get_conversation_with_messages self (store (inserted u w))
    (request_conversation_id chat_request) = Raise e ->
  let r := generate_stream self db chat_request w in
  yielded r = [sse_error ("Error: " +:+ str e)] /\
  stored_messages (store (final r)) = stored_messages (store w) ++ [u] /\
  trace (final r) =
    trace w ++ [Committed u; Selected (request_conversation_id chat_request)].
Proof.
  cbv zeta. intros Hdb Hsel.
  rewrite generate_stream_run. cbv zeta.
  rewrite (proj1 (Hdb _ _)), (proj2 (Hdb _ _)).
  rewrite generation_phase_run. cbv zeta.
  rewrite (response_run_unreadable _ _ _ _ Hsel).
  cbn [yielded outcome final map app logged inserted store stored_messages trace].
  rewrite <- app_assoc. repeat split; reflexivity.
Qed.

(** A request for conversation 2, which the sample store does not hold. *)
Lemma unreadable_conversation_gives_one_error_event_witness :
  let self := Sample.service Sample.hello_there in
  let chat_request :=
    {| request_message := "Hello"; request_conversation_id := 2;
       request_model_id := "gpt-4" |} in
  let u := new_row 2 (user_data chat_request) Sample.world0 in
  healthy Sample.healthy_db /\
  get_conversation_with_messages self (store (inserted u Sample.world0)) 2 =
    Raise (Exception "conversation not found") /\
  yielded (generate_stream self Sample.healthy_db chat_request Sample.world0) =
    [sse_error "Error: conversation not found"].
Proof.
  cbv zeta.
  assert (Hdb : healthy Sample.healthy_db) by (intros st m; split; reflexivity).
  split; [exact Hdb|]. split; [reflexivity|].
  exact (proj1 (unreadable_conversation_gives_one_error_event
                  (Sample.service Sample.hello_there) Sample.healthy_db
                  {| request_message := "Hello"; request_conversation_id := 2;
                     request_model_id := "gpt-4" |}
                  Sample.world0 (Exception "conversation not found")
                  Hdb eq_refl)).
Defined.

(** X10.  When the conversation can be read, the response generator ends
    normally and its effects are, in this order: the read, the effects
    of enrichment, and for a routed model id one generation call, made
    to the routed family with the messages prepared from the rows read
    and the context fetched.  The store is not changed. *)
Theorem response_generator_reads_enriches_then_calls_once
    self conversation_id user_message model_id w conversation :
  get_conversation_with_messages self (store w) conversation_id
    = Ok conversation ->
  let r := generate_ai_response self conversation_id user_message model_id w in
  let messages :=
    _prepare_messages (snd conversation) user_message
      (enriched_context self user_message) in
  outcome r = Ok tt /\
  store (final r) = store w /\
  trace (final r) =
    trace w ++
    Selected conversation_id :: enrichment_effects self user_message ++
    match routed model_id with
    | Some family =>
        [StreamCreated family (family_request family model_id messages)]
    | None => []
    end.
Proof.
  intros Hsel. cbv zeta.
  pose (chat_request := {| request_message := user_message;
                           request_conversation_id := conversation_id;
                           request_model_id := model_id |}).
  destruct (response_run_readable self chat_request w conversation Hsel)
    as (w2 & (Hs & Hn & Hi & Ht) & Hrun).
  unfold response_run in Hrun. cbn [chat_request request_message
    request_conversation_id request_model_id] in Hrun, Hs, Hn, Hi, Ht.
  rewrite Hrun.
  destruct (routed model_id) as [family|] eqn:Hrouted.
  - rewrite (dispatch_run_of_family _ _ _ _ _ Hrouted).
    cbn [outcome final logged store trace]. rewrite Hs, Ht.
    split; [reflexivity|]. split; [reflexivity|].
    rewrite <- app_assoc. reflexivity.
  - rewrite (dispatch_unrouted _ _ _ Hrouted).
    cbn [ret outcome final]. rewrite Hs, Ht, app_nil_r. auto.
Qed.

(** A question about news on the sample service, sent to a gpt model. *)
Lemma response_generator_reads_enriches_then_calls_once_witness :
  let self := Sample.service Sample.hello_there in
  let r := generate_ai_response self 1 "any news?" "gpt-4" Sample.world0 in
  get_conversation_with_messages self (store Sample.world0) 1 =
    Ok (Sample.conversation1, []) /\
  outcome r = Ok tt /\
  map is_external_call (trace (final r)) = [false; true; true].
Proof.
  cbv zeta. split; [reflexivity|].
  destruct (response_generator_reads_enriches_then_calls_once
              (Sample.service Sample.hello_there) 1 "any news?" "gpt-4"
              Sample.world0 (Sample.conversation1, []) eq_refl)
    as (Ho & _ & Ht).
  split; [exact Ho|]. rewrite Ht. reflexivity.
Defined.

Lemma last_n_snoc {A} n (l : list A) x :
  exists front, Py.last_n (S n) (l ++ [x]) = front ++ [x].
Proof.
  unfold Py.last_n. exists (drop (length (l ++ [x]) - S n) l).
  apply drop_app_le. rewrite length_app. simpl. lia.
Qed.

Lemma family_request_messages_snoc family model_id front role1 text1 role2 text2 :
  role_eq role1 "system" = false ->
  role_eq role2 "system" = false ->
  exists sent,
    messages (family_request family model_id
                (front ++ [{| msg_role := role1; msg_content := text1 |};
                           {| msg_role := role2; msg_content := text2 |}])) =
    sent ++ [{| msg_role := role1; msg_content := text1 |};
             {| msg_role := role2; msg_content := text2 |}].
Proof.
  intros H1 H2. destruct family; cbn [family_request openai_request groq_request
    anthropic_request messages]; try (eexists; reflexivity).
  rewrite to_anthropic_closed_form. cbn [snd].
  rewrite List.filter_app. cbn [List.filter]. unfold is_system at 2 3.
  cbn [msg_role]. rewrite H1, H2. cbn [negb]. eexists; reflexivity.
Qed.

(** X11.  The endpoint saves the user's message before the service reads
    the conversation.  So when the rows read back end with the row just
    saved, the generation call of a routed model carries the user's text
    twice, as the last two messages: once from the history, under the
    role of the stored row, and once as the new message, under the
    string user. *)
Theorem saved_user_message_is_sent_twice
    self db chat_request w conversation rows family :
  let u := new_row (request_conversation_id chat_request)
                   (user_data chat_request) w in
  let from_history := {| msg_role := Member USER;
                         msg_content := request_message chat_request |} in
  let user_msg := {| msg_role := "user";
                     msg_content := request_message chat_request |} in
  healthy db ->
  get_conversation_with_messages self (store (inserted u w))
    (request_conversation_id chat_request) = Ok (conversation, rows ++ [u]) ->
  routed (request_model_id chat_request) = Some family ->
  exists request sent,
    In (StreamCreated family request)
       (trace (final (generate_stream self db chat_request w))) /\
    messages request = sent ++ [from_history; user_msg].
Proof.
  cbv zeta. intros Hdb Hsel Hrouted.
  set (u := new_row (request_conversation_id chat_request)
                    (user_data chat_request) w) in *.
  destruct (response_run_readable self chat_request (inserted u w) _ Hsel)
    as (w2 & _ & Hrun).
  rewrite (dispatch_run_of_family _ _ _ _ _ Hrouted) in Hrun.
  cbn [snd] in Hrun.
  destruct (last_n_snoc 9 rows u) as (front & Hfront).
  rewrite prepare_messages_shape, Hfront, map_app in Hrun.
  cbn [map history_entry] in Hrun.
  change (message_role u) with USER in Hrun.
  change (message_content u) with (request_message chat_request) in Hrun.
  rewrite <- app_assoc in Hrun. cbn [app] in Hrun.
  rewrite app_comm_cons in Hrun.
  destruct (family_request_messages_snoc family (request_model_id chat_request)
              ({| msg_role := "system";
                  msg_content := system_content
                    (enriched_context self (request_message chat_request)) |}
               :: map history_entry front)
              (Member USER) (request_message chat_request)
              "user" (request_message chat_request) eq_refl eq_refl)
    as (sent & Hsent).
  eexists; exists sent. split; [|exact Hsent].
  rewrite generate_stream_run. cbv zeta. fold u.
  rewrite (proj1 (Hdb _ _)), (proj2 (Hdb _ _)).
  rewrite generation_phase_run. cbv zeta. rewrite Hrun.
  cbn [outcome final yielded].
  rewrite (proj1 (Hdb _ _)), (proj2 (Hdb _ _)).
  cbn [final inserted logged trace]. rewrite !in_app_iff. left. right.
  left. reflexivity.
Qed.

(** The first message of conversation 1, read with the sample reading. *)
Lemma saved_user_message_is_sent_twice_witness :
  let self := Sample.service Sample.hello_there in
  let chat_request := Sample.request "Hello" "gpt-4" in
  let u := new_row 1 (user_data chat_request) Sample.world0 in
  healthy Sample.healthy_db /\
  get_conversation_with_messages self (store (inserted u Sample.world0)) 1 =
    Ok (Sample.conversation1, [] ++ [u]) /\
  routed "gpt-4" = Some OpenAI /\
  exists request sent,
    In (StreamCreated OpenAI request)
       (trace (final (generate_stream self Sample.healthy_db chat_request
                        Sample.world0))) /\
    messages request =
      sent ++ [ {| msg_role := Member USER; msg_content := "Hello" |};
                {| msg_role := "user"; msg_content := "Hello" |} ].
Proof.
  cbv zeta.
  assert (Hdb : healthy Sample.healthy_db) by (intros st m; split; reflexivity).
  split; [exact Hdb|]. split; [reflexivity|]. split; [reflexivity|].
  exact (saved_user_message_is_sent_twice
           (Sample.service Sample.hello_there) Sample.healthy_db
           (Sample.request "Hello" "gpt-4") Sample.world0
           Sample.conversation1 [] OpenAI Hdb eq_refl eq_refl).
Defined.

(** ** What a stream leaves in the store *)

Lemma last_snoc_inv {A} (l : list A) x y : last (l ++ [x]) = Some y -> x = y.
Proof. rewrite last_snoc. congruence. Qed.

(** X12.  A stream that ends with the done line has stored exactly two
    rows, in this order: the user's message, then the assistant's
    message, whose content is the concatenation of the content chunks
    that were sent, in the order they were sent.  Both rows carry the
    conversation id and the model id of the request. *)
Theorem finished_stream_stores_what_it_sent self db chat_request w :
  let r := generate_stream self db chat_request w in
  last (yielded r) = Some sse_done ->
  exists chunks a,
    yielded r = map sse_content chunks ++ [sse_done] /\
    stored_messages (store (final r)) =
      stored_messages (store w) ++
      [new_row (request_conversation_id chat_request) (user_data chat_request) w;
       a] /\
    message_content a = Py.concat_str chunks /\
    message_role a = ASSISTANT /\
    message_conversation_id a = request_conversation_id chat_request /\
    message_model_id a = Some (request_model_id chat_request).
Proof.
  cbv zeta. rewrite generate_stream_run. cbv zeta.
  set (u := new_row (request_conversation_id chat_request)
                    (user_data chat_request) w).
  destruct (commit_fault db (store w) u) as [e|].
  { cbn [yielded]. intros H%(last_snoc_inv []).
    destruct (sse_done_not_error _ (eq_sym H)). }
  destruct (refresh_fault db (store (inserted u w)) u) as [e|].
  { cbn [yielded]. intros H%(last_snoc_inv []).
    destruct (sse_done_not_error _ (eq_sym H)). }
  rewrite generation_phase_run. cbv zeta.
  destruct (response_run_extends self chat_request (inserted u w))
    as (added & Hs & _).
  set (r1 := response_run self chat_request (inserted u w)) in *.
  destruct (outcome r1) as [[]|e].
  2:{ cbn [yielded]. intros H%last_snoc_inv.
      destruct (sse_done_not_error _ (eq_sym H)). }
  destruct (commit_fault db (store (final r1)) _) as [e|].
  { cbn [yielded]. intros H%last_snoc_inv.
    destruct (sse_done_not_error _ (eq_sym H)). }
  destruct (refresh_fault db _ _) as [e|].
  { cbn [yielded]. intros H%last_snoc_inv.
    destruct (sse_done_not_error _ (eq_sym H)). }
  intros _. cbn [yielded final].
  exists (yielded r1). eexists. split; [reflexivity|].
  cbn [inserted store stored_messages]. rewrite Hs.
  cbn [inserted store stored_messages]. rewrite <- app_assoc.
  split; [reflexivity|].
  cbn [new_row assistant_data message_content message_role
       message_conversation_id message_model_id content role model_id].
  rewrite accumulated_concat. auto.
Qed.

(** The sample service answers Hello, there and the stream ends with the
    done line. *)
Lemma finished_stream_stores_what_it_sent_witness :
  let r := generate_stream (Sample.service Sample.hello_there)
             Sample.healthy_db (Sample.request "Hi" "gpt-4") Sample.world0 in
  last (yielded r) = Some sse_done /\
  exists chunks a,
    yielded r = map sse_content chunks ++ [sse_done] /\
    stored_messages (store (final r)) =
      stored_messages (store Sample.world0) ++
      [new_row 1 (user_data (Sample.request "Hi" "gpt-4")) Sample.world0; a] /\
    message_content a = Py.concat_str chunks.
Proof.
  cbv zeta. split; [reflexivity|].
  destruct (finished_stream_stores_what_it_sent
              (Sample.service Sample.hello_there) Sample.healthy_db
              (Sample.request "Hi" "gpt-4") Sample.world0 eq_refl)
    as (chunks & a & H1 & H2 & H3 & _).
  exists chunks, a. auto.
Defined.

(** X13.  Whatever fails, a stream request only appends to the messages:
    the rows that were there stay as they were and in their order, at
    most two rows are added, each under the conversation id and the
    model id of the request, the first of them being the user's message.
    No conversation row is added, removed or changed. *)
Theorem stream_only_appends_messages self db chat_request w :
  let r := generate_stream self db chat_request w in
  exists added,
    stored_messages (store (final r)) = stored_messages (store w) ++ added /\
    conversations (store (final r)) = conversations (store w) /\
    length added <= 2 /\
    Forall (fun m =>
              message_conversation_id m = request_conversation_id chat_request /\
              message_model_id m = Some (request_model_id chat_request))
           added /\
    match added with
    | [] => True
    | first :: _ =>
        message_role first = USER /\
        message_content first = request_message chat_request
    end.
Proof.
  cbv zeta. rewrite generate_stream_run. cbv zeta.
  set (u := new_row (request_conversation_id chat_request)
                    (user_data chat_request) w).
  assert (Hu : message_conversation_id u = request_conversation_id chat_request /\
               message_model_id u = Some (request_model_id chat_request))
    by (split; reflexivity).
  destruct (commit_fault db (store w) u) as [e|].
  { exists []. cbn [final]. rewrite app_nil_r. simpl. auto with arith. }
  destruct (refresh_fault db (store (inserted u w)) u) as [e|].
  { exists [u]. cbn [final inserted store stored_messages conversations length].
    repeat split; auto. }
  rewrite generation_phase_run. cbv zeta.
  destruct (response_run_extends self chat_request (inserted u w))
    as (added & Hs & _).
  set (r1 := response_run self chat_request (inserted u w)) in *.
  assert (Hkeep : exists added1,
            stored_messages (store (final r1)) =
              stored_messages (store w) ++ added1 /\
            conversations (store (final r1)) = conversations (store w) /\
            added1 = [u]).
  { exists [u]. rewrite Hs. auto. }
  destruct Hkeep as (added1 & Hm & Hc & ->).
  destruct (outcome r1) as [[]|e].
  2:{ exists [u]. cbn [final length]. repeat split; auto. }
  destruct (commit_fault db (store (final r1)) _) as [e|].
  { exists [u]. cbn [final length]. repeat split; auto. }
  eexists [u; _].
  cbn [final inserted store stored_messages conversations length].
  rewrite Hm, <- app_assoc. cbn [app].
  split; [reflexivity|]. split; [exact Hc|]. split; [auto|].
  split; [|split; reflexivity].
  repeat constructor; auto.
Qed.

(** ** The wire format of a stream *)

Lemma printable_ascii_app s1 s2 :
  printable_ascii (s1 +:+ s2) = printable_ascii s1 && printable_ascii s2.
Proof.
  induction s1 as [|c s1 IH]; [reflexivity|].
  change (String c s1 +:+ s2) with (String c (s1 +:+ s2)).
  cbn [printable_ascii]. rewrite IH, andb_assoc. reflexivity.
Qed.

Lemma escape_char_printable c : printable_ascii (Json.escape_char c) = true.
Proof. destruct c as [[] [] [] [] [] [] [] []]; vm_compute; reflexivity. Qed.

Lemma escape_printable s : printable_ascii (Json.escape s) = true.
Proof.
  induction s as [|c s IH]; [reflexivity|].
  cbn [Json.escape]. rewrite printable_ascii_app, escape_char_printable, IH.
  reflexivity.
Qed.

Lemma dumps_printable key value :
  printable_ascii key = true ->
  printable_ascii (Json.dumps key value) = true.
Proof.
  intros Hkey. unfold Json.dumps, Json.dumps_str.
  rewrite !printable_ascii_app, !escape_printable.
  assert (Hk : printable_ascii (Json.escape key) = true) by apply escape_printable.
  reflexivity.
Qed.

Lemma printable_no_newline s :
  printable_ascii s = true -> Py.contains Py.nl s = false.
Proof.
  induction s as [|c s IH]; [reflexivity|].
  cbn [printable_ascii]. intros [[Hlo Hhi]%andb_prop Hs]%andb_prop.
  cbn [Py.contains]. rewrite (IH Hs), orb_false_r.
  unfold Py.nl. cbn [String.prefix].
  destruct (Ascii.ascii_dec "010"%char c) as [<-|Hne]; [discriminate Hlo|].
  reflexivity.
Qed.

(** X14.  Every line of a stream is one frame: the prefix [data: ], a
    payload, and two newlines.  The payload is plain printable ASCII
    whatever text the model, the user or an exception put into it, so no
    newline and no other control or non-ASCII character occurs inside a
    frame. *)
Theorem every_stream_line_is_one_ascii_frame self db chat_request w :
  Forall (fun line =>
            exists payload,
              line = "data: " +:+ payload +:+ Py.nl +:+ Py.nl /\
              printable_ascii payload = true /\
              Py.contains Py.nl payload = false)
         (yielded (generate_stream self db chat_request w)).
Proof.
  assert (Hcontent : forall chunk,
    exists payload,
      sse_content chunk = "data: " +:+ payload +:+ Py.nl +:+ Py.nl /\
      printable_ascii payload = true /\ Py.contains Py.nl payload = false).
  { intros chunk. exists (Json.dumps "content" chunk).
    assert (H : printable_ascii (Json.dumps "content" chunk) = true)
      by (apply dumps_printable; reflexivity).
    auto using printable_no_newline. }
  assert (Herror : forall error_msg,
    exists payload,
      sse_error error_msg = "data: " +:+ payload +:+ Py.nl +:+ Py.nl /\
      printable_ascii payload = true /\ Py.contains Py.nl payload = false).
  { intros error_msg. exists (Json.dumps "error" error_msg).
    assert (H : printable_ascii (Json.dumps "error" error_msg) = true)
      by (apply dumps_printable; reflexivity).
    auto using printable_no_newline. }
  assert (Hdone :
    exists payload,
      sse_done = "data: " +:+ payload +:+ Py.nl +:+ Py.nl /\
      printable_ascii payload = true /\ Py.contains Py.nl payload = false).
  { exists "[DONE]". repeat split; reflexivity. }
  assert (Hlines : forall chunks,
    Forall (fun line =>
              exists payload,
                line = "data: " +:+ payload +:+ Py.nl +:+ Py.nl /\
                printable_ascii payload = true /\
                Py.contains Py.nl payload = false)
           (map sse_content chunks)).
  { intros chunks. induction chunks; constructor; auto. }
  rewrite generate_stream_run. cbv zeta.
  destruct (commit_fault db (store w) _) as [e|]; [repeat constructor; auto|].
  destruct (refresh_fault db _ _) as [e|]; [repeat constructor; auto|].
  rewrite generation_phase_run. cbv zeta.
  destruct (outcome (response_run _ _ _)) as [[]|e].
  2:{ cbn [yielded]. apply Forall_app. split; [auto|repeat constructor; auto]. }
  destruct (commit_fault db _ _) as [e|].
  { cbn [yielded]. apply Forall_app. split; [auto|repeat constructor; auto]. }
  cbn [yielded]. apply Forall_app. split; [auto|].
  destruct (refresh_fault db _ _); repeat constructor; auto.
Qed.

(** * Further properties of the browser side *)

(** ** Lines and frames *)

(** A frame on the wire. *)
Lemma sse_content_frame chunk :
  sse_content chunk =
  "data: " +:+ Json.dumps "content" chunk +:+ Py.nl +:+ Py.nl.
Proof. reflexivity. Qed.

Lemma no_newline_cons c s :
  Py.contains Py.nl (String c s) = false ->
  Ascii.eqb c "010" = false /\ Py.contains Py.nl s = false.
Proof.
  cbn [Py.contains]. intros [Hp Hs]%orb_false_elim. split; [|exact Hs].
  destruct (Ascii.eqb_spec c "010") as [->|]; [|reflexivity].
  destruct s; discriminate Hp.
Qed.

Lemma split_line line rest :
  Py.contains Py.nl line = false ->
  Js.split "010" (line +:+ Py.nl +:+ rest) = line :: Js.split "010" rest.
Proof.
  induction line as [|c line IH]; intros Hline.
  - reflexivity.
  - apply no_newline_cons in Hline as [Hc Hline].
    rewrite append_cons. cbn [Js.split]. rewrite Hc, (IH Hline). reflexivity.
Qed.

Lemma frame_app payload rest :
  ("data: " +:+ payload +:+ Py.nl +:+ Py.nl) +:+ rest =
  ("data: " +:+ payload) +:+ Py.nl +:+ ("" +:+ Py.nl +:+ rest).
Proof. rewrite !append_assoc. reflexivity. Qed.

Lemma data_line_no_newline payload :
  Py.contains Py.nl payload = false ->
  Py.contains Py.nl ("data: " +:+ payload) = false.
Proof. intros H. rewrite !append_cons. cbn. exact H. Qed.


Lemma prefix_append p s : String.prefix p (p +:+ s) = true.
Proof.
  induction p as [|c p IH]; [destruct s; reflexivity|].
  rewrite append_cons. cbn [String.prefix].
  destruct (ascii_dec c c); [exact IH|congruence].
Qed.

Lemma slice_append p s : Js.slice (String.length p) (p +:+ s) = s.
Proof. induction p as [|c p IH]; [destruct s; reflexivity|exact IH]. Qed.

Section Decoding.

Variable JSON_parse : string -> result Js.Value.

Lemma for_lines_app lines1 lines2 :
  for_lines JSON_parse (lines1 ++ lines2) =
  let '(events, returned) := for_lines JSON_parse lines1 in
  if returned then (events, true)
  else
    let '(events', returned') := for_lines JSON_parse lines2 in
    (events ++ events', returned').
Proof.
  induction lines1 as [|line lines1 IH]; cbn [app for_lines].
  - destruct (for_lines JSON_parse lines2); reflexivity.
  - destruct (on_line JSON_parse line) as [ev [|]]; [reflexivity|].
    rewrite IH. destruct (for_lines JSON_parse lines1) as [ev1 [|]];
      [reflexivity|].
    destruct (for_lines JSON_parse lines2) as [ev2 r2].
    rewrite app_assoc. reflexivity.
Qed.

Lemma while_reads_app reads1 reads2 :
  while_reads JSON_parse (reads1 ++ reads2) =
  let '(events, returned) := while_reads JSON_parse reads1 in
  if returned then (events, true)
  else
    let '(events', returned') := while_reads JSON_parse reads2 in
    (events ++ events', returned').
Proof.
  induction reads1 as [|chunk reads1 IH]; cbn [app while_reads].
  - destruct (while_reads JSON_parse reads2); reflexivity.
  - cbv zeta. destruct (for_lines JSON_parse _) as [ev [|]]; [reflexivity|].
    rewrite IH. destruct (while_reads JSON_parse reads1) as [ev1 [|]];
      [reflexivity|].
    destruct (while_reads JSON_parse reads2) as [ev2 r2].
    rewrite app_assoc. reflexivity.
Qed.

(** The lines of a read that holds whole frames: per frame its data
    line and an empty line, and one more empty line at the end. *)
Lemma split_frames payloads :
  Forall (fun payload => Py.contains Py.nl payload = false) payloads ->
  Js.split "010"
    (Py.concat_str
       (map (fun payload => "data: " +:+ payload +:+ Py.nl +:+ Py.nl) payloads)) =
  flat_map (fun payload => ["data: " +:+ payload; ""]) payloads ++ [""].
Proof.
  induction 1 as [|payload payloads Hp _ IH]; [reflexivity|].
  cbn [map Py.concat_str flat_map app].
  rewrite frame_app, split_line by (apply data_line_no_newline; exact Hp).
  rewrite split_line by reflexivity.
  rewrite IH. reflexivity.
Qed.

Lemma on_data_line payload :
  on_line JSON_parse ("data: " +:+ payload) =
  if String.eqb payload "[DONE]" then ([], true)
  else
    match JSON_parse payload with
    | Ok parsed =>
        match Js.content_of parsed with
        | Ok chunk => ([Yielded chunk], false)
        | Raise e => ([ConsoleError e], false)
        end
    | Raise e => ([ConsoleError e], false)
    end.
Proof.
  unfold on_line, Js.startsWith. rewrite prefix_append.
  change 6 with (String.length "data: "). rewrite slice_append. reflexivity.
Qed.

Lemma for_lines_frames payloads :
  for_lines JSON_parse
    (flat_map (fun payload => ["data: " +:+ payload; ""]) payloads ++ [""]) =
  for_lines JSON_parse (map (fun payload => "data: " +:+ payload) payloads).
Proof.
  induction payloads as [|payload payloads IH]; [reflexivity|].
  cbn [flat_map map app for_lines].
  destruct (on_line JSON_parse ("data: " +:+ payload)) as [ev [|]];
    [reflexivity|].
  change (on_line JSON_parse "") with (@nil ClientEvent, false).
  cbv iota beta. cbn [app] in IH. rewrite IH.
  destruct (for_lines JSON_parse
              (map (fun payload => "data: " +:+ payload) payloads))
    as [ev' r'].
  reflexivity.
Qed.

(** Reads that hold whole frames are decoded as the sequence of all
    their frames, however the frames are grouped into reads. *)
Lemma while_reads_whole_frames (groups : list (list string)) :
  Forall (Forall (fun payload => Py.contains Py.nl payload = false)) groups ->
  while_reads JSON_parse
    (map (fun group =>
            Py.concat_str
              (map (fun payload => "data: " +:+ payload +:+ Py.nl +:+ Py.nl)
                   group))
         groups) =
  for_lines JSON_parse
    (map (fun payload => "data: " +:+ payload) (concat groups)).
Proof.
  induction 1 as [|group groups Hg _ IH]; [reflexivity|].
  cbn [map while_reads concat]. cbv zeta.
  rewrite (split_frames _ Hg), for_lines_frames, map_app, for_lines_app.
  destruct (for_lines JSON_parse (map _ group)) as [ev [|]]; [reflexivity|].
  rewrite IH. reflexivity.
Qed.

Lemma groups_of_frames {A B} (f : A -> B) (groups : list (list B)) :
  forall items,
    concat groups = map f items ->
    exists parts, groups = map (map f) parts /\ concat parts = items.
Proof.
  induction groups as [|group groups IH]; intros items Heq.
  - exists []. destruct items; [auto|discriminate Heq].
  - cbn [concat] in Heq. symmetry in Heq.
    apply map_eq_app in Heq as (l1 & l2 & -> & <- & H2).
    destruct (IH l2 (eq_sym H2)) as (parts & -> & <-).
    exists (l1 :: parts). auto.
Qed.

Lemma for_lines_content chunks rest :
  Forall (fun chunk =>
            JSON_parse (Json.dumps "content" chunk) = Ok (content_object chunk))
         chunks ->
  for_lines JSON_parse
    (map (fun payload => "data: " +:+ payload)
         (map (Json.dumps "content") chunks) ++ rest) =
  let '(events, returned) := for_lines JSON_parse rest in
  (map (fun chunk => Yielded (Js.Str chunk)) chunks ++ events, returned).
Proof.
  induction 1 as [|chunk chunks Hc _ IH].
  - cbn [map app]. destruct (for_lines JSON_parse rest); reflexivity.
  - cbn [map app for_lines]. rewrite on_data_line, Hc.
    change (String.eqb (Json.dumps "content" chunk) "[DONE]") with false.
    cbv iota. cbn [content_object Js.content_of Js.property].
    change (String.eqb "content" "content") with true. cbv iota.
    rewrite IH. destruct (for_lines JSON_parse rest). reflexivity.
Qed.

End Decoding.

Lemma forall_concat_parts {A} (P : A -> Prop) (parts : list (list A)) :
  Forall P (concat parts) -> Forall (Forall P) parts.
Proof.
  induction parts as [|part parts IH]; [constructor|].
  cbn [concat]. intros [H1 H2]%Forall_app. constructor; auto.
Qed.

Lemma dumps_no_newline key value :
  printable_ascii key = true ->
  Py.contains Py.nl (Json.dumps key value) = false.
Proof. intros H. apply printable_no_newline, dumps_printable, H. Qed.

Lemma full_content_fold chunks init :
  fold_left (fun fullContent chunk => fullContent +:+ Js.to_string chunk)
            chunks init =
  init +:+ Py.concat_str (map Js.to_string chunks).
Proof.
  revert init. induction chunks as [|x chunks IH]; intros init;
    cbn [fold_left map Py.concat_str].
  - rewrite append_nil_r. reflexivity.
  - rewrite IH, append_assoc. reflexivity.
Qed.

Lemma received_yielded chunks more :
  flat_map (fun event =>
              match event with
              | Yielded chunk => [chunk]
              | ConsoleError _ => []
              end)
           (map (fun chunk => Yielded (Js.Str chunk)) chunks ++ more) =
  map Js.Str chunks ++
  flat_map (fun event =>
              match event with
              | Yielded chunk => [chunk]
              | ConsoleError _ => []
              end) more.
Proof. induction chunks as [|c chunks IH]; [reflexivity|]. cbn. rewrite IH. reflexivity. Qed.

Lemma to_string_strs chunks : map Js.to_string (map Js.Str chunks) = chunks.
Proof. induction chunks as [|c chunks IH]; [reflexivity|]. cbn [map]. rewrite IH. reflexivity. Qed.

(** The reads of a stream whose frames arrive whole: the content frames
    of [chunks], then the frame of [terminal]. *)
Lemma while_reads_stream JSON_parse chunks terminal groups :
  Forall (fun chunk =>
            JSON_parse (Json.dumps "content" chunk) = Ok (content_object chunk))
         chunks ->
  Py.contains Py.nl terminal = false ->
  concat groups =
    map sse_content chunks ++ ["data: " +:+ terminal +:+ Py.nl +:+ Py.nl] ->
  while_reads JSON_parse (map Py.concat_str groups) =
  let '(events, returned) := on_line JSON_parse ("data: " +:+ terminal) in
  (map (fun chunk => Yielded (Js.Str chunk)) chunks ++ events, returned).
Proof.
  intros Hparse Hterminal Hgroups.
  assert (Hframes :
    concat groups =
    map (fun payload => "data: " +:+ payload +:+ Py.nl +:+ Py.nl)
        (map (Json.dumps "content") chunks ++ [terminal])).
  { rewrite Hgroups, map_app, map_map. reflexivity. }
  apply groups_of_frames in Hframes as (parts & -> & Hparts).
  rewrite map_map.
  rewrite while_reads_whole_frames.
  2:{ apply forall_concat_parts. rewrite Hparts. apply Forall_app. split.
      - apply Forall_map. apply Forall_forall. intros chunk _.
        apply dumps_no_newline. reflexivity.
      - constructor; [exact Hterminal|constructor]. }
  rewrite Hparts, map_app, (for_lines_content _ _ _ Hparse).
  cbn [map for_lines].
  destruct (on_line JSON_parse ("data: " +:+ terminal)) as [ev [|]];
    [reflexivity|].
  rewrite app_nil_r. reflexivity.
Qed.

Lemma decode_finished_stream
    JSON_parse chunks groups later read_error status :
  Forall (fun chunk =>
            JSON_parse (Json.dumps "content" chunk) = Ok (content_object chunk))
         chunks ->
  concat groups = map sse_content chunks ++ [sse_done] ->
  let response :=
    {| response_ok := true; response_status := status;
       response_body :=
         Some {| events := map Py.concat_str groups ++ later;
                 failure := read_error |} |} in
  let run := streamChatResponse JSON_parse (Ok response) in
  client_events run = map (fun chunk => Yielded (Js.Str chunk)) chunks /\
  thrown run = None /\
  released run = true /\
  fullContent (received run) = Py.concat_str chunks.
Proof.
  intros Hparse Hgroups. cbv zeta.
  unfold streamChatResponse.
  cbn [response_ok response_body negb events failure].
  rewrite while_reads_app.
  rewrite (while_reads_stream JSON_parse chunks "[DONE]" groups Hparse eq_refl Hgroups).
  rewrite on_data_line. change (String.eqb "[DONE]" "[DONE]") with true.
  cbv iota. rewrite app_nil_r.
  unfold received, fullContent. cbn [client_events thrown released].
  split; [reflexivity|]. split; [reflexivity|]. split; [reflexivity|].
  rewrite <- (app_nil_r (map _ chunks)), received_yielded.
  cbn [flat_map]. rewrite app_nil_r, full_content_fold, to_string_strs.
  reflexivity.
Qed.

(** X15.  Let the frames of a finished stream reach the client whole,
    in any grouping into reads, and let [JSON.parse] turn each content
    payload into its object.  Then the client yields exactly the chunks
    that were sent, in order, logs nothing, returns at the done frame
    without reading further, and releases the reader; the text that the
    hook accumulates is the concatenation of the chunks. *)
Theorem whole_frames_are_decoded_to_the_chunks
    JSON_parse chunks groups later read_error status :
  Forall (fun chunk =>
            JSON_parse (Json.dumps "content" chunk) = Ok (content_object chunk))
         chunks ->
  concat groups = map sse_content chunks ++ [sse_done] ->
  let response :=
    {| response_ok := true; response_status := status;
       response_body :=
         Some {| events := map Py.concat_str groups ++ later;
                 failure := read_error |} |} in
  let run := streamChatResponse JSON_parse (Ok response) in
  client_events run = map (fun chunk => Yielded (Js.Str chunk)) chunks /\
  thrown run = None /\
  released run = true /\
  fullContent (received run) = Py.concat_str chunks.
Proof.
  exact (decode_finished_stream JSON_parse chunks groups later read_error status).
Qed.

(** Two chunks whose three frames arrive in two reads. *)
Lemma whole_frames_are_decoded_to_the_chunks_witness :
  let chunks := ["Hello"; " there"] in
  let groups := [[sse_content "Hello"]; [sse_content " there"; sse_done]] in
  Forall (fun chunk =>
            SampleBrowser.JSON_parse (Json.dumps "content" chunk) =
            Ok (content_object chunk))
         chunks /\
  concat groups = map sse_content chunks ++ [sse_done] /\
  fullContent
    (received
       (streamChatResponse SampleBrowser.JSON_parse
          (SampleBrowser.response (map Py.concat_str groups)))) =
  "Hello there".
Proof.
  cbv zeta.
  assert (Hparse :
    Forall (fun chunk =>
              SampleBrowser.JSON_parse (Json.dumps "content" chunk) =
              Ok (content_object chunk))
           ["Hello"; " there"]) by (repeat constructor).
  split; [exact Hparse|]. split; [reflexivity|].
  pose proof (whole_frames_are_decoded_to_the_chunks
                SampleBrowser.JSON_parse ["Hello"; " there"]
                [[sse_content "Hello"]; [sse_content " there"; sse_done]]
                [] None 200 Hparse eq_refl) as H.
  cbv zeta in H. rewrite app_nil_r in H.
  exact (proj2 (proj2 (proj2 H))).
Defined.

(** X16.  An error frame is not an error at the client.  Its payload
    parses to an object without a content entry, so the client yields
    [undefined] for it, logs nothing and throws nothing, and the
    generator ends normally; the hook's text ends with the word
    undefined, and the error message is shown nowhere. *)
Theorem error_frame_reaches_the_user_as_undefined
    JSON_parse chunks error_msg groups status :
  Forall (fun chunk =>
            JSON_parse (Json.dumps "content" chunk) = Ok (content_object chunk))
         chunks ->
  JSON_parse (Json.dumps "error" error_msg) = Ok (error_object error_msg) ->
  concat groups = map sse_content chunks ++ [sse_error error_msg] ->
  let response :=
    {| response_ok := true; response_status := status;
       response_body :=
         Some {| events := map Py.concat_str groups; failure := None |} |} in
  let run := streamChatResponse JSON_parse (Ok response) in
  client_events run =
    map (fun chunk => Yielded (Js.Str chunk)) chunks ++ [Yielded Js.Undefined] /\
  thrown run = None /\
  fullContent (received run) = Py.concat_str chunks +:+ "undefined".
Proof.
  intros Hparse Herror Hgroups. cbv zeta.
  unfold streamChatResponse.
  cbn [response_ok response_body negb events failure].
  rewrite (while_reads_stream JSON_parse chunks (Json.dumps "error" error_msg)
             groups Hparse (dumps_no_newline "error" error_msg eq_refl) Hgroups).
  rewrite on_data_line, Herror.
  change (String.eqb (Json.dumps "error" error_msg) "[DONE]") with false.
  cbv iota. cbn [error_object Js.content_of Js.property].
  change (String.eqb "error" "content") with false. cbv iota.
  unfold received, fullContent. cbn [client_events thrown].
  split; [reflexivity|]. split; [reflexivity|].
  rewrite received_yielded. cbn [flat_map app].
  rewrite full_content_fold, map_app, to_string_strs, concat_str_app.
  cbn [map Js.to_string Py.concat_str]. reflexivity.
Qed.

(** Hello, then an error frame. *)
Lemma error_frame_reaches_the_user_as_undefined_witness :
  let groups := [[sse_content "Hello"; sse_error "Error: connection reset"]] in
  Forall (fun chunk =>
            SampleBrowser.JSON_parse (Json.dumps "content" chunk) =
            Ok (content_object chunk))
         ["Hello"] /\
  SampleBrowser.JSON_parse (Json.dumps "error" "Error: connection reset") =
    Ok (error_object "Error: connection reset") /\
  fullContent
    (received
       (streamChatResponse SampleBrowser.JSON_parse
          (SampleBrowser.response (map Py.concat_str groups)))) =
  "Helloundefined".
Proof.
  cbv zeta.
  assert (Hparse :
    Forall (fun chunk =>
              SampleBrowser.JSON_parse (Json.dumps "content" chunk) =
              Ok (content_object chunk))
           ["Hello"]) by (repeat constructor).
  split; [exact Hparse|]. split; [reflexivity|].
  exact (proj2 (proj2 (error_frame_reaches_the_user_as_undefined
                         SampleBrowser.JSON_parse ["Hello"]
                         "Error: connection reset"
                         [[sse_content "Hello";
                           sse_error "Error: connection reset"]]
                         200 Hparse eq_refl eq_refl))).
Defined.

Lemma split_no_newline s :
  Py.contains Py.nl s = false -> Js.split "010" s = [s].
Proof.
  induction s as [|c s IH]; [reflexivity|].
  intros [Hc Hs]%no_newline_cons. cbn [Js.split]. rewrite Hc, (IH Hs).
  reflexivity.
Qed.

(** X17.  The client decodes each read on its own.  When a read ends
    inside the payload of a frame, the first part fails to parse and is
    logged to the console, the rest is not taken for a data line, and
    nothing is yielded for the frame: its chunk is lost. *)
Theorem frame_cut_by_a_read_is_lost JSON_parse head tail e status :
  Py.contains Py.nl head = false ->
  Py.contains Py.nl tail = false ->
  String.eqb head "[DONE]" = false ->
  JSON_parse head = Raise e ->
  Js.startsWith tail "data: " = false ->
  let response :=
    {| response_ok := true; response_status := status;
       response_body :=
         Some {| events := ["data: " +:+ head; tail +:+ Py.nl +:+ Py.nl];
                 failure := None |} |} in
  let run := streamChatResponse JSON_parse (Ok response) in
  ("data: " +:+ head) +:+ (tail +:+ Py.nl +:+ Py.nl) =
    "data: " +:+ (head +:+ tail) +:+ Py.nl +:+ Py.nl /\
  client_events run = [ConsoleError e] /\
  received run = [] /\
  thrown run = None.
Proof.
  intros Hhead Htail Hdone Hparse Hdata. cbv zeta.
  split; [rewrite !append_assoc; reflexivity|].
  unfold received, streamChatResponse.
  cbn [response_ok response_body negb events failure while_reads]. cbv zeta.
  rewrite (split_no_newline _ (data_line_no_newline _ Hhead)).
  change (tail +:+ Py.nl +:+ Py.nl) with (tail +:+ Py.nl +:+ ("" +:+ Py.nl +:+ "")).
  rewrite (split_line _ _ Htail), (split_line "" "" eq_refl).
  cbn [for_lines]. rewrite on_data_line, Hdone, Hparse.
  assert (Htl : on_line JSON_parse tail = ([], false))
    by (unfold on_line; rewrite Hdata; reflexivity).
  rewrite Htl. cbn. auto.
Qed.

(** The frame of Hello, cut after Hel. *)
Lemma frame_cut_by_a_read_is_lost_witness :
  let head := "{" +:+ Py.dquote +:+ "content" +:+ Py.dquote +:+ ": " +:+
              Py.dquote +:+ "Hel" in
  let tail := "lo" +:+ Py.dquote +:+ "}" in
  Py.contains Py.nl head = false /\
  Py.contains Py.nl tail = false /\
  String.eqb head "[DONE]" = false /\
  SampleBrowser.JSON_parse head = Raise SampleBrowser.syntax_error /\
  Js.startsWith tail "data: " = false /\
  ("data: " +:+ head) +:+ (tail +:+ Py.nl +:+ Py.nl) = sse_content "Hello" /\
  received
    (streamChatResponse SampleBrowser.JSON_parse
       (SampleBrowser.response ["data: " +:+ head; tail +:+ Py.nl +:+ Py.nl])) = [].
Proof.
  cbv zeta. repeat (split; [reflexivity|]).
  exact (proj1 (proj2 (proj2
           (frame_cut_by_a_read_is_lost SampleBrowser.JSON_parse
              ("{" +:+ Py.dquote +:+ "content" +:+ Py.dquote +:+ ": " +:+
               Py.dquote +:+ "Hel")
              ("lo" +:+ Py.dquote +:+ "}")
              SampleBrowser.syntax_error 200
              eq_refl eq_refl eq_refl eq_refl eq_refl)))).
Defined.

(** ** Server and client together *)

Lemma finished_stream_closed_form self db chat_request w :
  let u := new_row (request_conversation_id chat_request)
                   (user_data chat_request) w in
  let r := generate_stream self db chat_request w in
  let r1 := response_run self chat_request (inserted u w) in
  last (yielded r) = Some sse_done ->
  yielded r = map sse_content (yielded r1) ++ [sse_done] /\
  stored_messages (store (final r)) =
    stored_messages (store w) ++
    [u; new_row (request_conversation_id chat_request)
          (assistant_data chat_request (accumulated (yielded r1))) (final r1)].
Proof.
  cbv zeta. rewrite generate_stream_run. cbv zeta.
  set (u := new_row (request_conversation_id chat_request)
                    (user_data chat_request) w).
  destruct (commit_fault db (store w) u) as [e|].
  { cbn [yielded]. intros H%(last_snoc_inv []).
    destruct (sse_done_not_error _ (eq_sym H)). }
  destruct (refresh_fault db (store (inserted u w)) u) as [e|].
  { cbn [yielded]. intros H%(last_snoc_inv []).
    destruct (sse_done_not_error _ (eq_sym H)). }
  rewrite generation_phase_run. cbv zeta.
  destruct (response_run_extends self chat_request (inserted u w))
    as (added & Hs & _).
  set (r1 := response_run self chat_request (inserted u w)) in *.
  destruct (outcome r1) as [[]|e].
  2:{ cbn [yielded]. intros H%last_snoc_inv.
      destruct (sse_done_not_error _ (eq_sym H)). }
  destruct (commit_fault db (store (final r1)) _) as [e|].
  { cbn [yielded]. intros H%last_snoc_inv.
    destruct (sse_done_not_error _ (eq_sym H)). }
  destruct (refresh_fault db _ _) as [e|].
  { cbn [yielded]. intros H%last_snoc_inv.
    destruct (sse_done_not_error _ (eq_sym H)). }
  intros _. cbn [yielded final]. split; [reflexivity|].
  cbn [inserted store stored_messages]. rewrite Hs.
  cbn [inserted store stored_messages]. rewrite <- app_assoc. reflexivity.
Qed.

(** X18.  Server and client together: when a stream ends with the done
    frame and its frames reach the client whole, the text that the hook
    has accumulated at the end is the content of the assistant message
    that the server stored for the request. *)
Theorem client_text_is_the_stored_answer
    self db chat_request w JSON_parse groups status :
  let u := new_row (request_conversation_id chat_request)
                   (user_data chat_request) w in
  let r := generate_stream self db chat_request w in
  let response :=
    {| response_ok := true; response_status := status;
       response_body :=
         Some {| events := map Py.concat_str groups; failure := None |} |} in
  let run := streamChatResponse JSON_parse (Ok response) in
  last (yielded r) = Some sse_done ->
  Forall (fun chunk =>
            JSON_parse (Json.dumps "content" chunk) = Ok (content_object chunk))
         (yielded (response_run self chat_request (inserted u w))) ->
  concat groups = yielded r ->
  exists a,
    stored_messages (store (final r)) = stored_messages (store w) ++ [u; a] /\
    message_role a = ASSISTANT /\
    fullContent (received run) = message_content a /\
    thrown run = None.
Proof.
  cbv zeta. intros Hdone Hparse Hgroups.
  destruct (finished_stream_closed_form self db chat_request w Hdone)
    as (Hlines & Hstored).
  rewrite Hlines in Hgroups.
  destruct (decode_finished_stream JSON_parse _ groups [] None status
              Hparse Hgroups) as (_ & Hthrown & _ & Htext).
  rewrite app_nil_r in Hthrown, Htext.
  eexists. split; [exact Hstored|]. split; [reflexivity|].
  split; [|exact Hthrown].
  rewrite Htext.
  cbn [new_row assistant_data message_content content].
  rewrite accumulated_concat. reflexivity.
Qed.

(** The sample service answers Hello, there; every frame arrives in a
    read of its own. *)
Lemma client_text_is_the_stored_answer_witness :
  let self := Sample.service Sample.hello_there in
  let chat_request := Sample.request "Hi" "gpt-4" in
  let r := generate_stream self Sample.healthy_db chat_request Sample.world0 in
  let groups := map (fun line => [line]) (yielded r) in
  last (yielded r) = Some sse_done /\
  concat groups = yielded r /\
  exists a,
    stored_messages (store (final r)) =
      stored_messages (store Sample.world0) ++
      [new_row 1 (user_data chat_request) Sample.world0; a] /\
    fullContent
      (received
         (streamChatResponse SampleBrowser.JSON_parse
            (SampleBrowser.response (map Py.concat_str groups)))) =
    message_content a.
Proof.
  cbv zeta. split; [reflexivity|]. split; [reflexivity|].
  destruct (client_text_is_the_stored_answer
              (Sample.service Sample.hello_there) Sample.healthy_db
              (Sample.request "Hi" "gpt-4") Sample.world0
              SampleBrowser.JSON_parse
              (map (fun line => [line])
                   (yielded (generate_stream (Sample.service Sample.hello_there)
                               Sample.healthy_db (Sample.request "Hi" "gpt-4")
                               Sample.world0)))
              200 eq_refl)
    as (a & Hstored & _ & Htext & _).
  - vm_compute. repeat constructor.
  - reflexivity.
  - exists a. split; [exact Hstored|exact Htext].
Defined.

(** * Further properties of the external services *)

(** ** Parsing search results *)

Lemma and_then_ok {A B} (r : result A) (k : A -> result B) a :
  r = Ok a -> and_then r k = k a.
Proof. intros ->. reflexivity. Qed.

Lemma web_entry_accepted item :
  is_web_result item = true ->
  BraveSearchService.web_entry item = Ok (web_result item).
Proof.
  destruct item as [| | | | | |entries]; try discriminate.
  unfold is_web_result, BraveSearchService.web_entry, web_result.
  cbn [PyObject.get and_then field].
  destruct (PyObject.lookup "profile" entries) as [[| | | | | |profile]|];
    try discriminate; reflexivity.
Qed.

Lemma web_entry_rejected item :
  is_web_result item = false ->
  exists e, BraveSearchService.web_entry item = Raise e.
Proof.
  unfold is_web_result, BraveSearchService.web_entry.
  destruct item as [| | | | | |entries]; try (eexists; reflexivity).
  cbn [PyObject.get and_then].
  destruct (PyObject.lookup "profile" entries) as [[| | | | | |profile]|];
    try discriminate; eexists; reflexivity.
Qed.

Lemma append_each_ok {A B} (body : A -> result B) (f : A -> B) items :
  Forall (fun item => body item = Ok (f item)) items ->
  append_each items body = Ok (map f items).
Proof.
  induction 1 as [|item items Hitem _ IH]; [reflexivity|].
  cbn [append_each map]. rewrite Hitem. cbn [and_then]. rewrite IH.
  reflexivity.
Qed.

Lemma append_each_raises {A B} (body : A -> result B) items bad :
  In bad items ->
  (exists e, body bad = Raise e) ->
  exists e, append_each items body = Raise e.
Proof.
  intros Hin [e He]. induction items as [|item items IH]; [destruct Hin|].
  cbn [append_each]. destruct Hin as [->|Hin].
  - rewrite He. eexists; reflexivity.
  - destruct (body item); [|eexists; reflexivity].
    cbn [and_then]. destruct (IH Hin) as [e' ->]. eexists; reflexivity.
Qed.

Lemma parse_search_results_listed entries items :
  listed_results entries = Some items ->
  BraveSearchService._parse_search_results (PyDict entries) =
  append_each items BraveSearchService.web_entry.
Proof.
  unfold listed_results, BraveSearchService._parse_search_results.
  cbn [PyObject.contains PyObject.getitem and_then].
  destruct (PyObject.lookup "web" entries) as [[| | | | | |web]|];
    try discriminate.
  2:{ intros [= <-]. reflexivity. }
  cbn [PyObject.contains PyObject.getitem and_then].
  destruct (PyObject.lookup "results" web) as [[| | | | |found|]|];
    try discriminate; intros [= <-]; reflexivity.
Qed.

(** X19.  Parsing a search response: for a body that lists its results
    under web, results, each a dictionary (with a dictionary as profile
    if it has one), the parser returns one dictionary per result, in the
    order of the body, with exactly the keys title, description, url,
    published and source; published is the result's age, source the name
    in its profile, and a missing field is the empty string.  A body
    without web, or whose web has no results, gives the empty list. *)
Theorem search_results_are_parsed_one_to_one entries items :
  listed_results entries = Some items ->
  forallb is_web_result items = true ->
  BraveSearchService._parse_search_results (PyDict entries) =
    Ok (map web_result items) /\
  Forall (fun parsed =>
            exists fields,
              parsed = PyDict fields /\
              keys fields =
                ["title"; "description"; "url"; "published"; "source"])
         (map web_result items).
Proof.
  intros Hlisted Hitems. split.
  - rewrite (parse_search_results_listed _ _ Hlisted).
    apply append_each_ok. apply List.Forall_forall. intros item Hin.
    apply web_entry_accepted.
    rewrite List.forallb_forall in Hitems. auto.
  - apply List.Forall_forall. intros parsed (item & <- & _)%List.in_map_iff.
    eexists. split; reflexivity.
Qed.

(** A body with one result that has a profile and one that has not. *)
Lemma search_results_are_parsed_one_to_one_witness :
  let first :=
    PyDict [("title", PyStr "Bitcoin today"); ("url", PyStr "https://a.example");
            ("age", PyStr "2 hours ago");
            ("profile", PyDict [("name", PyStr "A News")])] in
  let second := PyDict [("title", PyStr "Markets")] in
  let entries := [("web", PyDict [("results", PyList [first; second])])] in
  listed_results entries = Some [first; second] /\
  forallb is_web_result [first; second] = true /\
  BraveSearchService._parse_search_results (PyDict entries) =
    Ok [ PyDict [("title", PyStr "Bitcoin today"); ("description", PyStr "");
                 ("url", PyStr "https://a.example");
                 ("published", PyStr "2 hours ago");
                 ("source", PyStr "A News")];
         PyDict [("title", PyStr "Markets"); ("description", PyStr "");
                 ("url", PyStr ""); ("published", PyStr "");
                 ("source", PyStr "")] ].
Proof.
  cbv zeta. split; [reflexivity|]. split; [reflexivity|].
  exact (proj1 (search_results_are_parsed_one_to_one
                  [("web",
                    PyDict
                      [("results",
                        PyList
                          [PyDict [("title", PyStr "Bitcoin today");
                                   ("url", PyStr "https://a.example");
                                   ("age", PyStr "2 hours ago");
                                   ("profile",
                                    PyDict [("name", PyStr "A News")])];
                           PyDict [("title", PyStr "Markets")]])])]
                  [PyDict [("title", PyStr "Bitcoin today");
                           ("url", PyStr "https://a.example");
                           ("age", PyStr "2 hours ago");
                           ("profile", PyDict [("name", PyStr "A News")])];
                   PyDict [("title", PyStr "Markets")]]
                  eq_refl eq_refl)).
Defined.

(** ** The search request *)

Lemma search_run {Y} self query count country search_lang ui_lang w :
  BraveSearchService.search (Y:=Y) self query count country search_lang ui_lang w =
  match ClientSession (BraveSearchService.aiohttp self) with
  | Raise e => MkRun [] (Raise e) w
  | Ok _ =>
      match web_search_response self query count country search_lang ui_lang with
      | Raise e =>
          MkRun [] (Ok [])
                (logged (Printed ("Brave Search request failed: " +:+ str e)) w)
      | Ok response =>
          if (status response =? 200)%nat then
            match json response with
            | Raise e =>
                MkRun [] (Ok [])
                  (logged (Printed ("Brave Search request failed: " +:+ str e)) w)
            | Ok data =>
                match BraveSearchService._parse_search_results data with
                | Raise e =>
                    MkRun [] (Ok [])
                      (logged (Printed ("Brave Search request failed: " +:+
                                        str e)) w)
                | Ok results => MkRun [] (Ok results) w
                end
            end
          else
            MkRun [] (Ok [])
              (logged (Printed ("Brave Search API error: " +:+
                                pretty (status response))) w)
      end
  end.
Proof.
  unfold BraveSearchService.search, web_search_response.
  rewrite bind_run.
  destruct (ClientSession (BraveSearchService.aiohttp self)) as [[]|e];
    [|reflexivity].
  cbn [await ret yielded outcome final app].
  rewrite try_except_run, bind_run.
  destruct (session_get _ _ _ _) as [response|e]; [|reflexivity].
  cbn [await ret yielded outcome final app].
  destruct (status response =? 200)%nat; [|reflexivity].
  rewrite bind_run.
  destruct (json response) as [data|e]; [|reflexivity].
  cbn [await ret yielded outcome final app].
  destruct (BraveSearchService._parse_search_results data); reflexivity.
Qed.

(** X20.  Once the client session is entered, [search] never raises and
    never fails loudly: it returns a list, leaves the store alone and
    prints at most one line.  A result list that is not empty can only
    be the parsed body of a response with status 200, and then nothing
    is printed; a request that fails, a status other than 200, a body
    that is not JSON and a body that cannot be parsed all give the empty
    list. *)
Theorem search_returns_the_parsed_body_or_nothing
    (Y : Type) self query count country search_lang ui_lang w :
  ClientSession (BraveSearchService.aiohttp self) = Ok tt ->
  let r := BraveSearchService.search (Y:=Y) self query count
             country search_lang ui_lang w in
  exists results printed,
    outcome r = Ok results /\
    yielded r = [] /\
    extends_by (map Printed printed) w (final r) /\
    length printed <= 1 /\
    (results <> [] ->
     printed = [] /\
     exists data,
       body_of (web_search_response self query count
                  country search_lang ui_lang) = Some data /\
       BraveSearchService._parse_search_results data = Ok results).
Proof.
  intros Hsession. cbv zeta. rewrite search_run, Hsession.
  unfold body_of, extends_by.
  destruct (web_search_response _ _ _ _ _ _) as [response|e].
  2:{ eexists [], [_]. cbn.
      repeat split; try reflexivity; auto; congruence. }
  destruct (status response =? 200)%nat.
  2:{ eexists [], [_]. cbn.
      repeat split; try reflexivity; auto; congruence. }
  destruct (json response) as [data|e].
  2:{ eexists [], [_]. cbn.
      repeat split; try reflexivity; auto; congruence. }
  destruct (BraveSearchService._parse_search_results data) as [results|e]
    eqn:Hparse.
  2:{ eexists [], [_]. cbn.
      repeat split; try reflexivity; auto; congruence. }
  exists results, []. cbn. rewrite app_nil_r.
  split; [reflexivity|]. split; [reflexivity|]. split; [auto|].
  split; [auto|]. intros _. split; [reflexivity|].
  exists data. split; [reflexivity|exact Hparse].
Qed.

(** The service answers 503. *)
Lemma search_returns_the_parsed_body_or_nothing_witness :
  let self :=
    SampleNet.brave (Ok {| status := 503; json := Ok PyNone |}) in
  ClientSession (BraveSearchService.aiohttp self) = Ok tt /\
  exists results (printed : list string),
    outcome (BraveSearchService.search (Y:=string) self "news" 3
               "US" "en" "en-US" Sample.world0) = Ok results /\
    length printed <= 1.
Proof.
  cbv zeta. split; [reflexivity|].
  destruct (search_returns_the_parsed_body_or_nothing string
              (SampleNet.brave (Ok {| status := 503; json := Ok PyNone |}))
              "news" 3 "US" "en" "en-US" Sample.world0 eq_refl)
    as (results & printed & Hout & _ & _ & Hlen & _).
  exists results, printed. split; [exact Hout|exact Hlen].
Defined.

(** X21.  One result that the parser does not accept costs all of them:
    when the body lists a result that is not a dictionary, or whose
    profile is not a dictionary, [search] returns the empty list, the
    well-formed results included, and prints that the request failed. *)
Theorem one_malformed_result_discards_all
    (Y : Type) self query count country search_lang ui_lang w
    entries items bad :
  ClientSession (BraveSearchService.aiohttp self) = Ok tt ->
  body_of (web_search_response self query count country search_lang ui_lang) =
    Some (PyDict entries) ->
  listed_results entries = Some items ->
  In bad items ->
  is_web_result bad = false ->
  let r := BraveSearchService.search (Y:=Y) self query count
             country search_lang ui_lang w in
  exists e,
    outcome r = Ok [] /\
    trace (final r) =
      trace w ++ [Printed ("Brave Search request failed: " +:+ str e)].
Proof.
  intros Hsession Hbody Hlisted Hin Hbad. cbv zeta.
  rewrite search_run, Hsession. unfold body_of in Hbody.
  destruct (web_search_response _ _ _ _ _ _) as [response|]; [|discriminate].
  destruct (status response =? 200)%nat; [|discriminate].
  destruct (json response) as [data|]; [|discriminate].
  injection Hbody as ->.
  rewrite (parse_search_results_listed _ _ Hlisted).
  destruct (append_each_raises BraveSearchService.web_entry items bad Hin
              (web_entry_rejected bad Hbad)) as [e ->].
  exists e. split; reflexivity.
Qed.

(** Two results, the second of which is a string. *)
Lemma one_malformed_result_discards_all_witness :
  let good := PyDict [("title", PyStr "Bitcoin today")] in
  let bad := PyStr "sponsored" in
  let entries := [("web", PyDict [("results", PyList [good; bad])])] in
  let self := SampleNet.brave (SampleNet.ok_body (PyDict entries)) in
  ClientSession (BraveSearchService.aiohttp self) = Ok tt /\
  body_of (web_search_response self "news" 3 "US" "en" "en-US") =
    Some (PyDict entries) /\
  listed_results entries = Some [good; bad] /\
  In bad [good; bad] /\
  is_web_result bad = false /\
  outcome (BraveSearchService.search (Y:=string) self "news" 3
             "US" "en" "en-US" Sample.world0) = Ok [].
Proof.
  cbv zeta. split; [reflexivity|]. split; [reflexivity|].
  split; [reflexivity|]. split; [right; left; reflexivity|].
  split; [reflexivity|].
  destruct (one_malformed_result_discards_all string
              (SampleNet.brave
                 (SampleNet.ok_body
                    (PyDict
                       [("web",
                         PyDict
                           [("results",
                             PyList [PyDict [("title", PyStr "Bitcoin today")];
                                     PyStr "sponsored"])])])))
              "news" 3 "US" "en" "en-US" Sample.world0
              [("web",
                PyDict
                  [("results",
                    PyList [PyDict [("title", PyStr "Bitcoin today")];
                            PyStr "sponsored"])])]
              [PyDict [("title", PyStr "Bitcoin today")]; PyStr "sponsored"]
              (PyStr "sponsored")
              eq_refl eq_refl eq_refl (or_intror (or_introl eq_refl)) eq_refl)
    as (e & Hout & _).
  exact Hout.
Defined.

(** X22.  The router module binds neither the two service classes nor
    the settings, so the endpoints for web search, news and market data
    cannot name them: each raises a name error as the first step inside
    its own try and answers 500 on every call, whatever the query, the
    settings and the network.  The detail names the class that is not
    defined, nothing is printed and the store is not touched. *)
Theorem data_endpoints_answer_500_on_every_call
    (Y : Type) float settings aiohttp query count symbols w :
  Router.search_web (Y:=Y) settings aiohttp query count w =
    MkRun [] (Ok (Router.HTTPException 500
                    "Search failed: name 'BraveSearchService' is not defined"))
          w /\
  Router.search_news (Y:=Y) settings aiohttp query count w =
    MkRun [] (Ok (Router.HTTPException 500
                    "News search failed: name 'BraveSearchService' is not defined"))
          w /\
  Router.get_crypto_market (Y:=Y) float settings aiohttp symbols w =
    MkRun [] (Ok (Router.HTTPException 500
                    "Failed to get market data: name 'BinanceService' is not defined"))
          w /\
  Forall (fun name => ~ In name Router.module_names)
         ["BraveSearchService"; "BinanceService"; "settings"].
Proof.
  split; [reflexivity|]. split; [reflexivity|]. split; [reflexivity|].
  repeat constructor; intros Hin; cbn in Hin;
    repeat (destruct Hin as [Hin|Hin]; [discriminate Hin|]); exact Hin.
Qed.

(** ** Market data *)

Lemma keys_setitem key value entries x :
  In x (keys (PyObject.setitem key value entries)) ->
  x = key \/ In x (keys entries).
Proof.
  unfold keys. induction entries as [|[k v] entries IH]; cbn [PyObject.setitem].
  - cbn. intros [<-|[]]. left. reflexivity.
  - destruct (String.eqb k key); cbn [map fst In]; [auto|].
    intros [<-|H]; [auto|]. destruct (IH H); auto.
Qed.

Lemma keys_setitem_nodup key value entries :
  NoDup (keys entries) -> NoDup (keys (PyObject.setitem key value entries)).
Proof.
  unfold keys. induction entries as [|[k v] entries IH]; cbn [PyObject.setitem].
  - intros _. apply NoDup_singleton.
  - cbn [map fst]. intros [Hk Hnd]%NoDup_cons.
    destruct (String.eqb_spec k key) as [->|Hne]; cbn [map fst];
      apply NoDup_cons; split; auto.
    intros Hin%list_elem_of_In. apply Hk, list_elem_of_In.
    apply keys_setitem in Hin as [->|Hin]; [congruence|exact Hin].
Qed.

Lemma listed_in symbol symbols :
  BinanceService.listed symbol symbols = true ->
  exists s, symbol = PyStr s /\ In s symbols.
Proof.
  destruct symbol as [| | | |s| |]; try discriminate.
  cbn [BinanceService.listed]. intros (x & Hin & Heq%String.eqb_eq)%existsb_exists.
  exists s. subst. auto.
Qed.

Lemma parse_items_keys float items symbols :
  forall acc parsed,
    BinanceService.parse_items float items symbols acc = Ok parsed ->
    Forall (fun key => In key symbols) (keys acc) ->
    NoDup (keys acc) ->
    Forall (fun key => In key symbols) (keys parsed) /\ NoDup (keys parsed).
Proof.
  induction items as [|item items IH]; intros acc parsed; cbn [BinanceService.parse_items].
  - intros [= <-]. auto.
  - destruct (PyObject.getitem item "symbol") as [symbol|]; [|discriminate].
    cbn [and_then].
    destruct (BinanceService.listed symbol symbols) eqn:Hlisted; [|apply IH].
    destruct (BinanceService.ticker float item) as [entry|]; [|discriminate].
    cbn [and_then].
    apply listed_in in Hlisted as (s & -> & Hs).
    intros Hparse Hkeys Hnd. apply (IH _ _ Hparse).
    + apply List.Forall_forall. intros x [->|Hx]%keys_setitem; [exact Hs|].
      rewrite List.Forall_forall in Hkeys. auto.
    + apply keys_setitem_nodup, Hnd.
Qed.

Lemma parse_items_raises float items symbols bad :
  In bad items ->
  (exists e, PyObject.getitem bad "symbol" = Raise e) ->
  forall acc, exists e,
    BinanceService.parse_items float items symbols acc = Raise e.
Proof.
  intros Hin [e He]. induction items as [|item items IH]; [destruct Hin|].
  intros acc. cbn [BinanceService.parse_items]. destruct Hin as [->|Hin].
  - rewrite He. eexists; reflexivity.
  - destruct (PyObject.getitem item "symbol") as [symbol|];
      [|eexists; reflexivity].
    cbn [and_then].
    destruct (BinanceService.listed symbol symbols); [|apply (IH Hin)].
    destruct (BinanceService.ticker float item) as [entry|];
      [|eexists; reflexivity].
    cbn [and_then]. destruct symbol; apply (IH Hin).
Qed.

Lemma get_market_data_run {Y} float self symbols w :
  BinanceService.get_market_data (Y:=Y) float self symbols w =
  match ClientSession (BinanceService.aiohttp self) with
  | Raise e => MkRun [] (Raise e) w
  | Ok _ =>
      match ticker_response self with
      | Raise e =>
          MkRun [] (Ok [])
            (logged (Printed ("Binance market data request failed: " +:+
                              str e)) w)
      | Ok response =>
          if (status response =? 200)%nat then
            match json response with
            | Raise e =>
                MkRun [] (Ok [])
                  (logged (Printed ("Binance market data request failed: " +:+
                                    str e)) w)
            | Ok data =>
                match BinanceService._parse_market_data float data
                        (default BinanceService.default_symbols symbols) with
                | Raise e =>
                    MkRun [] (Ok [])
                      (logged (Printed
                                 ("Binance market data request failed: " +:+
                                  str e)) w)
                | Ok market_data => MkRun [] (Ok market_data) w
                end
            end
          else MkRun [] (Ok []) w
      end
  end.
Proof.
  unfold BinanceService.get_market_data, ticker_response.
  rewrite bind_run.
  destruct (ClientSession (BinanceService.aiohttp self)) as [[]|e];
    [|reflexivity].
  cbn [await ret yielded outcome final app].
  rewrite try_except_run, bind_run.
  destruct (session_get _ _ _ _) as [response|e]; [|reflexivity].
  cbn [await ret yielded outcome final app].
  destruct (status response =? 200)%nat; [|reflexivity].
  rewrite bind_run.
  destruct (json response) as [data|e]; [|reflexivity].
  cbn [await ret yielded outcome final app].
  destruct symbols as [symbols|]; cbn [default];
    destruct (BinanceService._parse_market_data float data _); reflexivity.
Qed.

(** X23.  Once the client session is entered, [get_market_data] never
    raises, whatever the exchange answers and whatever [float] does, and
    it reports only what was asked for: every key of the dictionary it
    returns is one of the symbols passed in, or one of the five default
    symbols when none were passed, and no key occurs twice. *)
Theorem market_data_holds_requested_symbols_only
    (Y : Type) float self symbols w :
  ClientSession (BinanceService.aiohttp self) = Ok tt ->
  let r := BinanceService.get_market_data (Y:=Y) float self symbols w in
  exists market_data,
    outcome r = Ok market_data /\
    store (final r) = store w /\
    Forall (fun key =>
              In key (default ["BTCUSDT"; "ETHUSDT"; "BNBUSDT"; "ADAUSDT";
                               "SOLUSDT"] symbols))
           (keys market_data) /\
    NoDup (keys market_data).
Proof.
  intros Hsession. cbv zeta. rewrite get_market_data_run, Hsession.
  assert (Hempty : forall w' : World,
    store w' = store w ->
    exists market_data,
      outcome (MkRun (@nil Y) (Ok (@nil (string * PyValue))) w') = Ok market_data /\
      store (final (MkRun (@nil Y) (Ok (@nil (string * PyValue))) w')) = store w /\
      Forall (fun key =>
                In key (default ["BTCUSDT"; "ETHUSDT"; "BNBUSDT"; "ADAUSDT";
                                 "SOLUSDT"] symbols))
             (keys market_data) /\
      NoDup (keys market_data)).
  { intros w' Hw'. exists []. repeat split; [exact Hw'|constructor..]. }
  destruct (ticker_response self) as [response|e];
    [|apply Hempty; reflexivity].
  destruct (status response =? 200)%nat; [|apply Hempty; reflexivity].
  destruct (json response) as [data|e]; [|apply Hempty; reflexivity].
  destruct (BinanceService._parse_market_data float data _)
    as [market_data|e] eqn:Hparse; [|apply Hempty; reflexivity].
  exists market_data. split; [reflexivity|]. split; [reflexivity|].
  unfold BinanceService._parse_market_data in Hparse.
  destruct (PyObject.iter data) as [items|]; [|discriminate].
  cbn [and_then] in Hparse.
  apply (parse_items_keys _ _ _ _ _ Hparse); constructor.
Qed.

(** The exchange lists three tickers; two of them are asked for. *)
Lemma market_data_holds_requested_symbols_only_witness :
  let data :=
    PyList [SampleNet.ticker_of "BTCUSDT" "64000.0";
            SampleNet.ticker_of "DOGEUSDT" "0.1";
            SampleNet.ticker_of "ETHUSDT" "3000.0"] in
  let self := SampleNet.binance (SampleNet.ok_body data) in
  ClientSession (BinanceService.aiohttp self) = Ok tt /\
  exists market_data,
    outcome (BinanceService.get_market_data (Y:=string) SampleNet.float self
               None Sample.world0) = Ok market_data /\
    NoDup (keys market_data).
Proof.
  cbv zeta. split; [reflexivity|].
  destruct (market_data_holds_requested_symbols_only string SampleNet.float
              (SampleNet.binance
                 (SampleNet.ok_body
                    (PyList [SampleNet.ticker_of "BTCUSDT" "64000.0";
                             SampleNet.ticker_of "DOGEUSDT" "0.1";
                             SampleNet.ticker_of "ETHUSDT" "3000.0"])))
              None Sample.world0 eq_refl)
    as (market_data & Hout & _ & _ & Hnd).
  exists market_data. split; [exact Hout|exact Hnd].
Defined.

(** X24.  One ticker without a symbol costs all market data: when the
    exchange's list holds a dictionary that has no symbol key, even
    after well-formed tickers of requested symbols, [get_market_data]
    returns the empty dictionary and prints that the request failed. *)
Theorem one_ticker_without_symbol_loses_all_market_data
    (Y : Type) float self symbols w items bad :
  ClientSession (BinanceService.aiohttp self) = Ok tt ->
  body_of (ticker_response self) = Some (PyList items) ->
  In (PyDict bad) items ->
  PyObject.lookup "symbol" bad = None ->
  let r := BinanceService.get_market_data (Y:=Y) float self symbols w in
  exists e,
    outcome r = Ok [] /\
    trace (final r) =
      trace w ++ [Printed ("Binance market data request failed: " +:+ str e)].
Proof.
  intros Hsession Hbody Hin Hbad. cbv zeta.
  rewrite get_market_data_run, Hsession. unfold body_of in Hbody.
  destruct (ticker_response self) as [response|]; [|discriminate].
  destruct (status response =? 200)%nat; [|discriminate].
  destruct (json response) as [data|]; [|discriminate].
  injection Hbody as ->.
  unfold BinanceService._parse_market_data. cbn [PyObject.iter and_then].
  destruct (parse_items_raises float items
              (default BinanceService.default_symbols symbols) (PyDict bad) Hin)
    with (acc := @nil (string * PyValue)) as [e ->].
  { cbn [PyObject.getitem]. rewrite Hbad. eexists; reflexivity. }
  exists e. split; reflexivity.
Qed.

(** The Bitcoin ticker, then an entry without a symbol. *)
Lemma one_ticker_without_symbol_loses_all_market_data_witness :
  let items := [SampleNet.ticker_of "BTCUSDT" "64000.0";
                PyDict [("lastPrice", PyStr "1.0")]] in
  let self := SampleNet.binance (SampleNet.ok_body (PyList items)) in
  ClientSession (BinanceService.aiohttp self) = Ok tt /\
  body_of (ticker_response self) = Some (PyList items) /\
  In (PyDict [("lastPrice", PyStr "1.0")]) items /\
  PyObject.lookup "symbol" [("lastPrice", PyStr "1.0")] = None /\
  outcome (BinanceService.get_market_data (Y:=string) SampleNet.float self
             None Sample.world0) = Ok [].
Proof.
  cbv zeta. split; [reflexivity|]. split; [reflexivity|].
  split; [right; left; reflexivity|]. split; [reflexivity|].
  destruct (one_ticker_without_symbol_loses_all_market_data string
              SampleNet.float
              (SampleNet.binance
                 (SampleNet.ok_body
                    (PyList [SampleNet.ticker_of "BTCUSDT" "64000.0";
                             PyDict [("lastPrice", PyStr "1.0")]])))
              None Sample.world0
              [SampleNet.ticker_of "BTCUSDT" "64000.0";
               PyDict [("lastPrice", PyStr "1.0")]]
              [("lastPrice", PyStr "1.0")]
              eq_refl eq_refl (or_intror (or_introl eq_refl)) eq_refl)
    as (e & Hout & _).
  exact Hout.
Defined.

(** ** The model tables *)

Lemma groq_actual_model model_id :
  In (default "llama-3.1-70b-versatile" (groq_model_map !! model_id))
     ["llama-3.1-70b-versatile"; "llama-3.1-8b-instant";
      "mixtral-8x7b-32768"; "gemma-7b-it"].
Proof.
  unfold groq_model_map.
  destruct (decide (model_id = "groq-llama-3.1-70b")) as [->|H1];
    [rewrite lookup_insert; cbn; auto|rewrite lookup_insert_ne by congruence].
  destruct (decide (model_id = "groq-llama-3.1-8b")) as [->|H2];
    [rewrite lookup_insert; cbn; auto|rewrite lookup_insert_ne by congruence].
  destruct (decide (model_id = "groq-mixtral")) as [->|H3];
    [rewrite lookup_insert; cbn; auto|rewrite lookup_insert_ne by congruence].
  destruct (decide (model_id = "groq-gemma")) as [->|H4];
    [rewrite lookup_insert; cbn; auto 6|rewrite lookup_insert_ne by congruence].
  rewrite lookup_empty. cbn. auto.
Qed.

(** X25.  The Groq generator and the Groq configuration agree: whatever
    model id it is called with, the generator makes its one call for a
    model that the configuration lists and describes, and every model of
    the configuration is the target of one of the generator's
    aliases. *)
Theorem groq_generator_requests_a_configured_model self messages model_id w :
  (exists request,
     trace (final (_generate_groq_response self messages model_id w)) =
       trace w ++ [StreamCreated Groq request] /\
     In (model request) GroqConfig.get_available_models /\
     GroqConfig.get_model_info (model request) <> None) /\
  Forall (fun configured =>
            exists alias, groq_model_map !! alias = Some configured)
         GroqConfig.get_available_models.
Proof.
  split.
  - rewrite groq_run. eexists. split; [reflexivity|].
    cbn [groq_request model].
    pose proof (groq_actual_model model_id) as Hin.
    split; [exact Hin|].
    cbn [In] in Hin.
    destruct Hin as [<-|[<-|[<-|[<-|[]]]]]; discriminate.
  - repeat constructor.
    + exists "groq-llama-3.1-70b". reflexivity.
    + exists "groq-llama-3.1-8b". reflexivity.
    + exists "groq-mixtral". reflexivity.
    + exists "groq-gemma". reflexivity.
Qed.

(** X26.  Every model that the model list offers is routed to the
    generator of the provider that the list names for it.  It is
    requested under its own id, with one exception: the entry
    llama-3.1-8b-instant is requested from Groq as
    llama-3.1-70b-versatile. *)
Theorem listed_models_reach_their_provider messages :
  Forall (fun card =>
            exists family,
              routed (Router.id card) = Some family /\
              Router.provider card = provider_name family /\
              model (family_request family (Router.id card) messages) =
                if String.eqb (Router.id card) "llama-3.1-8b-instant"
                then "llama-3.1-70b-versatile"
                else Router.id card)
         Router.get_available_models.
Proof.
  repeat constructor.
  - exists OpenAI. repeat split; reflexivity.
  - exists Groq. repeat split; reflexivity.
  - exists Groq. repeat split; reflexivity.
  - exists Anthropic. repeat split; reflexivity.
Qed.

(** ** Enrichment without results *)

(** X27.  Results that are empty count as no results: when the search
    gives no result (it raises or returns the empty list) and the market
    data likewise, the context that enrichment returns adds nothing to
    the prompt, and the system message is the plain instruction. *)
Theorem no_results_leave_the_prompt_plain
    (Y : Type) self user_message conversation_messages w :
  (forall results, brave_search self user_message 3 = Ok results ->
                   results = []) ->
  (forall crypto, binance_service self = Ok crypto -> crypto = []) ->
  exists context,
    outcome (_get_enhanced_context (Y:=Y) self user_message w) = Ok context /\
    hd_error (_prepare_messages conversation_messages user_message context) =
      Some {| msg_role := "system"; msg_content := base_instruction |}.
Proof.
  intros Hsearch Hmarket.
  destruct (enrichment_closed_form Y self user_message w) as (_ & Hout & _).
  exists (enriched_context self user_message). split; [exact Hout|].
  rewrite prepare_messages_shape, system_content_sections. cbn [hd_error].
  assert (Hweb : web_section (enriched_context self user_message) = "").
  { unfold web_section, enriched_context. cbn [web_search].
    destruct (mentions freshness_keywords user_message); [|reflexivity].
    destruct (brave_search self user_message 3) as [results|];
      [|reflexivity].
    rewrite (Hsearch results eq_refl). reflexivity. }
  assert (Hcrypto : crypto_section (enriched_context self user_message) = "").
  { unfold crypto_section, enriched_context. cbn [crypto_data].
    destruct (mentions market_keywords user_message); [|reflexivity].
    destruct (binance_service self) as [crypto|]; [|reflexivity].
    rewrite (Hmarket crypto eq_refl). reflexivity. }
  rewrite Hweb, Hcrypto, !append_nil_r. reflexivity.
Qed.

(** A question about the latest prices, asked of the quiet service. *)
Lemma no_results_leave_the_prompt_plain_witness :
  (forall results,
     brave_search quiet_service "latest bitcoin price" 3 = Ok results ->
     results = []) /\
  (forall crypto, binance_service quiet_service = Ok crypto -> crypto = []) /\
  mentions freshness_keywords "latest bitcoin price" = true /\
  mentions market_keywords "latest bitcoin price" = true /\
  exists context,
    outcome (_get_enhanced_context (Y:=string) quiet_service
               "latest bitcoin price" Sample.world0) = Ok context /\
    hd_error (_prepare_messages [] "latest bitcoin price" context) =
      Some {| msg_role := "system"; msg_content := base_instruction |}.
Proof.
  assert (H1 : forall results,
            brave_search quiet_service "latest bitcoin price" 3 = Ok results ->
            results = [])
    by (intros results [= <-]; reflexivity).
  assert (H2 : forall crypto,
            binance_service quiet_service = Ok crypto -> crypto = [])
    by (intros crypto [=]).
  split; [exact H1|]. split; [exact H2|].
  split; [reflexivity|]. split; [reflexivity|].
  exact (no_results_leave_the_prompt_plain string quiet_service
           "latest bitcoin price" [] Sample.world0 H1 H2).
Defined.

(** ** Creating a conversation *)

(** X28.  The conversation endpoint stores at most one row and never
    touches the messages.  The row has the title that was sent and the
    id of the current user, and its model id is gpt-4 whatever model id
    the request carried: that field of the request is not passed on.  A
    conversation that is returned is the row that was stored. *)
Theorem created_conversation_ignores_the_requested_model
    (Y : Type) conversation_data db current_user_id w :
  let r := create_conversation_endpoint (Y:=Y) conversation_data db
             current_user_id w in
  stored_messages (store (final r)) = stored_messages (store w) /\
  exists added,
    conversations (store (final r)) = conversations (store w) ++ added /\
    length added <= 1 /\
    Forall (fun conversation =>
              conversation_model_id conversation = "gpt-4" /\
              conversation_title conversation =
                create_title conversation_data /\
              conversation_user_id conversation = current_user_id)
           added /\
    match outcome r with
    | Ok conversation => added = [conversation]
    | Raise _ => True
    end.
Proof.
  cbv zeta. unfold create_conversation_endpoint, create_conversation.
  destruct (conversation_commit_fault db _ _) as [e|].
  { split; [reflexivity|]. exists []. cbn. rewrite app_nil_r.
    repeat split; auto. }
  destruct (conversation_refresh_fault db _ _) as [e|];
    (split; [reflexivity|]); eexists [_]; cbn;
    repeat split; auto; repeat constructor.
Qed.

(** ** News *)

Lemma news_entry_dict item :
  is_dict item = true -> BraveSearchService.news_entry item = Ok (news_result item).
Proof. destruct item; try discriminate. reflexivity. Qed.

Lemma search_news_run {Y} self query count w :
  BraveSearchService.search_news (Y:=Y) self query count w =
  match ClientSession (BraveSearchService.aiohttp self) with
  | Raise e => MkRun [] (Raise e) w
  | Ok _ =>
      match news_response self query count with
      | Raise e =>
          MkRun [] (Ok [])
                (logged (Printed ("Brave News search failed: " +:+ str e)) w)
      | Ok response =>
          if (status response =? 200)%nat then
            match json response with
            | Raise e =>
                MkRun [] (Ok [])
                  (logged (Printed ("Brave News search failed: " +:+ str e)) w)
            | Ok data =>
                match BraveSearchService._parse_news_results data with
                | Raise e =>
                    MkRun [] (Ok [])
                      (logged (Printed ("Brave News search failed: " +:+
                                        str e)) w)
                | Ok results => MkRun [] (Ok results) w
                end
            end
          else MkRun [] (Ok []) w
      end
  end.
Proof.
  unfold BraveSearchService.search_news, news_response.
  rewrite bind_run.
  destruct (ClientSession (BraveSearchService.aiohttp self)) as [[]|e];
    [|reflexivity].
  cbn [await ret yielded outcome final app].
  rewrite try_except_run, bind_run.
  destruct (session_get _ _ _ _) as [response|e]; [|reflexivity].
  cbn [await ret yielded outcome final app].
  destruct (status response =? 200)%nat; [|reflexivity].
  rewrite bind_run.
  destruct (json response) as [data|e]; [|reflexivity].
  cbn [await ret yielded outcome final app].
  destruct (BraveSearchService._parse_news_results data); reflexivity.
Qed.

(** X29.  The news search of the search service, once the client
    session is entered, never raises and returns a list of articles.
    For a response with status 200 whose body lists dictionaries under
    results, the articles are those results, one for one and in order,
    each with the keys title, description, url, published (its age) and
    source (its own source field), and nothing is printed.  For any
    other status the articles are empty and, unlike the web search,
    nothing is printed. *)
Theorem news_search_returns_the_listed_articles
    (Y : Type) self query count w :
  ClientSession (BraveSearchService.aiohttp self) = Ok tt ->
  let r := BraveSearchService.search_news (Y:=Y) self query count w in
  exists articles,
    outcome r = Ok articles /\
    (forall entries items,
       body_of (news_response self query count) = Some (PyDict entries) ->
       PyObject.lookup "results" entries = Some (PyList items) ->
       forallb is_dict items = true ->
       articles = map news_result items /\ final r = w) /\
    (forall response,
       news_response self query count = Ok response ->
       status response <> 200 ->
       articles = [] /\ final r = w).
Proof.
  intros Hsession. cbv zeta.
  rewrite search_news_run, Hsession. unfold body_of.
  destruct (news_response _ _ _) as [response|e].
  2:{ exists []. split; [reflexivity|]. split; [discriminate|discriminate]. }
  destruct (Nat.eqb_spec (status response) 200) as [H200|H200].
  2:{ exists []. split; [reflexivity|]. split; [discriminate|].
      intros response' [= <-] _. split; reflexivity. }
  destruct (json response) as [data|e].
  2:{ exists []. split; [reflexivity|]. split; [discriminate|].
      intros response' [= <-] Hne. destruct (Hne H200). }
  destruct (BraveSearchService._parse_news_results data) as [results|e]
    eqn:Hparse.
  - exists results. split; [reflexivity|]. split.
    + intros entries items [= ->] Hresults Hitems. split; [|reflexivity].
      unfold BraveSearchService._parse_news_results in Hparse.
      cbn [PyObject.contains PyObject.getitem and_then] in Hparse.
      rewrite Hresults in Hparse. cbn [and_then PyObject.iter] in Hparse.
      rewrite (append_each_ok BraveSearchService.news_entry news_result)
        in Hparse; [congruence|].
      apply List.Forall_forall. intros item Hin. apply news_entry_dict.
      rewrite List.forallb_forall in Hitems. auto.
    + intros response' [= <-] Hne. destruct (Hne H200).
  - exists []. split; [reflexivity|]. split.
    + intros entries items [= ->] Hresults Hitems. exfalso.
      unfold BraveSearchService._parse_news_results in Hparse.
      cbn [PyObject.contains PyObject.getitem and_then] in Hparse.
      rewrite Hresults in Hparse. cbn [and_then PyObject.iter] in Hparse.
      rewrite (append_each_ok BraveSearchService.news_entry news_result)
        in Hparse; [discriminate|].
      apply List.Forall_forall. intros item Hin. apply news_entry_dict.
      rewrite List.forallb_forall in Hitems. auto.
    + intros response' [= <-] Hne. destruct (Hne H200).
Qed.

(** One article, found. *)
Lemma news_search_returns_the_listed_articles_witness :
  let article := PyDict [("title", PyStr "Rates"); ("source", PyStr "Wire")] in
  let self :=
    SampleNet.brave
      (SampleNet.ok_body (PyDict [("results", PyList [article])])) in
  ClientSession (BraveSearchService.aiohttp self) = Ok tt /\
  exists articles,
    outcome (BraveSearchService.search_news (Y:=string) self "rates" 5
               Sample.world0) = Ok articles /\
    articles = [news_result article].
Proof.
  cbv zeta. split; [reflexivity|].
  destruct (news_search_returns_the_listed_articles string
              (SampleNet.brave
                 (SampleNet.ok_body
                    (PyDict [("results",
                              PyList [PyDict [("title", PyStr "Rates");
                                              ("source", PyStr "Wire")]])])))
              "rates" 5 Sample.world0 eq_refl)
    as (articles & Hout & Hlisted & _).
  exists articles. split; [exact Hout|].
  exact (proj1 (Hlisted _ _ eq_refl eq_refl eq_refl)).
Defined.

(** ** Market data of well-formed tickers *)

Lemma setitem_fresh key value entries :
  ~ In key (keys entries) ->
  PyObject.setitem key value entries = entries ++ [(key, value)].
Proof.
  unfold keys. induction entries as [|[k v] entries IH]; [reflexivity|].
  cbn [map fst In PyObject.setitem app]. intros Hnot.
  destruct (String.eqb_spec k key) as [->|Hne]; [tauto|].
  rewrite IH by tauto. reflexivity.
Qed.

Lemma symbol_of_getitem item s :
  symbol_of item = Some s -> PyObject.getitem item "symbol" = Ok (PyStr s).
Proof.
  unfold symbol_of.
  destruct (PyObject.getitem item "symbol") as [[| | | |s'| |]|];
    try discriminate.
  intros [= ->]. reflexivity.
Qed.

Lemma parse_items_tickers float symbols items :
  forallb (is_ticker float symbols) items = true ->
  NoDup (symbols_listed items) ->
  forall acc,
    (forall s, In s (symbols_listed items) -> ~ In s (keys acc)) ->
    BinanceService.parse_items float items symbols acc =
    Ok (acc ++ requested_tickers float symbols items).
Proof.
  induction items as [|item items IH]; intros Hok Hnd acc Hfresh.
  - cbn. rewrite app_nil_r. reflexivity.
  - cbn [forallb] in Hok. apply andb_prop in Hok as [Hitem Hitems].
    unfold is_ticker in Hitem.
    cbn [symbols_listed flat_map] in Hnd, Hfresh.
    cbn [requested_tickers flat_map BinanceService.parse_items].
    destruct (symbol_of item) as [s|] eqn:Hs; [|discriminate].
    rewrite (symbol_of_getitem _ _ Hs). cbn [and_then BinanceService.listed].
    cbn [app] in Hnd, Hfresh. apply NoDup_cons in Hnd as [Hs_new Hnd].
    fold (symbols_listed items) in Hs_new, Hnd, Hfresh.
    fold (requested_tickers float symbols items).
    destruct (existsb (String.eqb s) symbols).
    + destruct (BinanceService.ticker float item) as [entry|]; [|discriminate].
      cbn [and_then]. rewrite setitem_fresh by (apply Hfresh; left; reflexivity).
      rewrite (IH Hitems Hnd).
      * rewrite <- app_assoc. reflexivity.
      * intros s' Hin. unfold keys. rewrite map_app, in_app_iff.
        cbn [map fst In]. intros [Hacc|[<-|[]]].
        -- apply (Hfresh s'); [right; exact Hin|exact Hacc].
        -- apply Hs_new, list_elem_of_In, Hin.
    + rewrite (IH Hitems Hnd).
      * destruct (BinanceService.ticker float item); reflexivity.
      * intros s' Hin. apply Hfresh. right. exact Hin.
Qed.

Lemma requested_tickers_keys float symbols items :
  forallb (is_ticker float symbols) items = true ->
  keys (requested_tickers float symbols items) =
  List.filter (fun s => existsb (String.eqb s) symbols) (symbols_listed items).
Proof.
  unfold keys. induction items as [|item items IH]; [reflexivity|].
  cbn [forallb]. intros [Hitem Hitems]%andb_prop.
  cbn [requested_tickers symbols_listed flat_map].
  rewrite map_app, List.filter_app.
  fold (requested_tickers float symbols items). fold (symbols_listed items).
  rewrite (IH Hitems). f_equal.
  unfold is_ticker in Hitem.
  destruct (symbol_of item) as [s|]; [|discriminate].
  cbn [List.filter].
  destruct (existsb (String.eqb s) symbols); [|
    destruct (BinanceService.ticker float item); reflexivity].
  destruct (BinanceService.ticker float item); [reflexivity|discriminate].
Qed.

(** X30.  Market data of a well-formed list: when every ticker of the
    exchange's list has a string as its symbol, no symbol occurs twice,
    and the prices of the tickers that are asked for are there and
    convert, the parser returns one entry for each ticker whose symbol
    is asked for, under that symbol, in the order of the exchange's
    list; the tickers of other symbols are passed over, even when their
    prices are missing.  Symbols that the exchange does not list get no
    entry. *)
Theorem requested_tickers_are_returned_in_exchange_order
    float symbols items :
  forallb (is_ticker float symbols) items = true ->
  NoDup (symbols_listed items) ->
  exists market_data,
    BinanceService._parse_market_data float (PyList items) symbols =
      Ok market_data /\
    keys market_data =
      List.filter (fun s => existsb (String.eqb s) symbols)
                  (symbols_listed items) /\
    Forall (fun entry =>
              exists item,
                In item items /\
                symbol_of item = Some (fst entry) /\
                BinanceService.ticker float item = Ok (snd entry))
           market_data.
Proof.
  intros Hok Hnd. exists (requested_tickers float symbols items).
  split; [|split].
  - unfold BinanceService._parse_market_data. cbn [PyObject.iter and_then].
    rewrite (parse_items_tickers float symbols items Hok Hnd []);
      [reflexivity|].
    intros s _ [].
  - apply requested_tickers_keys, Hok.
  - apply List.Forall_forall. intros [s entry].
    unfold requested_tickers. rewrite in_flat_map.
    intros (item & Hin & Hentry). exists item. split; [exact Hin|].
    destruct (symbol_of item) as [s'|]; [|destruct Hentry].
    destruct (BinanceService.ticker float item) as [entry'|];
      [|destruct Hentry].
    destruct (existsb (String.eqb s') symbols); [|destruct Hentry].
    destruct Hentry as [[= <- <-]|[]]. split; reflexivity.
Qed.

(** Three tickers, the second of a symbol that is not asked for and
    without prices. *)
Lemma requested_tickers_are_returned_in_exchange_order_witness :
  let items :=
    [SampleNet.ticker_of "ETHUSDT" "3000.0";
     PyDict [("symbol", PyStr "DOGEUSDT")];
     SampleNet.ticker_of "BTCUSDT" "64000.0"] in
  let symbols := ["BTCUSDT"; "ETHUSDT"; "SOLUSDT"] in
  forallb (is_ticker SampleNet.float symbols) items = true /\
  NoDup (symbols_listed items) /\
  exists market_data,
    BinanceService._parse_market_data SampleNet.float (PyList items) symbols =
      Ok market_data /\
    keys market_data = ["ETHUSDT"; "BTCUSDT"].
Proof.
  cbv zeta.
  assert (Hnd : NoDup (symbols_listed
                         [SampleNet.ticker_of "ETHUSDT" "3000.0";
                          PyDict [("symbol", PyStr "DOGEUSDT")];
                          SampleNet.ticker_of "BTCUSDT" "64000.0"])).
  { apply NoDup_ListNoDup. repeat constructor; cbn; intuition discriminate. }
  split; [reflexivity|]. split; [exact Hnd|].
  destruct (requested_tickers_are_returned_in_exchange_order SampleNet.float
              ["BTCUSDT"; "ETHUSDT"; "SOLUSDT"]
              [SampleNet.ticker_of "ETHUSDT" "3000.0";
               PyDict [("symbol", PyStr "DOGEUSDT")];
               SampleNet.ticker_of "BTCUSDT" "64000.0"]
              eq_refl Hnd)
    as (market_data & Hparse & Hkeys & _).
  exists market_data. split; [exact Hparse|exact Hkeys].
Defined.
